(** * The standalone color picker: controller, floating widget, result computer

    A shallow embedding of
    [src/vs/editor/contrib/colorPicker/browser/standaloneColorPickerWidget.ts].

    The three classes of the file are three modules below, leaves first:
    [StandaloneColorPickerComputer], [StandaloneColorPickerWidget] and
    [StandaloneColorPickerController].  Objects live in a store ([heap]), the
    controller and the editor hold references (indices) into it, and every
    call made on a collaborator (editor, participant, DOM node) is appended
    to a log ([calls]) in program order. *)

From Stdlib Require Import ZArith String Bool Lia.
From stdpp Require Import base option list.

Local Open Scope nat_scope.

(** ** Data model *)

(** [IRange]: a rectangular text range. *)
Record IRange := {
  startLineNumber : Z;
  startColumn : Z;
  endLineNumber : Z;
  endColumn : Z
}.

(** [Selection] extends [Range]; the code reads its four range coordinates
    only. *)
Definition Selection := IRange.

(** [Position]: line and column of the cursor in the view. *)
Record Position := {
  lineNumber : Z;
  column : Z
}.

(** [IColor]; [alpha] is 1 in the only value this file builds. *)
Record IColor := {
  red : Z;
  green : Z;
  blue : Z;
  alpha : Z
}.

Record IColorInformation := {
  info_range : IRange;
  info_color : IColor
}.

(** A registered document color provider: an object the code passes on
    without looking inside; its name stands for its identity. *)
Definition DocumentColorProvider := string.

(** [ColorHover]: produced by the participant; this code reads [range] only
    and hands the rest ([model]) back untouched. *)
Record ColorHover := {
  range : IRange;
  model : nat
}.

(** [class StandaloneColorPickerResult] *)
Record StandaloneColorPickerResult := {
  value : ColorHover;
  foundInMap : bool
}.

(** What [participant.createColorHover] resolves to: [null] or
    [{ colorHover, foundInMap }]. *)
Definition CreateColorHoverResult := option (ColorHover * bool).

(** [ContentWidgetPositionPreference] and [PositionAffinity], the members
    this file names. *)
Inductive ContentWidgetPositionPreference := EXACT | ABOVE | BELOW.
Inductive PositionAffinity := Left | Right | None_ | LeftOfInjectedText | RightOfInjectedText.

Record IContentWidgetPosition := {
  position : Position;
  secondaryPosition : Position;
  preference : list ContentWidgetPositionPreference;
  positionAffinity : PositionAffinity
}.

(** The picker sub-widget the participant hands over through
    [context.setColorPicker]: [body.enterButton] (absent, or a button with its
    [textContent]) and [header.closeButton] (absent or present). *)
Record ColorPickerWidget := {
  enterButton : option string;
  closeButton : bool
}.

(** ** The color-provider registry *)

(** Modelled from the spec: the color-provider registry
    [languageFeaturesService.colorProvider] (a [LanguageFeatureRegistry] of
    [vs/editor/common/languageFeatureRegistry]) is not in this file; the file
    calls its [register] (in the controller's constructor) and its [ordered]
    (in [computeAsync]).  The spec says of it: "register a default provider
    for a language-wildcard scope; list providers for a document in priority
    order", and of the ordered list that it is in registration order, the
    provider registered last coming last ("the first element after reversal
    is the most recently registered provider").  So a registry is the list of
    the providers registered so far, the oldest first; every provider is taken
    to apply to the document. *)
Module LanguageFeatureRegistry.

Record Registry := {
  entries : list DocumentColorProvider
}.

Definition empty : Registry := {| entries := [] |}.

(** [registry.register(selector, provider)] *)
Definition register (provider : DocumentColorProvider) (r : Registry) : Registry :=
  {| entries := entries r ++ [provider] |}.

(** The providers of a list registered one after the other, the head first. *)
Definition register_all (providers : list DocumentColorProvider) (r : Registry) : Registry :=
  fold_left (λ r provider, register provider r) providers r.

(** [registry.ordered(textModel)] *)
Definition ordered (r : Registry) : list DocumentColorProvider := entries r.

End LanguageFeatureRegistry.

(** ** The event emitter *)

(** Modelled from the spec: [Emitter] of [vs/base/common/event] (and the
    [Disposable] base class that disposes what was registered with
    [_register]) is not in this file.  The spec says of it: a result is
    delivered to the listeners subscribed when the event fires; releasing a
    subscription removes its listener ("the event, if it still fires, finds no
    listener"); after disposal, no further event is observable.  A listener
    is named by a number. *)
Record Emitter := {
  listeners : list nat;
  emitter_disposed : bool
}.

Definition Emitter_new : Emitter :=
  {| listeners := []; emitter_disposed := false |}.

(** [emitter.event(listener)] *)
Definition Emitter_subscribe (l : nat) (e : Emitter) : Emitter :=
  if emitter_disposed e then e
  else {| listeners := listeners e ++ [l]; emitter_disposed := false |}.

(** disposing the subscription returned by [emitter.event(listener)] *)
Definition Emitter_unsubscribe (l : nat) (e : Emitter) : Emitter :=
  {| listeners := filter (λ x, x ≠ l) (listeners e);
     emitter_disposed := emitter_disposed e |}.

(** [emitter.fire(v)]: the deliveries made, in order. *)
Definition Emitter_fire {A : Type} (e : Emitter) (v : A) : list (nat * A) :=
  (λ l, (l, v)) <$> listeners e.

Definition Emitter_dispose (e : Emitter) : Emitter :=
  {| listeners := []; emitter_disposed := true |}.

(** ** The editor, as far as this file uses it *)

Record Editor := {
  (** [hasModel()] *)
  hasModel : bool;
  (** [_getViewModel()?.getPrimaryCursorState().viewState.position] *)
  viewPosition : option Position;
  (** [getSelection()] *)
  selection : option Selection;
  (** [getOption(EditorOption.hover).above] *)
  hoverAbove : bool;
  (** [languageFeaturesService.colorProvider.ordered(textModel)] *)
  ordered : list DocumentColorProvider;
  (** the content-widget layer: the widgets attached, by reference *)
  contentWidgets : list nat;
  (** the listeners of [onDidChangeCursorPosition]: the subscribed widgets *)
  cursorPositionListeners : list nat
}.

(** ** The objects: computer and widget *)

(** [class StandaloneColorPickerComputer].  [_range] is typed [IRange], and
    [start] compares it with [null]: it is an option here.  [_onResult] is the
    emitter behind [onResult]. *)
Record Computer := {
  _range : option IRange;
  _onResult : Emitter
}.

(** [class StandaloneColorPickerWidget].  [_disposables] is the disposal
    store's [isDisposed]; [colorPickerWidget] is the picker whose buttons
    [_render] wired (the closures of [_render] hold it). *)
Record Widget := {
  _position : option Position;
  _selection : option Selection;
  _standaloneColorPickerComputer : Computer;
  _disposables : bool;
  _colorHoverData : option ColorHover;
  _selectionSetInEditor : bool;
  colorPickerWidget : option ColorPickerWidget
}.

(** ** The result computer *)

Module StandaloneColorPickerComputer.

Definition new (range : option IRange) : Computer :=
  {| _range := range; _onResult := Emitter_new |}.

(** [computeAsync], up to its [await]: [None] when it returns [null]
    without asking (no model), else the arguments of the one call
    [this._participant.createColorHover(colorInfo, providers[0])];
    [providers[0]] of an empty array is [undefined], [None] here. *)
Definition computeAsync_ask (editor : Editor) (range : IRange)
  : option (IColorInformation * option DocumentColorProvider) :=
  if negb (hasModel editor) then None
  else
    let colorInfo :=
      {| info_range := range;
         info_color := {| red := 0; green := 0; blue := 0; alpha := 1 |} |} in
    let providers := reverse (ordered editor) in
    Some (colorInfo, head providers).

(** [computeAsync], from its [await] on. *)
Definition computeAsync_answer (createColorHoverResult : CreateColorHoverResult)
  : option (ColorHover * bool) :=
  match createColorHoverResult with
  | None => None
  | Some (colorHover, foundInEditor) => Some (colorHover, foundInEditor)
  end.

(** [computeAsync], with the participant as a function. *)
Definition computeAsync (editor : Editor)
    (createColorHover : IColorInformation → option DocumentColorProvider → CreateColorHoverResult)
    (range : IRange) : option (ColorHover * bool) :=
  match computeAsync_ask editor range with
  | None => None
  | Some (colorInfo, provider) => computeAsync_answer (createColorHover colorInfo provider)
  end.

(** [start], up to the [await] inside [computeAsync]: the lookup it sends
    to the participant, if any. *)
Definition start_ask (this : Computer) (editor : Editor)
  : option (IColorInformation * option DocumentColorProvider) :=
  match _range this with
  | Some range => computeAsync_ask editor range
  | None => None
  end.

(** [start], from the participant's answer on: the argument of
    [this._onResult.fire], when that line is reached. *)
Definition start_answer (createColorHoverResult : CreateColorHoverResult)
  : option StandaloneColorPickerResult :=
  match computeAsync_answer createColorHoverResult with
  | None => None
  | Some (result, foundInEditor) =>
      Some {| value := result; foundInMap := foundInEditor |}
  end.

(** One call of [start] run to its end: the lookups sent to the
    participant, the results passed to [fire], and the deliveries to the
    listeners. *)
Record Outcome := {
  lookups : list (IColorInformation * option DocumentColorProvider);
  fired : list StandaloneColorPickerResult;
  delivered : list (nat * StandaloneColorPickerResult)
}.

Definition start (this : Computer) (editor : Editor)
    (createColorHover : IColorInformation → option DocumentColorProvider → CreateColorHoverResult)
  : Outcome :=
  match start_ask this editor with
  | None => {| lookups := []; fired := []; delivered := [] |}
  | Some (colorInfo, provider) =>
      match start_answer (createColorHover colorInfo provider) with
      | None => {| lookups := [(colorInfo, provider)]; fired := []; delivered := [] |}
      | Some r =>
          {| lookups := [(colorInfo, provider)];
             fired := [r];
             delivered := Emitter_fire (_onResult this) r |}
      end
  end.

(** [dispose]: [super.dispose()] disposes the registered emitter. *)
Definition dispose (this : Computer) : Computer :=
  {| _range := _range this; _onResult := Emitter_dispose (_onResult this) |}.

(** [onResult(listener)] *)
Definition onResult (l : nat) (this : Computer) : Computer :=
  {| _range := _range this; _onResult := Emitter_subscribe l (_onResult this) |}.

(** releasing the subscription that [onResult(listener)] returned *)
Definition onResult_release (l : nat) (this : Computer) : Computer :=
  {| _range := _range this; _onResult := Emitter_unsubscribe l (_onResult this) |}.

(** A client of one computer: calls of [start] (each run to its end, in an
    editor state and with a participant), subscriptions, and [dispose]. *)
Inductive Op :=
| op_start (editor : Editor)
    (createColorHover : IColorInformation → option DocumentColorProvider → CreateColorHoverResult)
| op_onResult (l : nat)
| op_dispose.

(** The results passed to [fire] and the deliveries made while the client
    runs, in order. *)
Fixpoint run (ops : list Op) (this : Computer)
  : list StandaloneColorPickerResult * list (nat * StandaloneColorPickerResult) :=
  match ops with
  | [] => ([], [])
  | op_start editor createColorHover :: ops =>
      let o := start this editor createColorHover in
      let rest := run ops this in
      (fired o ++ rest.1, delivered o ++ rest.2)
  | op_onResult l :: ops => run ops (onResult l this)
  | op_dispose :: ops => run ops (dispose this)
  end.

End StandaloneColorPickerComputer.

(** ** The world the widget and the controller act on *)

(** The calls made on the collaborators, each tagged with the widget that
    makes it where there is one. *)
Inductive Call :=
| createColorHover (w : nat) (colorInfo : IColorInformation) (provider : option DocumentColorProvider)
| onResult_fire (w : nat) (result : StandaloneColorPickerResult)
| renderHoverParts (w : nat) (hoverParts : list ColorHover)
| updateEditorModel (w : nat) (hoverParts : list ColorHover)
| body_appendChild (w : nat)
| colorPickerWidget_layout (w : nat)
| body_focus (w : nat)
| addContentWidget (w : nat)
| removeContentWidget (w : nat)
| layoutContentWidget (w : nat)
| setSelection (r : IRange)
| editor_focus.

(** [heap]: every widget constructed so far, in allocation order; a widget
    is referred to by its index.  [_standaloneColorPickerWidget] is the
    controller's field.  The two context keys are shared by the controller
    and its widgets.  [suspended]: the widgets whose computer's [start] is
    waiting for the participant's answer. *)
Record World := {
  editor : Editor;
  _standaloneColorPickerVisible : bool;
  _standaloneColorPickerFocused : bool;
  heap : list Widget;
  _standaloneColorPickerWidget : option nat;
  suspended : list nat;
  calls : list Call
}.

Definition Action := World → World.

Definition then_ (a b : Action) : Action := λ w, b (a w).

Declare Scope action_scope.
Delimit Scope action_scope with action.
Bind Scope action_scope with Action.
Notation "a >> b" := (then_ a b) (at level 61, left associativity) : action_scope.
Local Open Scope action_scope.

Definition skip : Action := λ w, w.

Definition call (c : Call) : Action := λ w,
  {| editor := editor w;
     _standaloneColorPickerVisible := _standaloneColorPickerVisible w;
     _standaloneColorPickerFocused := _standaloneColorPickerFocused w;
     heap := heap w;
     _standaloneColorPickerWidget := _standaloneColorPickerWidget w;
     suspended := suspended w;
     calls := calls w ++ [c] |}.

Definition set_visible (b : bool) : Action := λ w,
  {| editor := editor w;
     _standaloneColorPickerVisible := b;
     _standaloneColorPickerFocused := _standaloneColorPickerFocused w;
     heap := heap w;
     _standaloneColorPickerWidget := _standaloneColorPickerWidget w;
     suspended := suspended w;
     calls := calls w |}.

Definition set_focused (b : bool) : Action := λ w,
  {| editor := editor w;
     _standaloneColorPickerVisible := _standaloneColorPickerVisible w;
     _standaloneColorPickerFocused := b;
     heap := heap w;
     _standaloneColorPickerWidget := _standaloneColorPickerWidget w;
     suspended := suspended w;
     calls := calls w |}.

Definition set_widget (r : option nat) : Action := λ w,
  {| editor := editor w;
     _standaloneColorPickerVisible := _standaloneColorPickerVisible w;
     _standaloneColorPickerFocused := _standaloneColorPickerFocused w;
     heap := heap w;
     _standaloneColorPickerWidget := r;
     suspended := suspended w;
     calls := calls w |}.

Definition set_heap (h : list Widget) : Action := λ w,
  {| editor := editor w;
     _standaloneColorPickerVisible := _standaloneColorPickerVisible w;
     _standaloneColorPickerFocused := _standaloneColorPickerFocused w;
     heap := h;
     _standaloneColorPickerWidget := _standaloneColorPickerWidget w;
     suspended := suspended w;
     calls := calls w |}.

Definition set_suspended (s : list nat) : Action := λ w,
  {| editor := editor w;
     _standaloneColorPickerVisible := _standaloneColorPickerVisible w;
     _standaloneColorPickerFocused := _standaloneColorPickerFocused w;
     heap := heap w;
     _standaloneColorPickerWidget := _standaloneColorPickerWidget w;
     suspended := s;
     calls := calls w |}.

Definition set_editor (e : Editor) : Action := λ w,
  {| editor := e;
     _standaloneColorPickerVisible := _standaloneColorPickerVisible w;
     _standaloneColorPickerFocused := _standaloneColorPickerFocused w;
     heap := heap w;
     _standaloneColorPickerWidget := _standaloneColorPickerWidget w;
     suspended := suspended w;
     calls := calls w |}.

(** Update the widget at reference [i] in place. *)
Definition update_widget (i : nat) (f : Widget → Widget) : Action := λ w,
  set_heap (alter f i (heap w)) w.

(** Run [k] on the widget that reference [i] points to. *)
Definition with_widget (i : nat) (k : Widget → Action) : Action := λ w,
  match heap w !! i with
  | Some this => k this w
  | None => w
  end.

(** Run the actions of a list, in order. *)
Definition for_each {A : Type} (f : A → Action) (l : list A) : Action := λ w,
  foldl (λ acc x, f x acc) w l.

(** *** Editor operations *)

Definition editor_addContentWidget (i : nat) : Action := λ w,
  let e := editor w in
  (set_editor {| hasModel := hasModel e; viewPosition := viewPosition e;
                 selection := selection e; hoverAbove := hoverAbove e;
                 ordered := ordered e;
                 contentWidgets := contentWidgets e ++ [i];
                 cursorPositionListeners := cursorPositionListeners e |}
   >> call (addContentWidget i)) w.

Definition editor_removeContentWidget (i : nat) : Action := λ w,
  let e := editor w in
  (set_editor {| hasModel := hasModel e; viewPosition := viewPosition e;
                 selection := selection e; hoverAbove := hoverAbove e;
                 ordered := ordered e;
                 contentWidgets := filter (λ x, x ≠ i) (contentWidgets e);
                 cursorPositionListeners := cursorPositionListeners e |}
   >> call (removeContentWidget i)) w.

(** [editor.onDidChangeCursorPosition(listener)] *)
Definition editor_onDidChangeCursorPosition (i : nat) : Action := λ w,
  let e := editor w in
  set_editor {| hasModel := hasModel e; viewPosition := viewPosition e;
                selection := selection e; hoverAbove := hoverAbove e;
                ordered := ordered e;
                contentWidgets := contentWidgets e;
                cursorPositionListeners := cursorPositionListeners e ++ [i] |} w.

(** releasing the subscription to [onDidChangeCursorPosition] *)
Definition editor_onDidChangeCursorPosition_release (i : nat) : Action := λ w,
  let e := editor w in
  set_editor {| hasModel := hasModel e; viewPosition := viewPosition e;
                selection := selection e; hoverAbove := hoverAbove e;
                ordered := ordered e;
                contentWidgets := contentWidgets e;
                cursorPositionListeners := filter (λ x, x ≠ i) (cursorPositionListeners e) |} w.

(** the state change of [editor.setSelection(r)] *)
Definition editor_select (r : IRange) : Action := λ w,
  let e := editor w in
  (set_editor {| hasModel := hasModel e; viewPosition := viewPosition e;
                 selection := Some r; hoverAbove := hoverAbove e;
                 ordered := ordered e;
                 contentWidgets := contentWidgets e;
                 cursorPositionListeners := cursorPositionListeners e |}
   >> call (setSelection r)) w.

(** ** The floating widget *)

Module StandaloneColorPickerWidget.

Definition set_computer (c : Computer) (this : Widget) : Widget :=
  {| _position := _position this; _selection := _selection this;
     _standaloneColorPickerComputer := c;
     _disposables := _disposables this;
     _colorHoverData := _colorHoverData this;
     _selectionSetInEditor := _selectionSetInEditor this;
     colorPickerWidget := colorPickerWidget this |}.

Definition set_disposables (b : bool) (this : Widget) : Widget :=
  {| _position := _position this; _selection := _selection this;
     _standaloneColorPickerComputer := _standaloneColorPickerComputer this;
     _disposables := b;
     _colorHoverData := _colorHoverData this;
     _selectionSetInEditor := _selectionSetInEditor this;
     colorPickerWidget := colorPickerWidget this |}.

Definition set_colorHoverData (d : option ColorHover) (this : Widget) : Widget :=
  {| _position := _position this; _selection := _selection this;
     _standaloneColorPickerComputer := _standaloneColorPickerComputer this;
     _disposables := _disposables this;
     _colorHoverData := d;
     _selectionSetInEditor := _selectionSetInEditor this;
     colorPickerWidget := colorPickerWidget this |}.

Definition set_selectionSetInEditor (b : bool) (this : Widget) : Widget :=
  {| _position := _position this; _selection := _selection this;
     _standaloneColorPickerComputer := _standaloneColorPickerComputer this;
     _disposables := _disposables this;
     _colorHoverData := _colorHoverData this;
     _selectionSetInEditor := b;
     colorPickerWidget := colorPickerWidget this |}.

Definition set_colorPickerWidget (p : option ColorPickerWidget) (this : Widget) : Widget :=
  {| _position := _position this; _selection := _selection this;
     _standaloneColorPickerComputer := _standaloneColorPickerComputer this;
     _disposables := _disposables this;
     _colorHoverData := _colorHoverData this;
     _selectionSetInEditor := _selectionSetInEditor this;
     colorPickerWidget := p |}.

(** [this._disposables.dispose()]: releases what the constructor added to
    the store, that is the listener of the computer's result, the listener of
    the cursor position, and the focus tracker with its two listeners (whose
    events are guarded by [_disposables] in [step] below).  A second
    [dispose] does nothing. *)
Definition disposables_dispose (i : nat) : Action :=
  with_widget i (λ this,
    if _disposables this then skip
    else
      update_widget i (λ this,
        set_disposables true
          (set_computer
             (StandaloneColorPickerComputer.onResult_release i
                (_standaloneColorPickerComputer this)) this))
      >> editor_onDidChangeCursorPosition_release i).

Definition hide (i : nat) : Action :=
  editor_removeContentWidget i
  >> disposables_dispose i
  >> set_visible false
  >> set_focused false
  >> call editor_focus.

Definition focus (i : nat) : Action :=
  call (body_focus i).

Definition updateEditor (i : nat) : Action :=
  with_widget i (λ this,
    match _colorHoverData this with
    | Some colorHoverData => call (updateEditorModel i [colorHoverData])
    | None => skip
    end).

(** The listener the constructor gives to [onDidChangeCursorPosition]. *)
Definition onDidChangeCursorPosition_listener (i : nat) : Action :=
  with_widget i (λ this,
    if negb (_selectionSetInEditor this) then hide i
    else update_widget i (set_selectionSetInEditor false)).

(** The editor reports a change of the cursor position to its listeners. *)
Definition cursorPositionChanged : Action := λ w,
  for_each onDidChangeCursorPosition_listener (cursorPositionListeners (editor w)) w.

(** [editor.setSelection(r)]; [cursorMoves] says whether the editor reports
    a change of the cursor position for it, which it does before
    [setSelection] returns. *)
Definition editor_setSelection (r : IRange) (cursorMoves : bool) : Action :=
  editor_select r >> (if cursorMoves then cursorPositionChanged else skip).

(** [_render].  [picker] is what the participant's [renderHoverParts] passes
    to [context.setColorPicker], [None] when it does not call it.  The
    fragment and the status bar go to the participant and are not looked at
    here; styling the body and appending the fragment is the one call
    [body_appendChild] (the sizes given to [body.style] are floating-point and
    left out).  Storing the picker stands for wiring its two buttons. *)
Definition _render (i : nat) (colorHoverData : ColorHover) (foundInEditor : bool)
    (picker : option ColorPickerWidget) (cursorMoves : bool) : Action :=
  update_widget i (set_colorHoverData (Some colorHoverData))
  >> call (renderHoverParts i [colorHoverData])
  >> match picker with
     | None => skip
     | Some colorPickerWidget =>
         call (body_appendChild i)
         >> call (colorPickerWidget_layout i)
         >> update_widget i (set_colorPickerWidget (Some colorPickerWidget))
         >> (if foundInEditor then
               match enterButton colorPickerWidget with
               | Some _ =>
                   update_widget i (set_colorPickerWidget
                     (Some {| enterButton := Some "Replace"%string;
                              closeButton := closeButton colorPickerWidget |}))
               | None => skip
               end
               >> update_widget i (set_selectionSetInEditor true)
               >> editor_setSelection (range colorHoverData) cursorMoves
             else skip)
         >> call (layoutContentWidget i)
     end.

(** [this._standaloneColorPickerComputer.start()], up to its [await]. *)
Definition computer_start (i : nat) : Action :=
  with_widget i (λ this w,
    match StandaloneColorPickerComputer.start_ask
            (_standaloneColorPickerComputer this) (editor w) with
    | Some (colorInfo, provider) =>
        (call (createColorHover i colorInfo provider)
         >> set_suspended (suspended w ++ [i])) w
    | None => w
    end).

(** The rest of [start] once the participant has answered: the result, if
    any, is fired, and each listener (a widget's
    [(result) => this._render(result.value, result.foundInMap)]) runs. *)
Definition computer_resume (i : nat) (answer : CreateColorHoverResult)
    (picker : option ColorPickerWidget) (cursorMoves : bool) : Action :=
  with_widget i (λ this,
    match StandaloneColorPickerComputer.start_answer answer with
    | Some result =>
        call (onResult_fire i result)
        >> for_each (λ d, _render d.1 (value d.2) (foundInMap d.2) picker cursorMoves)
             (Emitter_fire (_onResult (_standaloneColorPickerComputer this)) result)
    | None => skip
    end).

(** The range the constructor hands to the computer. *)
Definition selection_snapshot (_selection : option Selection) : IRange :=
  match _selection with
  | Some s =>
      {| startLineNumber := startLineNumber s;
         startColumn := startColumn s;
         endLineNumber := endLineNumber s;
         endColumn := endColumn s |}
  | None =>
      {| startLineNumber := 0; startColumn := 0; endLineNumber := 0; endColumn := 0 |}
  end.

(** The object the constructor has built when it reaches its last line,
    for the widget allocated at [i]: position and selection are read from the
    editor, the computer is built over the snapshot of the selection, and the
    widget's listener is subscribed to the computer's result. *)
Definition constructed (i : nat) (editor : Editor) : Widget :=
  let _position := viewPosition editor in
  let _selection := selection editor in
  let selection := selection_snapshot _selection in
  let computer := StandaloneColorPickerComputer.new (Some selection) in
  {| _position := _position;
     _selection := _selection;
     _standaloneColorPickerComputer := StandaloneColorPickerComputer.onResult i computer;
     _disposables := false;
     _colorHoverData := None;
     _selectionSetInEditor := false;
     colorPickerWidget := None |}.

(** [new StandaloneColorPickerWidget(...)]: the new widget gets the next
    free reference, [length heap]. *)
Definition new : Action := λ w,
  let i := length (heap w) in
  (set_heap (heap w ++ [constructed i (editor w)])
   >> editor_onDidChangeCursorPosition i
   >> computer_start i) w.

Definition getPosition (this : Widget) (editor : Editor) : option IContentWidgetPosition :=
  match _position this with
  | None => None
  | Some p =>
      let positionPreference := hoverAbove editor in
      Some {| position := p;
              secondaryPosition := p;
              preference := if positionPreference then [ABOVE; BELOW] else [BELOW; ABOVE];
              positionAffinity := None_ |}
  end.

End StandaloneColorPickerWidget.

(** ** The controller *)

Module StandaloneColorPickerController.

Definition showOrFocus : Action := λ w,
  if negb (hasModel (editor w)) then w
  else if negb (_standaloneColorPickerVisible w) then
    (set_visible true
     >> (λ w, (StandaloneColorPickerWidget.new
               >> set_widget (Some (length (heap w)))
               >> editor_addContentWidget (length (heap w))) w)) w
  else if negb (_standaloneColorPickerFocused w) then
    (set_focused true
     >> match _standaloneColorPickerWidget w with
        | Some i => StandaloneColorPickerWidget.focus i
        | None => skip
        end) w
  else w.

Definition hide : Action := λ w,
  (set_focused false
   >> set_visible false
   >> match _standaloneColorPickerWidget w with
      | Some i => StandaloneColorPickerWidget.hide i
      | None => skip
      end
   >> call editor_focus) w.

Definition insertColor : Action := λ w,
  (match _standaloneColorPickerWidget w with
   | Some i => StandaloneColorPickerWidget.updateEditor i
   | None => skip
   end
   >> hide) w.

End StandaloneColorPickerController.

(** ** What can happen to a controller and its widgets *)

(** The commands of the host and the callbacks of the collaborators.  Each
    is handled to its end before the next one (one thread, run to
    completion); the only callback that arrives inside another is the cursor
    listener run by [setSelection].  The participant is a black box: its
    [renderHoverParts] and [updateEditorModel] are calls in the log, and
    whatever they make the editor report (a cursor change, say) is an event
    of its own; so is the focus tracker's report of a [body.focus()].

    A callback arrives only where the code or the DOM can deliver it: the
    participant answers a computer whose [start] is suspended; the focus
    tracker and [context.hide] belong to what hiding releases, so they are
    silent once [_disposables] is disposed; a button is clicked only while
    the widget's node is attached to the editor. *)
Inductive Event :=
| ev_showOrFocus
| ev_hide
| ev_insertColor
| ev_createColorHover_resolved (i : nat) (answer : CreateColorHoverResult)
    (picker : option ColorPickerWidget) (cursorMoves : bool)
| ev_cursorPositionChanged
| ev_blur (i : nat)
| ev_focus (i : nat)
| ev_enterButton_clicked (i : nat)
| ev_closeButton_clicked (i : nat)
| ev_context_hide (i : nat)
| ev_editor_changed (hasModel' : bool) (viewPosition' : option Position)
    (selection' : option Selection) (hoverAbove' : bool)
    (ordered' : list DocumentColorProvider).

Fixpoint remove_first (i : nat) (l : list nat) : list nat :=
  match l with
  | [] => []
  | x :: l => if decide (x = i) then l else x :: remove_first i l
  end.

Definition step (ev : Event) : Action :=
  match ev with
  | ev_showOrFocus => StandaloneColorPickerController.showOrFocus
  | ev_hide => StandaloneColorPickerController.hide
  | ev_insertColor => StandaloneColorPickerController.insertColor
  | ev_createColorHover_resolved i answer picker cursorMoves => λ w,
      if bool_decide (i ∈ suspended w) then
        (set_suspended (remove_first i (suspended w))
         >> StandaloneColorPickerWidget.computer_resume i answer picker cursorMoves) w
      else w
  | ev_cursorPositionChanged => StandaloneColorPickerWidget.cursorPositionChanged
  | ev_blur i =>
      with_widget i (λ this,
        if _disposables this then skip else StandaloneColorPickerWidget.hide i)
  | ev_focus i =>
      with_widget i (λ this,
        if _disposables this then skip else StandaloneColorPickerWidget.focus i)
  | ev_enterButton_clicked i =>
      with_widget i (λ this w,
        match colorPickerWidget this with
        | Some p =>
            if bool_decide (i ∈ contentWidgets (editor w)) && bool_decide (is_Some (enterButton p))
            then (StandaloneColorPickerWidget.updateEditor i
                  >> StandaloneColorPickerWidget.hide i) w
            else w
        | None => w
        end)
  | ev_closeButton_clicked i =>
      with_widget i (λ this w,
        match colorPickerWidget this with
        | Some p =>
            if bool_decide (i ∈ contentWidgets (editor w)) && closeButton p
            then StandaloneColorPickerWidget.hide i w
            else w
        | None => w
        end)
  | ev_context_hide i =>
      with_widget i (λ this,
        if _disposables this then skip
        else match _colorHoverData this with
             | Some _ => StandaloneColorPickerWidget.hide i
             | None => skip
             end)
  | ev_editor_changed hasModel' viewPosition' selection' hoverAbove' ordered' => λ w,
      set_editor {| hasModel := hasModel'; viewPosition := viewPosition';
                    selection := selection'; hoverAbove := hoverAbove';
                    ordered := ordered';
                    contentWidgets := contentWidgets (editor w);
                    cursorPositionListeners := cursorPositionListeners (editor w) |} w
  end.

(** Handle the events of a list, first to last. *)
Definition run (evs : list Event) : Action := for_each step evs.

(** A controller just constructed, in an editor with nothing attached: no
    widget, both context keys at their default [false]. *)
Definition init (hasModel0 : bool) (viewPosition0 : option Position)
    (selection0 : option Selection) (hoverAbove0 : bool)
    (ordered0 : list DocumentColorProvider) : World :=
  {| editor := {| hasModel := hasModel0; viewPosition := viewPosition0;
                  selection := selection0; hoverAbove := hoverAbove0;
                  ordered := ordered0;
                  contentWidgets := []; cursorPositionListeners := [] |};
     _standaloneColorPickerVisible := false;
     _standaloneColorPickerFocused := false;
     heap := [];
     _standaloneColorPickerWidget := None;
     suspended := [];
     calls := [] |}.

(** Is [i] a widget that was constructed and not hidden since? *)
Definition is_live (w : World) (i : nat) : bool :=
  match heap w !! i with
  | Some this => negb (_disposables this)
  | None => false
  end.

Definition live_widgets (w : World) : list nat :=
  filter (λ i, is_live w i = true) (seq 0 (length (heap w))).

Definition is_fire (i : nat) (c : Call) : bool :=
  match c with
  | onResult_fire j _ => bool_decide (j = i)
  | _ => false
  end.

(** How often the computer of widget [i] has fired its result. *)
Definition fire_count (i : nat) (w : World) : nat :=
  length (filter (λ c, is_fire i c = true) (calls w)).

(** ** Definitions used to state the properties *)

(** What [_disposables.dispose()] leaves of a widget. *)
Definition disposed_widget (i : nat) (this : Widget) : Widget :=
  StandaloneColorPickerWidget.set_disposables true
    (StandaloneColorPickerWidget.set_computer
       (StandaloneColorPickerComputer.onResult_release i
          (_standaloneColorPickerComputer this)) this).

(** What [_render] leaves of its own widget, when the widget is the one
    listener of the cursor position. *)
Definition rendered (d : ColorHover) (foundInEditor : bool)
    (picker : option ColorPickerWidget) (cursorMoves : bool) (this : Widget) : Widget :=
  let t1 := StandaloneColorPickerWidget.set_colorHoverData (Some d) this in
  match picker with
  | None => t1
  | Some cp =>
      let t2 := StandaloneColorPickerWidget.set_colorPickerWidget (Some cp) t1 in
      if foundInEditor then
        let t3 :=
          match enterButton cp with
          | Some _ =>
              StandaloneColorPickerWidget.set_colorPickerWidget
                (Some {| enterButton := Some "Replace"%string;
                         closeButton := closeButton cp |}) t2
          | None => t2
          end in
        StandaloneColorPickerWidget.set_selectionSetInEditor (negb cursorMoves) t3
      else t2
  end.

(** The calls [_render] makes, in order. *)
Definition render_calls (i : nat) (d : ColorHover) (foundInEditor : bool)
    (picker : option ColorPickerWidget) : list Call :=
  renderHoverParts i [d] ::
  match picker with
  | None => []
  | Some _ =>
      [body_appendChild i; colorPickerWidget_layout i]
      ++ (if foundInEditor then [setSelection (range d)] else [])
      ++ [layoutContentWidget i]
  end.

(** A widget in the store is well formed, [L] being the live widget if
    there is one: its computer holds the snapshot of the widget's selection
    and an emitter that is not disposed, the emitter's only listener is the
    widget itself until the widget is hidden, and the widget is live exactly
    when it is [L]. *)
Definition good_widget (L : option nat) (j : nat) (this : Widget) : Prop :=
  _range (_standaloneColorPickerComputer this)
    = Some (StandaloneColorPickerWidget.selection_snapshot (_selection this)) ∧
  emitter_disposed (_onResult (_standaloneColorPickerComputer this)) = false ∧
  listeners (_onResult (_standaloneColorPickerComputer this))
    = (if _disposables this then [] else [j]) ∧
  (_disposables this = false ↔ L = Some j).

(** The shape of the store: the live widget, if any, is the one attached to
    the editor, the one listening to the cursor, and the one the controller
    refers to. *)
Definition Struct (L : option nat) (w : World) : Prop :=
  contentWidgets (editor w) = option_list L ∧
  cursorPositionListeners (editor w) = option_list L ∧
  (∀ j this, heap w !! j = Some this → good_widget L j this) ∧
  (∀ i, L = Some i → _standaloneColorPickerWidget w = Some i ∧ is_Some (heap w !! i)).

(** The context keys agree with the store. *)
Definition Flags (L : option nat) (w : World) : Prop :=
  match L with
  | Some _ => _standaloneColorPickerVisible w = true
  | None => _standaloneColorPickerVisible w = false
            ∧ _standaloneColorPickerFocused w = false
  end.

Definition Inv (w : World) : Prop := ∃ L, Struct L w ∧ Flags L w.

(** How often [i] occurs in a list of references. *)
Definition occurrences (i : nat) (l : list nat) : nat :=
  length (filter (λ x, x = i) l).

(** Bookkeeping of the computers: a suspended [start] belongs to a widget of
    the store, a widget not yet allocated has not fired, and a computer has
    fired at most once if its [start] is over and not at all if it is
    suspended. *)
Definition Acct (w : World) : Prop :=
  (∀ j, j ∈ suspended w → j < length (heap w)) ∧
  (∀ j, length (heap w) ≤ j → fire_count j w = 0) ∧
  (∀ j, fire_count j w + occurrences j (suspended w) ≤ 1).

(** An action that starts or resumes no computer and allocates no widget. *)
Definition quiet (a : Action) : Prop :=
  ∀ w,
    suspended (a w) = suspended w ∧
    length (heap (a w)) = length (heap w) ∧
    (∀ j, fire_count j (a w) = fire_count j w).

(** An action that leaves every [_colorHoverData] as it is. *)
Definition keeps_data (a : Action) : Prop :=
  ∀ w j, _colorHoverData <$> heap (a w) !! j = _colorHoverData <$> heap w !! j.

(** The result that handling [ev] in [w] delivers to the listener of widget
    [i]: the participant answers the suspended computer of [i] with a color
    hover while [i] is still subscribed. *)
Definition delivers (ev : Event) (w : World) (i : nat) : option ColorHover :=
  match ev with
  | ev_createColorHover_resolved j (Some (d, _)) _ _ =>
      if bool_decide (j = i) && bool_decide (i ∈ suspended w) && is_live w i
      then Some d else None
  | _ => None
  end.

(** The result widget [i] has received in the course of [evs], started in
    [w]: the last one delivered to it, [None] if there was none. *)
Fixpoint received (i : nat) (evs : list Event) (w : World) : option ColorHover :=
  match evs with
  | [] => None
  | ev :: evs =>
      match received i evs (step ev w) with
      | Some d => Some d
      | None => delivers ev w i
      end
  end.

(** The placeholder color information [computeAsync] builds for a range. *)
Definition colorInfo_of (range : IRange) : IColorInformation :=
  {| info_range := range;
     info_color := {| red := 0; green := 0; blue := 0; alpha := 1 |} |}.

(** The registry after A, B and C were registered, in that order. *)
Definition registry_ABC : LanguageFeatureRegistry.Registry :=
  LanguageFeatureRegistry.register "C"%string
    (LanguageFeatureRegistry.register "B"%string
       (LanguageFeatureRegistry.register "A"%string LanguageFeatureRegistry.empty)).

(** An editor with a document loaded, for which the registry [registry_ABC]
    is asked. *)
Definition editor_registry_ABC : Editor :=
  {| hasModel := true; viewPosition := None; selection := None;
     hoverAbove := false; ordered := LanguageFeatureRegistry.ordered registry_ABC;
     contentWidgets := []; cursorPositionListeners := [] |}.

(** An editor with a document loaded, whose ordered provider list is A, B, C. *)
Definition editor_ABC : Editor :=
  {| hasModel := true; viewPosition := None; selection := None;
     hoverAbove := false; ordered := ["A"; "B"; "C"]%string;
     contentWidgets := []; cursorPositionListeners := [] |}.

Definition range_1_1_1_8 : IRange :=
  {| startLineNumber := 1; startColumn := 1; endLineNumber := 1; endColumn := 8 |}.

(** The world [w] with widget [i] replaced by [t], the editor by [e] and
    the log by [cs]. *)
Definition with_state (w : World) (i : nat) (t : Widget) (e : Editor)
    (cs : list Call) : World :=
  {| editor := e;
     _standaloneColorPickerVisible := _standaloneColorPickerVisible w;
     _standaloneColorPickerFocused := _standaloneColorPickerFocused w;
     heap := <[i := t]> (heap w);
     _standaloneColorPickerWidget := _standaloneColorPickerWidget w;
     suspended := suspended w;
     calls := cs |}.

(** The editor [e] after [setSelection(r)]. *)
Definition selected (r : IRange) (e : Editor) : Editor :=
  {| hasModel := hasModel e; viewPosition := viewPosition e;
     selection := Some r; hoverAbove := hoverAbove e;
     ordered := ordered e;
     contentWidgets := contentWidgets e;
     cursorPositionListeners := cursorPositionListeners e |}.

(** A color hover and a participant that answers every lookup with it. *)
Definition hover_1 : ColorHover := {| range := range_1_1_1_8; model := 0 |}.

Definition participant_found
  : IColorInformation → option DocumentColorProvider → CreateColorHoverResult :=
  λ _ _, Some (hover_1, true).

Definition result_1 : StandaloneColorPickerResult :=
  {| value := hover_1; foundInMap := true |}.

(** The result stored in widget [i], [None] if there is no such widget. *)
Definition data_at (w : World) (i : nat) : option ColorHover :=
  match heap w !! i with
  | Some this => _colorHoverData this
  | None => None
  end.

(** ** Relations between the world before and after an action *)

(** The action [a] takes every world to one related to it by [R]. *)
Definition respects (R : World → World → Prop) (a : Action) : Prop :=
  ∀ w, R w (a w).

(** Is [c] a lookup sent to the participant? *)
Definition is_lookup (c : Call) : bool :=
  match c with
  | createColorHover _ _ _ => true
  | _ => false
  end.

(** The widgets whose computers have sent a lookup, in the order of the
    lookups. *)
Definition lookups_of (w : World) : list nat :=
  omap (λ c, match c with createColorHover i _ _ => Some i | _ => None end) (calls w).

(** [R] holds across the primitive steps that the methods are made of;
    the lookup is left out, only the computer's [start] sends it. *)
Class Primitives (R : World → World → Prop) : Prop := {
  prim_call : ∀ c, is_lookup c = false → respects R (call c);
  prim_set_visible : ∀ b, respects R (set_visible b);
  prim_set_focused : ∀ b, respects R (set_focused b);
  prim_set_editor : ∀ e, respects R (set_editor e);
  prim_set_suspended : ∀ s, respects R (set_suspended s);
  prim_flag : ∀ i b,
    respects R (update_widget i (StandaloneColorPickerWidget.set_selectionSetInEditor b));
  prim_dispose : ∀ i,
    respects R (update_widget i (λ this,
      StandaloneColorPickerWidget.set_disposables true
        (StandaloneColorPickerWidget.set_computer
           (StandaloneColorPickerComputer.onResult_release i
              (_standaloneColorPickerComputer this)) this)))
}.

(** [R] holds across the two updates that only [_render] makes. *)
Class RenderPrimitives (R : World → World → Prop) : Prop := {
  prim_data : ∀ i d,
    respects R (update_widget i (StandaloneColorPickerWidget.set_colorHoverData (Some d)));
  prim_picker : ∀ i p,
    respects R (update_widget i (StandaloneColorPickerWidget.set_colorPickerWidget p))
}.

(** What a widget can become: its position, its selection and the range
    of its computer stay, a disposed store stays disposed, and a stored result
    is not cleared. *)
Definition evolves (t t' : Widget) : Prop :=
  _position t' = _position t ∧
  _selection t' = _selection t ∧
  _range (_standaloneColorPickerComputer t') = _range (_standaloneColorPickerComputer t) ∧
  (_disposables t = true → _disposables t' = true) ∧
  (is_Some (_colorHoverData t) → is_Some (_colorHoverData t')).

(** Every widget of [w] is still in the store of [w'], at the same
    reference, and is what it was or what it could become. *)
Definition evolution (w w' : World) : Prop :=
  ∀ i t, heap w !! i = Some t → ∃ t', heap w' !! i = Some t' ∧ evolves t t'.

(** The controller's field, the size of the store and the lookups sent are
    the same. *)
Definition same_reference (w w' : World) : Prop :=
  _standaloneColorPickerWidget w' = _standaloneColorPickerWidget w ∧
  length (heap w') = length (heap w) ∧
  lookups_of w' = lookups_of w.

(** Every widget has the same stored result and the same picker. *)
Definition same_rendering (w w' : World) : Prop :=
  ∀ j, (λ t, (_colorHoverData t, colorPickerWidget t)) <$> heap w' !! j
       = (λ t, (_colorHoverData t, colorPickerWidget t)) <$> heap w !! j.

(** Is [ev] one of the two events that construct a widget or resume a
    computer? *)
Definition constructs_or_resumes (ev : Event) : bool :=
  match ev with
  | ev_showOrFocus | ev_createColorHover_resolved _ _ _ _ => true
  | _ => false
  end.

(** A widget that has a picker has a stored result. *)
Definition RenderInv (w : World) : Prop :=
  ∀ i t, heap w !! i = Some t →
    is_Some (colorPickerWidget t) → is_Some (_colorHoverData t).

(** A widget that has a stored result is not waiting for an answer. *)
Definition NoStale (w : World) : Prop :=
  ∀ i, is_Some (data_at w i) → i ∉ suspended w.

(** The log has grown, and by no lookup. *)
Definition no_new_lookup (w w' : World) : Prop :=
  ∃ cs, calls w' = calls w ++ cs ∧ Forall (λ c, is_lookup c = false) cs.

(** Every lookup in the log was sent for a widget of the store, with the
    snapshot of that widget's selection and the placeholder color. *)
Definition LookupInv (w : World) : Prop :=
  ∀ i colorInfo provider,
    createColorHover i colorInfo provider ∈ calls w →
    ∃ t, heap w !! i = Some t
         ∧ colorInfo
           = colorInfo_of (StandaloneColorPickerWidget.selection_snapshot (_selection t)).

(** * Properties *)

Import StandaloneColorPickerWidget.

(** ** The result computer alone *)

Lemma head_reverse_last {A : Type} (l : list A) : head (reverse l) = last l.
Proof.
  induction l as [|a l IH] using rev_ind.
  - reflexivity.
  - rewrite reverse_snoc, last_snoc. reflexivity.
Qed.

Lemma computeAsync_ask_model editor range :
  hasModel editor = true →
  StandaloneColorPickerComputer.computeAsync_ask editor range
  = Some (colorInfo_of range, last (ordered editor)).
Proof.
  intros H. unfold StandaloneColorPickerComputer.computeAsync_ask.
  rewrite H. cbn. rewrite head_reverse_last. reflexivity.
Qed.

Lemma computeAsync_ask_no_model editor range :
  hasModel editor = false →
  StandaloneColorPickerComputer.computeAsync_ask editor range = None.
Proof.
  intros H. unfold StandaloneColorPickerComputer.computeAsync_ask.
  rewrite H. reflexivity.
Qed.

Lemma ordered_register provider r :
  LanguageFeatureRegistry.ordered (LanguageFeatureRegistry.register provider r)
  = LanguageFeatureRegistry.ordered r ++ [provider].
Proof. reflexivity. Qed.

Lemma ordered_register_all providers r :
  LanguageFeatureRegistry.ordered (LanguageFeatureRegistry.register_all providers r)
  = LanguageFeatureRegistry.ordered r ++ providers.
Proof.
  revert r. induction providers as [|p ps IH]; intros r; cbn.
  - symmetry. apply app_nil_r.
  - rewrite IH, ordered_register, <- app_assoc. reflexivity.
Qed.

(** C1: with a loaded document, when the providers [ps] and then [p] have
    been registered, in that order, on a registry (whatever was registered on
    it before), and the editor's ordered provider list is that registry's, the
    lookup reverses the ordered list and asks the participant with the first
    element of the reversed list, which is [p], the provider registered last:
    the one call [start] sends carries [p], and the result of [computeAsync]
    is what the participant answers for [p].  The ordered list is what was
    registered before, then [ps], then [p]. *)
Theorem C1_lookup_queries_last_provider
    (editor : Editor) (range : IRange) (onResult : Emitter)
    (createColorHover : IColorInformation → option DocumentColorProvider → CreateColorHoverResult)
    (registry : LanguageFeatureRegistry.Registry)
    (ps : list DocumentColorProvider) (p : DocumentColorProvider) :
  hasModel editor = true →
  ordered editor
  = LanguageFeatureRegistry.ordered
      (LanguageFeatureRegistry.register p
         (LanguageFeatureRegistry.register_all ps registry)) →
  head (reverse (ordered editor)) = Some p
  ∧ StandaloneColorPickerComputer.computeAsync_ask editor range
    = Some (colorInfo_of range, Some p)
  ∧ StandaloneColorPickerComputer.lookups
      (StandaloneColorPickerComputer.start
         {| _range := Some range; _onResult := onResult |} editor createColorHover)
    = [(colorInfo_of range, Some p)]
  ∧ StandaloneColorPickerComputer.computeAsync editor createColorHover range
    = StandaloneColorPickerComputer.computeAsync_answer
        (createColorHover (colorInfo_of range) (Some p))
  ∧ ordered editor = LanguageFeatureRegistry.ordered registry ++ ps ++ [p].
Proof.
  intros Hm Ho. rewrite ordered_register in Ho.
  assert (last (ordered editor) = Some p) as Hl by (rewrite Ho; apply last_snoc).
  split; [rewrite head_reverse_last; exact Hl|].
  split; [rewrite computeAsync_ask_model, Hl by assumption; reflexivity|].
  split; [|split].
  - unfold StandaloneColorPickerComputer.start, StandaloneColorPickerComputer.start_ask.
    cbn. rewrite computeAsync_ask_model, Hl by assumption.
    destruct (StandaloneColorPickerComputer.start_answer _); reflexivity.
  - unfold StandaloneColorPickerComputer.computeAsync.
    rewrite computeAsync_ask_model, Hl by assumption. reflexivity.
  - rewrite Ho, ordered_register_all, <- app_assoc. reflexivity.
Qed.

Lemma C1_lookup_queries_last_provider_witness :
  ordered editor_registry_ABC
  = LanguageFeatureRegistry.ordered
      (LanguageFeatureRegistry.register "C"%string
         (LanguageFeatureRegistry.register_all ["A"; "B"]%string
            LanguageFeatureRegistry.empty))
  ∧ StandaloneColorPickerComputer.lookups
      (StandaloneColorPickerComputer.start
         {| _range := Some range_1_1_1_8; _onResult := Emitter_new |}
         editor_registry_ABC (λ _ _, None))
    = [(colorInfo_of range_1_1_1_8, Some "C"%string)].
Proof.
  split; [reflexivity|].
  exact (proj1 (proj2 (proj2
    (C1_lookup_queries_last_provider editor_registry_ABC range_1_1_1_8 Emitter_new
       (λ _ _, None) LanguageFeatureRegistry.empty ["A"; "B"]%string "C"%string
       eq_refl eq_refl)))).
Defined.

(** ** Equations of the widget's methods *)

Lemma alter_as_insert {A : Type} (f : A → A) (i : nat) (l : list A) (x : A) :
  l !! i = Some x → alter f i l = <[i := f x]> l.
Proof.
  revert i. induction l as [|a l IH]; intros [|i] H; cbn in *; try discriminate.
  - injection H as ->. reflexivity.
  - f_equal. apply IH. assumption.
Qed.

Lemma filter_ne_singleton (i : nat) : filter (λ x, x ≠ i) [i] = [].
Proof. cbn. rewrite decide_False by (intros H; apply H; reflexivity). reflexivity. Qed.

Lemma hide_eq i w :
  hide i w =
  {| editor :=
       {| hasModel := hasModel (editor w); viewPosition := viewPosition (editor w);
          selection := selection (editor w); hoverAbove := hoverAbove (editor w);
          ordered := ordered (editor w);
          contentWidgets := filter (λ x, x ≠ i) (contentWidgets (editor w));
          cursorPositionListeners :=
            if is_live w i then filter (λ x, x ≠ i) (cursorPositionListeners (editor w))
            else cursorPositionListeners (editor w) |};
     _standaloneColorPickerVisible := false;
     _standaloneColorPickerFocused := false;
     heap := if is_live w i then alter (disposed_widget i) i (heap w) else heap w;
     _standaloneColorPickerWidget := _standaloneColorPickerWidget w;
     suspended := suspended w;
     calls := (calls w ++ [removeContentWidget i]) ++ [editor_focus] |}.
Proof.
  unfold hide, disposables_dispose, with_widget, then_, is_live. cbn.
  destruct (heap w !! i) as [this|] eqn:Hi; cbn.
  - destruct (_disposables this); cbn; reflexivity.
  - reflexivity.
Qed.

(** *** Running [_render] step by step *)

Lemma with_state_id w i t :
  heap w !! i = Some t → with_state w i t (editor w) (calls w) = w.
Proof.
  intros Hi. destruct w as [e v f h c s cs]. unfold with_state. cbn in *.
  rewrite list_insert_id by assumption. reflexivity.
Qed.

Lemma with_state_lookup w i t e cs :
  i < length (heap w) → heap (with_state w i t e cs) !! i = Some t.
Proof. intros Hlt. cbn. apply list_lookup_insert_eq. assumption. Qed.

Lemma with_state_update w i g t e cs :
  i < length (heap w) →
  update_widget i g (with_state w i t e cs) = with_state w i (g t) e cs.
Proof.
  intros Hlt. unfold update_widget, with_state, set_heap. cbn.
  rewrite (alter_as_insert g i _ t) by (apply list_lookup_insert_eq; assumption).
  rewrite list_insert_insert_eq. reflexivity.
Qed.

Lemma with_state_call w i c t e cs :
  call c (with_state w i t e cs) = with_state w i t e (cs ++ [c]).
Proof. reflexivity. Qed.

Lemma with_state_select w i r t e cs :
  editor_select r (with_state w i t e cs)
  = with_state w i t (selected r e) (cs ++ [setSelection r]).
Proof. reflexivity. Qed.

Lemma with_state_cursorPositionChanged w i t e cs :
  i < length (heap w) →
  cursorPositionListeners e = [i] →
  cursorPositionChanged (with_state w i t e cs)
  = if _selectionSetInEditor t
    then with_state w i (set_selectionSetInEditor false t) e cs
    else hide i (with_state w i t e cs).
Proof.
  intros Hlt He. unfold cursorPositionChanged. cbn [editor with_state].
  rewrite He. unfold for_each. cbn [foldl].
  unfold onDidChangeCursorPosition_listener, with_widget.
  rewrite with_state_lookup by assumption.
  destruct (_selectionSetInEditor t); cbn [negb].
  - apply with_state_update. assumption.
  - reflexivity.
Qed.

Lemma render_eq i d found picker moves w this :
  cursorPositionListeners (editor w) = [i] →
  heap w !! i = Some this →
  _render i d found picker moves w
  = with_state w i (rendered d found picker moves this)
      match picker with
      | Some _ => if found then selected (range d) (editor w) else editor w
      | None => editor w
      end
      (calls w ++ render_calls i d found picker).
Proof.
  intros Hc Hi.
  assert (i < length (heap w)) as Hlt by (eapply lookup_lt_Some; eassumption).
  rewrite <- (with_state_id w i this Hi) at 1.
  unfold _render, editor_setSelection, rendered, render_calls.
  destruct picker as [cp|]; [destruct found; [destruct (enterButton cp); destruct moves|]|];
    unfold then_, skip;
    repeat first [ rewrite with_state_update by assumption
                 | rewrite with_state_call
                 | rewrite with_state_select
                 | rewrite with_state_cursorPositionChanged by assumption;
                   cbn [_selectionSetInEditor set_selectionSetInEditor] ];
    rewrite <- ?app_assoc; reflexivity.
Qed.

(** The constructor: the widget is allocated, subscribed to the cursor, and
    its computer is started, which sends the one lookup if a document is
    loaded. *)
Lemma new_eq w :
  new w =
  let i := length (heap w) in
  {| editor :=
       {| hasModel := hasModel (editor w); viewPosition := viewPosition (editor w);
          selection := selection (editor w); hoverAbove := hoverAbove (editor w);
          ordered := ordered (editor w);
          contentWidgets := contentWidgets (editor w);
          cursorPositionListeners := cursorPositionListeners (editor w) ++ [i] |};
     _standaloneColorPickerVisible := _standaloneColorPickerVisible w;
     _standaloneColorPickerFocused := _standaloneColorPickerFocused w;
     heap := heap w ++ [constructed i (editor w)];
     _standaloneColorPickerWidget := _standaloneColorPickerWidget w;
     suspended := if hasModel (editor w) then suspended w ++ [i] else suspended w;
     calls := if hasModel (editor w)
              then calls w ++ [createColorHover i
                                 (colorInfo_of (selection_snapshot (selection (editor w))))
                                 (last (ordered (editor w)))]
              else calls w |}.
Proof.
  unfold new, computer_start, with_widget, then_, editor_onDidChangeCursorPosition,
    set_heap, set_editor. cbn.
  rewrite list_lookup_middle by reflexivity. cbn.
  unfold StandaloneColorPickerComputer.start_ask. cbn.
  unfold StandaloneColorPickerComputer.computeAsync_ask. cbn.
  destruct (hasModel (editor w)); cbn.
  - rewrite <- head_reverse_last. reflexivity.
  - reflexivity.
Qed.

(** ** Actions that leave the bookkeeping alone *)

Create HintDb quiet.

Lemma quiet_skip : quiet skip.
Proof. intros w. auto. Qed.

Lemma quiet_then a b : quiet a → quiet b → quiet (a >> b).
Proof.
  intros Ha Hb w. unfold then_.
  destruct (Ha w) as (Ha1 & Ha2 & Ha3), (Hb (a w)) as (Hb1 & Hb2 & Hb3).
  repeat split; [congruence | congruence | intros j; rewrite Hb3; apply Ha3].
Qed.

Lemma fire_count_call j c w :
  fire_count j (call c w) = fire_count j w + (if is_fire j c then 1 else 0).
Proof.
  unfold fire_count, call. cbn. rewrite filter_app, length_app. cbn.
  destruct (is_fire j c); cbn.
  - rewrite decide_True by reflexivity. reflexivity.
  - rewrite decide_False by discriminate. reflexivity.
Qed.

Lemma quiet_call c : (∀ j, is_fire j c = false) → quiet (call c).
Proof.
  intros Hc w. repeat split. intros j. rewrite fire_count_call, Hc. lia.
Qed.

Lemma quiet_set_visible b : quiet (set_visible b).
Proof. intros w. auto. Qed.

Lemma quiet_set_focused b : quiet (set_focused b).
Proof. intros w. auto. Qed.

Lemma quiet_set_widget r : quiet (set_widget r).
Proof. intros w. auto. Qed.

Lemma quiet_set_editor e : quiet (set_editor e).
Proof. intros w. auto. Qed.

Lemma quiet_update_widget i f : quiet (update_widget i f).
Proof.
  intros w. unfold update_widget. cbn. rewrite length_alter. auto.
Qed.

Lemma quiet_with_widget i k : (∀ this, quiet (k this)) → quiet (with_widget i k).
Proof.
  intros Hk w. unfold with_widget. destruct (heap w !! i); [apply Hk | auto].
Qed.

Lemma quiet_for_each {A : Type} (f : A → Action) (l : list A) :
  (∀ x, quiet (f x)) → quiet (for_each f l).
Proof.
  intros Hf. unfold for_each. induction l as [|x l IH] using rev_ind; intros w.
  - cbn. auto.
  - rewrite foldl_snoc. destruct (IH w) as (I1 & I2 & I3).
    destruct (Hf x (foldl (λ acc y, f y acc) w l)) as (F1 & F2 & F3).
    repeat split; [congruence | congruence | intros j; rewrite F3; apply I3].
Qed.

Lemma quiet_if (b : bool) (a1 a2 : Action) :
  quiet a1 → quiet a2 → quiet (if b then a1 else a2).
Proof. destruct b; auto. Qed.

Lemma quiet_fun (a : World → Action) : (∀ w0, quiet (a w0)) → quiet (λ w, a w w).
Proof. intros H w. apply H. Qed.

#[local] Hint Resolve quiet_skip quiet_call quiet_set_visible
  quiet_set_focused quiet_set_widget quiet_set_editor quiet_update_widget : quiet.

(** Split [quiet] along the structure of an action. *)
Ltac quiet_tac :=
  repeat lazymatch goal with
    | |- quiet (_ >> _) => simple apply quiet_then
    | |- quiet (with_widget _ _) => simple apply quiet_with_widget; intros ?
    | |- quiet (match ?x with _ => _ end) => destruct x
    | |- quiet _ => solve [auto with quiet]
    end.

Lemma quiet_editor_removeContentWidget i : quiet (editor_removeContentWidget i).
Proof.
  apply (quiet_fun (λ w0, _ >> _)). intros w0. quiet_tac.
Qed.

Lemma quiet_editor_addContentWidget i : quiet (editor_addContentWidget i).
Proof.
  apply (quiet_fun (λ w0, _ >> _)). intros w0. quiet_tac.
Qed.

Lemma quiet_editor_release i : quiet (editor_onDidChangeCursorPosition_release i).
Proof. intros w. auto. Qed.

Lemma quiet_editor_select r : quiet (editor_select r).
Proof.
  apply (quiet_fun (λ w0, _ >> _)). intros w0. quiet_tac.
Qed.

#[local] Hint Resolve quiet_editor_removeContentWidget quiet_editor_addContentWidget
  quiet_editor_release quiet_editor_select : quiet.

Lemma quiet_hide i : quiet (hide i).
Proof. unfold hide, disposables_dispose. quiet_tac. Qed.

Lemma quiet_focus i : quiet (focus i).
Proof. unfold focus. quiet_tac. Qed.

Lemma quiet_updateEditor i : quiet (updateEditor i).
Proof. unfold updateEditor. quiet_tac. Qed.

#[local] Hint Resolve quiet_hide quiet_focus quiet_updateEditor : quiet.

Lemma quiet_cursorPositionChanged : quiet cursorPositionChanged.
Proof.
  apply (quiet_fun (λ w0, for_each _ _)). intros w0.
  apply quiet_for_each. intros i. unfold onDidChangeCursorPosition_listener.
  quiet_tac.
Qed.

#[local] Hint Resolve quiet_cursorPositionChanged : quiet.

Lemma quiet_render i d found picker moves : quiet (_render i d found picker moves).
Proof.
  unfold _render, editor_setSelection. quiet_tac.
Qed.

#[local] Hint Resolve quiet_render : quiet.

(** ** Actions that leave the stored results alone *)

Create HintDb keeps.

Lemma keeps_skip : keeps_data skip.
Proof. intros w j. reflexivity. Qed.

Lemma keeps_then a b : keeps_data a → keeps_data b → keeps_data (a >> b).
Proof. intros Ha Hb w j. unfold then_. rewrite Hb. apply Ha. Qed.

Lemma keeps_call c : keeps_data (call c).
Proof. intros w j. reflexivity. Qed.

Lemma keeps_set_visible b : keeps_data (set_visible b).
Proof. intros w j. reflexivity. Qed.

Lemma keeps_set_focused b : keeps_data (set_focused b).
Proof. intros w j. reflexivity. Qed.

Lemma keeps_set_widget r : keeps_data (set_widget r).
Proof. intros w j. reflexivity. Qed.

Lemma keeps_set_editor e : keeps_data (set_editor e).
Proof. intros w j. reflexivity. Qed.

Lemma keeps_set_suspended s : keeps_data (set_suspended s).
Proof. intros w j. reflexivity. Qed.

Lemma keeps_update_widget i f :
  (∀ t, _colorHoverData (f t) = _colorHoverData t) → keeps_data (update_widget i f).
Proof.
  intros Hf w j. unfold update_widget. cbn.
  destruct (decide (i = j)) as [->|Hne].
  - rewrite list_lookup_alter_eq. destruct (heap w !! j); cbn; [f_equal; apply Hf | reflexivity].
  - rewrite list_lookup_alter_ne by assumption. reflexivity.
Qed.

Lemma keeps_with_widget i k : (∀ this, keeps_data (k this)) → keeps_data (with_widget i k).
Proof.
  intros Hk w j. unfold with_widget. destruct (heap w !! i); [apply Hk | reflexivity].
Qed.

Lemma keeps_for_each {A : Type} (f : A → Action) (l : list A) :
  (∀ x, keeps_data (f x)) → keeps_data (for_each f l).
Proof.
  intros Hf. unfold for_each. induction l as [|x l IH] using rev_ind; intros w j.
  - reflexivity.
  - rewrite foldl_snoc, Hf. apply IH.
Qed.

Lemma keeps_if (b : bool) (a1 a2 : Action) :
  keeps_data a1 → keeps_data a2 → keeps_data (if b then a1 else a2).
Proof. destruct b; auto. Qed.

Lemma keeps_fun (a : World → Action) : (∀ w0, keeps_data (a w0)) → keeps_data (λ w, a w w).
Proof. intros H w. apply H. Qed.

Lemma keeps_update_widget_computer i c :
  keeps_data (update_widget i (set_computer c)).
Proof. apply keeps_update_widget. reflexivity. Qed.

Lemma keeps_update_widget_disposables i b :
  keeps_data (update_widget i (set_disposables b)).
Proof. apply keeps_update_widget. reflexivity. Qed.

Lemma keeps_update_widget_flag i b :
  keeps_data (update_widget i (set_selectionSetInEditor b)).
Proof. apply keeps_update_widget. reflexivity. Qed.

Lemma keeps_update_widget_picker i p :
  keeps_data (update_widget i (set_colorPickerWidget p)).
Proof. apply keeps_update_widget. reflexivity. Qed.

#[local] Hint Resolve keeps_skip keeps_call keeps_set_visible
  keeps_set_focused keeps_set_widget keeps_set_editor keeps_set_suspended
  keeps_update_widget_computer keeps_update_widget_disposables
  keeps_update_widget_flag keeps_update_widget_picker : keeps.

(** Split [keeps_data] along the structure of an action. *)
Ltac keeps_tac :=
  repeat lazymatch goal with
    | |- keeps_data (_ >> _) => simple apply keeps_then
    | |- keeps_data (with_widget _ _) => simple apply keeps_with_widget; intros ?
    | |- keeps_data (match ?x with _ => _ end) => destruct x
    | |- keeps_data _ => solve [auto with keeps]
    end.

Lemma keeps_editor_removeContentWidget i : keeps_data (editor_removeContentWidget i).
Proof. apply (keeps_fun (λ w0, _ >> _)). intros w0. keeps_tac. Qed.

Lemma keeps_editor_addContentWidget i : keeps_data (editor_addContentWidget i).
Proof. apply (keeps_fun (λ w0, _ >> _)). intros w0. keeps_tac. Qed.

Lemma keeps_editor_release i : keeps_data (editor_onDidChangeCursorPosition_release i).
Proof. intros w j. reflexivity. Qed.

Lemma keeps_editor_select r : keeps_data (editor_select r).
Proof. apply (keeps_fun (λ w0, _ >> _)). intros w0. keeps_tac. Qed.

#[local] Hint Resolve keeps_editor_removeContentWidget keeps_editor_addContentWidget
  keeps_editor_release keeps_editor_select : keeps.

Lemma keeps_hide i : keeps_data (hide i).
Proof.
  unfold hide, disposables_dispose.
  keeps_tac. apply keeps_update_widget. reflexivity.
Qed.

Lemma keeps_focus i : keeps_data (focus i).
Proof. unfold focus. keeps_tac. Qed.

Lemma keeps_updateEditor i : keeps_data (updateEditor i).
Proof. unfold updateEditor. keeps_tac. Qed.

#[local] Hint Resolve keeps_hide keeps_focus keeps_updateEditor : keeps.

Lemma keeps_cursorPositionChanged : keeps_data cursorPositionChanged.
Proof.
  apply (keeps_fun (λ w0, for_each _ _)). intros w0.
  apply keeps_for_each. intros i. unfold onDidChangeCursorPosition_listener.
  keeps_tac.
Qed.

#[local] Hint Resolve keeps_cursorPositionChanged : keeps.

(** [_render] stores the result in its own widget and in no other. *)
Lemma render_data i d found picker moves w j :
  _colorHoverData <$> heap (_render i d found picker moves w) !! j
  = if decide (j = i) then (λ _, Some d) <$> heap w !! i
    else _colorHoverData <$> heap w !! j.
Proof.
  assert (∀ rest : Action, keeps_data rest →
            _colorHoverData <$> heap
              (rest (update_widget i (set_colorHoverData (Some d)) w)) !! j
            = if decide (j = i) then (λ _, Some d) <$> heap w !! i
              else _colorHoverData <$> heap w !! j) as Hrest.
  { intros rest Hk. rewrite Hk. unfold update_widget. cbn.
    destruct (decide (j = i)) as [->|Hne].
    - rewrite list_lookup_alter_eq. destruct (heap w !! i); reflexivity.
    - rewrite list_lookup_alter_ne by congruence. reflexivity. }
  unfold _render.
  match goal with
  | |- context [ (?a >> ?b >> ?c) w ] => change ((a >> b >> c) w) with ((b >> c) (a w))
  end.
  apply Hrest. unfold editor_setSelection. keeps_tac.
Qed.
(** ** The bookkeeping of the computers is kept by every event *)

Lemma occurrences_snoc j i s :
  occurrences j (s ++ [i]) = occurrences j s + (if decide (i = j) then 1 else 0).
Proof.
  unfold occurrences. rewrite filter_app, length_app. cbn.
  destruct (decide (i = j)); reflexivity.
Qed.

Lemma occurrences_cons j x s :
  occurrences j (x :: s) = (if decide (x = j) then 1 else 0) + occurrences j s.
Proof.
  unfold occurrences. destruct (decide (x = j)) as [He|Hne].
  - rewrite filter_cons_True by assumption. reflexivity.
  - rewrite filter_cons_False by assumption. reflexivity.
Qed.

Lemma occurrences_not_in j s : j ∉ s → occurrences j s = 0.
Proof.
  induction s as [|x s IH]; intros Hn; [reflexivity|].
  rewrite not_elem_of_cons in Hn. destruct Hn as [Hne Hn].
  rewrite occurrences_cons, decide_False by congruence. apply IH. assumption.
Qed.

Lemma occurrences_remove_first_eq i s :
  i ∈ s → occurrences i (remove_first i s) + 1 = occurrences i s.
Proof.
  induction s as [|x s IH]; intros Hin.
  - inversion Hin.
  - cbn [remove_first]. rewrite occurrences_cons.
    destruct (decide (x = i)) as [->|Hne].
    + lia.
    + rewrite occurrences_cons, decide_False by assumption.
      apply elem_of_cons in Hin. destruct Hin as [Hin|Hin]; [congruence|].
      specialize (IH Hin). lia.
Qed.

Lemma occurrences_remove_first_ne i j s :
  j ≠ i → occurrences j (remove_first i s) = occurrences j s.
Proof.
  intros Hne. induction s as [|x s IH]; [reflexivity|].
  cbn [remove_first]. rewrite occurrences_cons.
  destruct (decide (x = i)) as [->|Hx].
  - rewrite decide_False by congruence. reflexivity.
  - rewrite occurrences_cons, IH. reflexivity.
Qed.

Lemma elem_of_remove_first i j s : j ∈ remove_first i s → j ∈ s.
Proof.
  induction s as [|x s IH]; cbn; [trivial|].
  destruct (decide (x = i)); intros H.
  - apply elem_of_cons. right. assumption.
  - apply elem_of_cons in H. apply elem_of_cons. destruct H; [left | right]; auto.
Qed.

Lemma Acct_quiet a w : quiet a → Acct w → Acct (a w).
Proof.
  intros Hq (A1 & A2 & A3). destruct (Hq w) as (Q1 & Q2 & Q3).
  repeat split.
  - intros j. rewrite Q1, Q2. apply A1.
  - intros j. rewrite Q2, Q3. apply A2.
  - intros j. rewrite Q1, Q3. apply A3.
Qed.

Lemma quiet_controller_hide : quiet StandaloneColorPickerController.hide.
Proof.
  unfold StandaloneColorPickerController.hide.
  apply (quiet_fun (λ w0, _ >> _ >> _ >> _)). intros w0. quiet_tac.
Qed.

#[local] Hint Resolve quiet_controller_hide : quiet.

Lemma quiet_controller_insertColor : quiet StandaloneColorPickerController.insertColor.
Proof.
  unfold StandaloneColorPickerController.insertColor.
  apply (quiet_fun (λ w0, _ >> _)). intros w0. quiet_tac.
Qed.

(** Resuming [start] fires at most once, for its own computer, which
    belongs to an allocated widget. *)
Lemma resume_acct i answer picker moves w :
  let w' := computer_resume i answer picker moves w in
  suspended w' = suspended w ∧
  length (heap w') = length (heap w) ∧
  (∀ j, j ≠ i → fire_count j w' = fire_count j w) ∧
  fire_count i w' ≤ fire_count i w + 1 ∧
  (length (heap w) ≤ i → fire_count i w' = fire_count i w).
Proof.
  unfold computer_resume, with_widget.
  destruct (heap w !! i) as [this|] eqn:Hi; cbn.
  2: { repeat split; auto; lia. }
  destruct (StandaloneColorPickerComputer.start_answer answer) as [r|].
  2: { unfold skip. repeat split; auto; lia. }
  unfold then_.
  match goal with |- context [for_each ?f ?l] =>
    destruct (quiet_for_each f l (λ x, quiet_render _ _ _ _ _) (call (onResult_fire i r) w))
      as (Q1 & Q2 & Q3)
  end.
  rewrite Q1, Q2. repeat split.
  - intros j Hne. rewrite Q3, fire_count_call. cbn.
    rewrite bool_decide_eq_false_2 by congruence. lia.
  - rewrite Q3, fire_count_call. cbn. destruct (bool_decide (i = i)); lia.
  - intros Hle. apply lookup_lt_Some in Hi. lia.
Qed.

Lemma new_acct w :
  suspended (new w)
  = (if hasModel (editor w) then suspended w ++ [length (heap w)] else suspended w) ∧
  length (heap (new w)) = S (length (heap w)) ∧
  (∀ j, fire_count j (new w) = fire_count j w).
Proof.
  rewrite new_eq. cbn. rewrite length_app. cbn. repeat split; [lia|].
  intros j. unfold fire_count. cbn. destruct (hasModel (editor w)); [|reflexivity].
  rewrite filter_app, length_app, filter_cons_False by (cbn; discriminate).
  cbn. lia.
Qed.

Lemma Acct_new w : Acct w → Acct (new w).
Proof.
  intros (A1 & A2 & A3). destruct (new_acct w) as (N1 & N2 & N3).
  unfold Acct. rewrite N1, N2. repeat split.
  - intros j Hj. destruct (hasModel (editor w)).
    + apply elem_of_app in Hj. destruct Hj as [Hj|Hj].
      * specialize (A1 j Hj). lia.
      * apply list_elem_of_singleton in Hj. lia.
    + specialize (A1 j Hj). lia.
  - intros j Hj. rewrite N3. apply A2. lia.
  - intros j. rewrite N3. destruct (hasModel (editor w)); [|apply A3].
    rewrite occurrences_snoc. destruct (decide (length (heap w) = j)) as [<-|Hne].
    + rewrite A2 by lia. rewrite occurrences_not_in; [lia|].
      intros Hin. specialize (A1 _ Hin). lia.
    + specialize (A3 j). lia.
Qed.

Lemma Acct_showOrFocus w : Acct w → Acct (StandaloneColorPickerController.showOrFocus w).
Proof.
  intros HA. unfold StandaloneColorPickerController.showOrFocus.
  destruct (hasModel (editor w)); cbn; [|assumption].
  destruct (_standaloneColorPickerVisible w); cbn.
  - destruct (_standaloneColorPickerFocused w); cbn; [assumption|].
    apply (Acct_quiet (_ >> _)); [|assumption]. quiet_tac.
  - unfold then_.
    apply (Acct_quiet (editor_addContentWidget _)); [quiet_tac|].
    apply (Acct_quiet (set_widget _)); [quiet_tac|].
    apply Acct_new. apply (Acct_quiet (set_visible true)); [quiet_tac | assumption].
Qed.

Lemma Acct_step ev w : Acct w → Acct (step ev w).
Proof.
  intros HA. destruct ev as [ | | |i answer picker moves| |i|i|i|i|i|m p s a o]; cbn.
  - apply Acct_showOrFocus. assumption.
  - apply Acct_quiet; [apply quiet_controller_hide | assumption].
  - apply Acct_quiet; [apply quiet_controller_insertColor | assumption].
  - destruct (bool_decide (i ∈ suspended w)) eqn:Hin; [|assumption].
    apply bool_decide_eq_true_1 in Hin. unfold then_.
    destruct (resume_acct i answer picker moves (set_suspended (remove_first i (suspended w)) w))
      as (R1 & R2 & R3 & R4 & R5).
    change (fire_count i (set_suspended (remove_first i (suspended w)) w))
      with (fire_count i w) in R4, R5.
    change (length (heap (set_suspended (remove_first i (suspended w)) w)))
      with (length (heap w)) in R2, R5.
    change (suspended (set_suspended (remove_first i (suspended w)) w))
      with (remove_first i (suspended w)) in R1.
    assert (∀ j, j ≠ i →
              fire_count j (computer_resume i answer picker moves
                              (set_suspended (remove_first i (suspended w)) w))
              = fire_count j w) as R3' by exact R3.
    destruct HA as (A1 & A2 & A3).
    unfold Acct. rewrite R1, R2. repeat split.
    + intros j Hj. apply A1. eapply elem_of_remove_first. eassumption.
    + intros j Hj. destruct (decide (j = i)) as [->|Hne].
      * rewrite R5 by assumption. apply A2. assumption.
      * rewrite R3' by assumption. apply A2. assumption.
    + intros j. destruct (decide (j = i)) as [->|Hne].
      * pose proof (occurrences_remove_first_eq i _ Hin).
        specialize (A3 i). lia.
      * rewrite R3', occurrences_remove_first_ne by assumption. apply A3.
  - apply Acct_quiet; [quiet_tac | assumption].
  - apply Acct_quiet; [quiet_tac | assumption].
  - apply Acct_quiet; [quiet_tac | assumption].
  - apply (Acct_quiet (with_widget i _)); [|assumption].
    apply quiet_with_widget. intros this w0.
    destruct (colorPickerWidget this) as [p|]; [|apply (quiet_skip w0)].
    destruct (_ && _); [|apply (quiet_skip w0)].
    apply (quiet_then (updateEditor i) (hide i)); auto with quiet.
  - apply (Acct_quiet (with_widget i _)); [|assumption].
    apply quiet_with_widget. intros this w0.
    destruct (colorPickerWidget this) as [p|]; [|apply (quiet_skip w0)].
    destruct (_ && _); [|apply (quiet_skip w0)].
    apply quiet_hide.
  - apply Acct_quiet; [quiet_tac | assumption].
  - apply (Acct_quiet (set_editor _)); [quiet_tac | assumption].
Qed.

Lemma run_snoc evs ev w : run (evs ++ [ev]) w = step ev (run evs w).
Proof. unfold run, for_each. rewrite foldl_snoc. reflexivity. Qed.

Lemma run_cons ev evs w : run (ev :: evs) w = run evs (step ev w).
Proof. reflexivity. Qed.

(** Two [showOrFocus] in a row, with providers A, B and C: one lookup, with
    C, one widget attached, then focused. *)
Example run_showOrFocus_twice :
  calls (run [ev_showOrFocus; ev_showOrFocus] (init true None None false ["A"; "B"; "C"]%string))
  = [createColorHover 0
       (colorInfo_of {| startLineNumber := 0; startColumn := 0;
                        endLineNumber := 0; endColumn := 0 |})
       (Some "C"%string);
     addContentWidget 0;
     body_focus 0].
Proof. reflexivity. Qed.

(** A cursor change hides the widget; the answer that arrives afterwards is
    fired and finds no listener. *)
Example run_answer_after_hide :
  let w := run [ev_showOrFocus; ev_cursorPositionChanged;
                ev_createColorHover_resolved 0 (Some (hover_1, true)) None false]
               (init true None None false ["A"]%string) in
  live_widgets w = []
  ∧ data_at w 0 = None
  ∧ last (calls w) = Some (onResult_fire 0 result_1).
Proof. repeat split. Qed.

Lemma Acct_init m p s a o : Acct (init m p s a o).
Proof.
  repeat split.
  - intros j Hj. inversion Hj.
  - intros j. cbn. lia.
Qed.

Lemma Acct_run evs w : Acct w → Acct (run evs w).
Proof.
  revert w. induction evs as [|ev evs IH]; intros w HA; [assumption|].
  rewrite run_cons. apply IH, Acct_step, HA.
Qed.

(** ** The shape of the store is kept by every event *)

Lemma Struct_live i w : Struct (Some i) w → is_live w i = true.
Proof.
  intros (_ & _ & Hg & Hl). destruct (Hl i eq_refl) as [_ [this Hi]].
  unfold is_live. rewrite Hi. destruct (Hg _ _ Hi) as (_ & _ & _ & Hd).
  rewrite (proj2 Hd eq_refl). reflexivity.
Qed.

Lemma Struct_dead L i w : L ≠ Some i → Struct L w → is_live w i = false.
Proof.
  intros Hne (_ & _ & Hg & _). unfold is_live.
  destruct (heap w !! i) as [this|] eqn:Hi; [|reflexivity].
  destruct (Hg _ _ Hi) as (_ & _ & _ & Hd).
  destruct (_disposables this); [reflexivity|]. destruct Hne. apply Hd. reflexivity.
Qed.

Lemma Struct_live_inv L i w : Struct L w → is_live w i = true → L = Some i.
Proof.
  intros HS Hl. destruct (decide (L = Some i)) as [|Hne]; [assumption|].
  rewrite (Struct_dead L i w Hne HS) in Hl. discriminate.
Qed.

(** The shape depends on the attached widgets, the cursor listeners, the
    store and the controller's reference only. *)
Lemma Struct_ext L w w' :
  contentWidgets (editor w') = contentWidgets (editor w) →
  cursorPositionListeners (editor w') = cursorPositionListeners (editor w) →
  heap w' = heap w →
  _standaloneColorPickerWidget w' = _standaloneColorPickerWidget w →
  Struct L w → Struct L w'.
Proof.
  intros H1 H2 H3 H4 (Hc & Hp & Hg & Hl). unfold Struct.
  rewrite H1, H2, H3, H4. auto.
Qed.

(** Replacing a widget by one with the same computer and the same
    [_disposables] keeps the shape. *)
Lemma Struct_insert L w w' i t t' :
  contentWidgets (editor w') = contentWidgets (editor w) →
  cursorPositionListeners (editor w') = cursorPositionListeners (editor w) →
  heap w' = <[i := t']> (heap w) →
  _standaloneColorPickerWidget w' = _standaloneColorPickerWidget w →
  heap w !! i = Some t →
  _standaloneColorPickerComputer t' = _standaloneColorPickerComputer t →
  _disposables t' = _disposables t →
  _selection t' = _selection t →
  Struct L w → Struct L w'.
Proof.
  intros H1 H2 H3 H4 Hi Hcomp Hdis Hsel (Hc & Hp & Hg & Hl). unfold Struct.
  rewrite H1, H2, H3, H4. split; [assumption|]. split; [assumption|]. split.
  - intros j this Hj. destruct (decide (i = j)) as [<-|Hne].
    + rewrite list_lookup_insert_eq in Hj by (eapply lookup_lt_Some; eassumption).
      injection Hj as <-. specialize (Hg _ _ Hi). unfold good_widget in *.
      rewrite Hcomp, Hdis, Hsel. assumption.
    + rewrite list_lookup_insert_ne in Hj by assumption. apply (Hg _ _ Hj).
  - intros k Hk. destruct (Hl _ Hk) as [Hw [x Hx]]. split; [assumption|].
    destruct (decide (i = k)) as [<-|Hne].
    + rewrite list_lookup_insert_eq by (eapply lookup_lt_Some; eassumption). eauto.
    + rewrite list_lookup_insert_ne by assumption. eauto.
Qed.

Lemma good_widget_disposed i j this :
  good_widget (Some i) j this →
  good_widget None j (if decide (j = i) then disposed_widget i this else this).
Proof.
  intros (Hr & He & Hli & Hd). destruct (decide (j = i)) as [->|Hne].
  - unfold good_widget; cbn. rewrite Hli, (proj2 Hd eq_refl), filter_ne_singleton.
    repeat split; try assumption; discriminate.
  - assert (_disposables this = true) as Ht.
    { destruct (_disposables this); [reflexivity|].
      specialize (proj1 Hd eq_refl). congruence. }
    unfold good_widget. rewrite Hli, Ht. repeat split; try assumption; discriminate.
Qed.

(** Hiding the live widget, or hiding when no widget is live, leaves no
    live widget and both context keys false. *)
Lemma Struct_hide L i w :
  Struct L w → (L = Some i ∨ L = None) →
  Struct None (hide i w) ∧ Flags None (hide i w).
Proof.
  intros HS HL. rewrite hide_eq. split; [|split; reflexivity].
  destruct HL as [-> | ->].
  - rewrite (Struct_live _ _ HS). destruct HS as (Hc & Hp & Hg & Hl).
    split; [|split; [|split]]; cbn.
    + rewrite Hc. apply filter_ne_singleton.
    + rewrite Hp. apply filter_ne_singleton.
    + intros j this Hj. destruct (decide (j = i)) as [->|Hne].
      * rewrite list_lookup_alter_eq in Hj.
        destruct (heap w !! i) as [t|] eqn:Hi; [|discriminate].
        injection Hj as <-. generalize (good_widget_disposed i i t (Hg _ _ Hi)).
        rewrite decide_True by reflexivity. trivial.
      * rewrite list_lookup_alter_ne in Hj by congruence.
        generalize (good_widget_disposed i j this (Hg _ _ Hj)).
        rewrite decide_False by assumption. trivial.
    + intros ? [=].
  - rewrite (Struct_dead None i w) by (discriminate || assumption).
    destruct HS as (Hc & Hp & Hg & Hl).
    split; [|split; [|split]]; cbn.
    + rewrite Hc. reflexivity.
    + assumption.
    + assumption.
    + intros ? [=].
Qed.

Lemma rendered_computer d found picker moves this :
  _standaloneColorPickerComputer (rendered d found picker moves this)
  = _standaloneColorPickerComputer this.
Proof.
  unfold rendered. destruct picker as [cp|]; [|reflexivity].
  destruct found; [|reflexivity]. destruct (enterButton cp); reflexivity.
Qed.

Lemma rendered_disposables d found picker moves this :
  _disposables (rendered d found picker moves this) = _disposables this.
Proof.
  unfold rendered. destruct picker as [cp|]; [|reflexivity].
  destruct found; [|reflexivity]. destruct (enterButton cp); reflexivity.
Qed.

Lemma rendered_selection d found picker moves this :
  _selection (rendered d found picker moves this) = _selection this.
Proof.
  unfold rendered. destruct picker as [cp|]; [|reflexivity].
  destruct found; [|reflexivity]. destruct (enterButton cp); reflexivity.
Qed.

(** Rendering in the live widget keeps the shape and the context keys. *)
Lemma Struct_render i d found picker moves w :
  Struct (Some i) w →
  Struct (Some i) (_render i d found picker moves w) ∧
  _standaloneColorPickerVisible (_render i d found picker moves w)
    = _standaloneColorPickerVisible w ∧
  _standaloneColorPickerFocused (_render i d found picker moves w)
    = _standaloneColorPickerFocused w.
Proof.
  intros HS. pose proof HS as (Hc & Hp & Hg & Hl).
  destruct (Hl i eq_refl) as [_ [this Hi]].
  rewrite (render_eq i d found picker moves w this Hp Hi).
  split; [|split; reflexivity].
  eapply (Struct_insert _ w _ i this (rendered d found picker moves this));
    try eassumption; try reflexivity.
  - cbn. destruct picker; [destruct found|]; reflexivity.
  - cbn. destruct picker; [destruct found|]; reflexivity.
  - apply rendered_computer.
  - apply rendered_disposables.
  - apply rendered_selection.
Qed.

(** The first branch of [showOrFocus]: with no live widget, the new widget
    becomes the live one. *)
Lemma Struct_show_new w :
  Struct None w →
  Struct (Some (length (heap w)))
    (editor_addContentWidget (length (heap w))
       (set_widget (Some (length (heap w))) (new (set_visible true w)))).
Proof.
  intros (Hc & Hp & Hg & Hl). rewrite new_eq. cbn.
  split; [|split; [|split]]; cbn.
  - rewrite Hc. reflexivity.
  - rewrite Hp. reflexivity.
  - intros j this Hj. apply lookup_app_Some in Hj. destruct Hj as [Hj|[Hge Hj]].
    + destruct (Hg _ _ Hj) as (G1 & G2 & G3 & G4).
      assert (_disposables this = true) as Ht.
      { destruct (_disposables this); [reflexivity|].
        specialize (proj1 G4 eq_refl). discriminate. }
      unfold good_widget. rewrite G3, Ht. repeat split; try assumption; try discriminate.
      intros [= Heq]. apply lookup_lt_Some in Hj. lia.
    + assert (j = length (heap w)) as ->.
      { apply lookup_lt_Some in Hj. cbn in Hj. lia. }
      rewrite Nat.sub_diag in Hj. injection Hj as <-.
      unfold good_widget. cbn. repeat split; eauto.
  - intros k [= <-]. split; [reflexivity|].
    rewrite list_lookup_middle by reflexivity. eauto.
Qed.

Lemma Flags_Some_visible L w :
  Flags L w → _standaloneColorPickerVisible w = true → is_Some L.
Proof.
  destruct L; cbn; [eauto|]. intros [H _] H'. congruence.
Qed.

Lemma Flags_None_visible L w :
  Flags L w → _standaloneColorPickerVisible w = false → L = None.
Proof.
  destruct L; cbn; [congruence | reflexivity].
Qed.

Lemma Inv_showOrFocus w : Inv w → Inv (StandaloneColorPickerController.showOrFocus w).
Proof.
  intros (L & HS & HF). unfold StandaloneColorPickerController.showOrFocus.
  destruct (hasModel (editor w)); cbn; [|exists L; auto].
  destruct (_standaloneColorPickerVisible w) eqn:Hv; cbn.
  - destruct (_standaloneColorPickerFocused w) eqn:Hf; cbn; [exists L; auto|].
    exists L. destruct (Flags_Some_visible L w HF Hv) as [i ->]. split.
    + eapply Struct_ext; [| | | |exact HS];
        unfold then_; destruct (_standaloneColorPickerWidget w) eqn:Hw; cbn; congruence.
    + unfold then_; destruct (_standaloneColorPickerWidget w); cbn; assumption.
  - pose proof (Flags_None_visible L w HF Hv) as ->.
    exists (Some (length (heap w))). unfold then_. split.
    + apply (Struct_show_new w HS).
    + cbn. rewrite new_eq. reflexivity.
Qed.

Lemma Inv_controller_hide w : Inv w → Inv (StandaloneColorPickerController.hide w).
Proof.
  intros (L & HS & HF). unfold StandaloneColorPickerController.hide, then_.
  exists None.
  assert (Struct L (set_visible false (set_focused false w))) as HS'
    by (eapply Struct_ext; [| | | |exact HS]; reflexivity).
  destruct (_standaloneColorPickerWidget w) as [i|] eqn:Hw.
  - assert (L = Some i ∨ L = None) as HL.
    { destruct L as [k|]; [|auto]. destruct HS as (_ & _ & _ & Hl).
      destruct (Hl k eq_refl) as [Hk _]. left. congruence. }
    destruct (Struct_hide L i _ HS' HL) as [H1 H2]. split.
    + eapply Struct_ext; [| | | |exact H1]; reflexivity.
    + exact H2.
  - assert (L = None) as ->.
    { destruct L as [k|]; [|reflexivity]. destruct HS as (_ & _ & _ & Hl).
      destruct (Hl k eq_refl) as [Hk _]. congruence. }
    split.
    + eapply Struct_ext; [| | | |exact HS]; reflexivity.
    + split; reflexivity.
Qed.

Lemma updateEditor_calls_only i w :
  editor (updateEditor i w) = editor w ∧
  _standaloneColorPickerVisible (updateEditor i w) = _standaloneColorPickerVisible w ∧
  _standaloneColorPickerFocused (updateEditor i w) = _standaloneColorPickerFocused w ∧
  heap (updateEditor i w) = heap w ∧
  _standaloneColorPickerWidget (updateEditor i w) = _standaloneColorPickerWidget w ∧
  suspended (updateEditor i w) = suspended w.
Proof.
  unfold updateEditor, with_widget. destruct (heap w !! i) as [this|]; [|auto 10].
  destruct (_colorHoverData this); cbn; auto 10.
Qed.

Lemma Inv_updateEditor i w : Inv w → Inv (updateEditor i w).
Proof.
  intros (L & HS & HF). destruct (updateEditor_calls_only i w) as (E1 & E2 & E3 & E4 & E5 & E6).
  exists L. split.
  - eapply Struct_ext; [| | | |exact HS]; congruence.
  - destruct L; cbn in *; rewrite ?E2, ?E3; assumption.
Qed.

Lemma Inv_controller_insertColor w :
  Inv w → Inv (StandaloneColorPickerController.insertColor w).
Proof.
  intros HI. unfold StandaloneColorPickerController.insertColor, then_.
  apply Inv_controller_hide.
  destruct (_standaloneColorPickerWidget w); [apply Inv_updateEditor|]; assumption.
Qed.

(** Hiding the live widget keeps the invariant. *)
Lemma Inv_hide_live i w : Inv w → is_live w i = true → Inv (hide i w).
Proof.
  intros (L & HS & HF) Hl. exists None.
  apply (Struct_hide L i w HS). left. eapply Struct_live_inv; eassumption.
Qed.

Lemma Inv_cursorPositionChanged w : Inv w → Inv (cursorPositionChanged w).
Proof.
  intros (L & HS & HF). unfold cursorPositionChanged, for_each.
  pose proof HS as (Hc & Hp & Hg & Hl). rewrite Hp.
  destruct L as [i|]; [|exists None; auto].
  change (option_list (Some i)) with [i]. cbn [foldl].
  unfold onDidChangeCursorPosition_listener, with_widget.
  destruct (Hl i eq_refl) as [_ [this Hi]]. rewrite Hi.
  destruct (_selectionSetInEditor this); cbn [negb].
  - exists (Some i). split; [|exact HF].
    eapply (Struct_insert _ w _ i this (set_selectionSetInEditor false this));
      try eassumption; try reflexivity.
    unfold update_widget. cbn. apply alter_as_insert. assumption.
  - apply Inv_hide_live; [exists (Some i); auto|]. apply (Struct_live i w HS).
Qed.

Lemma Inv_render_live i d found picker moves w :
  Inv w → is_live w i = true → Inv (_render i d found picker moves w).
Proof.
  intros (L & HS & HF) Hlive.
  pose proof (Struct_live_inv L i w HS Hlive) as ->.
  destruct (Struct_render i d found picker moves w HS) as (H1 & H2 & H3).
  exists (Some i). split; [assumption|]. cbn in *. congruence.
Qed.

Lemma Inv_call c w : Inv w → Inv (call c w).
Proof.
  intros (L & HS & HF). exists L. split.
  - eapply Struct_ext; [| | | |exact HS]; reflexivity.
  - destruct L; exact HF.
Qed.

Lemma Inv_set_suspended s w : Inv w → Inv (set_suspended s w).
Proof.
  intros (L & HS & HF). exists L. split.
  - eapply Struct_ext; [| | | |exact HS]; reflexivity.
  - destruct L; exact HF.
Qed.

Lemma is_live_call c w i : is_live (call c w) i = is_live w i.
Proof. reflexivity. Qed.

(** The listeners of a widget's computer: the widget itself while it is
    live, nobody afterwards. *)
Lemma Inv_listeners w i this :
  Inv w → heap w !! i = Some this →
  listeners (_onResult (_standaloneColorPickerComputer this))
  = if is_live w i then [i] else [].
Proof.
  intros (L & (_ & _ & Hg & _) & _) Hi. destruct (Hg _ _ Hi) as (_ & _ & Hli & _).
  unfold is_live. rewrite Hi, Hli. destruct (_disposables this); reflexivity.
Qed.

Lemma resume_eq i answer picker moves w this :
  Inv w → heap w !! i = Some this →
  computer_resume i answer picker moves w
  = match answer with
    | Some (d, found) =>
        let fire := call (onResult_fire i {| value := d; foundInMap := found |}) w in
        if is_live w i then _render i d found picker moves fire else fire
    | None => w
    end.
Proof.
  intros HI Hi. unfold computer_resume, with_widget. rewrite Hi.
  destruct answer as [[d found]|]; [|reflexivity]. cbn.
  unfold then_, Emitter_fire. rewrite (Inv_listeners w i this HI Hi).
  destruct (is_live w i); reflexivity.
Qed.

Lemma Inv_resume i answer picker moves w :
  Inv w → Inv (computer_resume i answer picker moves w).
Proof.
  intros HI. destruct (heap w !! i) as [this|] eqn:Hi.
  - rewrite (resume_eq i answer picker moves w this HI Hi).
    destruct answer as [[d found]|]; [|assumption]. cbn zeta.
    destruct (is_live w i) eqn:Hl.
    + apply Inv_render_live; [apply Inv_call; assumption|]. exact Hl.
    + apply Inv_call. assumption.
  - unfold computer_resume, with_widget. rewrite Hi. assumption.
Qed.

Lemma is_live_not_disposed w i this :
  heap w !! i = Some this → _disposables this = false → is_live w i = true.
Proof. intros Hi Hd. unfold is_live. rewrite Hi, Hd. reflexivity. Qed.

(** A widget attached to the editor is the live one. *)
Lemma Inv_attached_live w i :
  Inv w → i ∈ contentWidgets (editor w) → is_live w i = true.
Proof.
  intros (L & HS & _) Hin. pose proof HS as (Hc & _). rewrite Hc in Hin.
  destruct L as [k|]; cbn in Hin.
  - apply list_elem_of_singleton in Hin. subst. apply (Struct_live _ _ HS).
  - inversion Hin.
Qed.

Lemma is_live_updateEditor i j w : is_live (updateEditor i w) j = is_live w j.
Proof.
  unfold is_live. destruct (updateEditor_calls_only i w) as (_ & _ & _ & -> & _).
  reflexivity.
Qed.

Theorem Inv_step ev w : Inv w → Inv (step ev w).
Proof.
  intros HI. destruct ev as [ | | |i answer picker moves| |i|i|i|i|i|m p s a o]; cbn.
  - apply Inv_showOrFocus. assumption.
  - apply Inv_controller_hide. assumption.
  - apply Inv_controller_insertColor. assumption.
  - destruct (bool_decide (i ∈ suspended w)); [|assumption].
    unfold then_. apply Inv_resume, Inv_set_suspended. assumption.
  - apply Inv_cursorPositionChanged. assumption.
  - unfold with_widget. destruct (heap w !! i) as [this|] eqn:Hi; [|assumption].
    destruct (_disposables this) eqn:Hd; [assumption|].
    apply Inv_hide_live; [assumption|]. eapply is_live_not_disposed; eassumption.
  - unfold with_widget. destruct (heap w !! i) as [this|] eqn:Hi; [|assumption].
    destruct (_disposables this) eqn:Hd; [assumption|].
    apply Inv_call. assumption.
  - unfold with_widget. destruct (heap w !! i) as [this|] eqn:Hi; [|assumption].
    destruct (colorPickerWidget this) as [p|]; [|assumption].
    destruct (bool_decide (i ∈ contentWidgets (editor w))) eqn:Hin; cbn; [|assumption].
    destruct (bool_decide (is_Some (enterButton p))); [|assumption].
    apply bool_decide_eq_true_1 in Hin. unfold then_.
    apply Inv_hide_live; [apply Inv_updateEditor; assumption|].
    rewrite is_live_updateEditor. apply Inv_attached_live; assumption.
  - unfold with_widget. destruct (heap w !! i) as [this|] eqn:Hi; [|assumption].
    destruct (colorPickerWidget this) as [p|]; [|assumption].
    destruct (bool_decide (i ∈ contentWidgets (editor w))) eqn:Hin; cbn; [|assumption].
    destruct (closeButton p); [|assumption].
    apply bool_decide_eq_true_1 in Hin.
    apply Inv_hide_live; [assumption|]. apply Inv_attached_live; assumption.
  - unfold with_widget. destruct (heap w !! i) as [this|] eqn:Hi; [|assumption].
    destruct (_disposables this) eqn:Hd; [assumption|].
    destruct (_colorHoverData this); [|assumption].
    apply Inv_hide_live; [assumption|]. eapply is_live_not_disposed; eassumption.
  - destruct HI as (L & HS & HF). exists L. split.
    + eapply Struct_ext; [| | | |exact HS]; reflexivity.
    + destruct L; exact HF.
Qed.

Lemma Inv_init m p s a o : Inv (init m p s a o).
Proof.
  exists None. split; [|split; reflexivity].
  split; [reflexivity|]. split; [reflexivity|]. split.
  - intros j this Hj. cbn in Hj. rewrite lookup_nil in Hj. discriminate.
  - intros i [=].
Qed.

Lemma Inv_run evs w : Inv w → Inv (run evs w).
Proof.
  revert w. induction evs as [|ev evs IH]; intros w HI; [assumption|].
  rewrite run_cons. apply IH, Inv_step, HI.
Qed.

(** ** The live widgets *)

Lemma filter_none {A : Type} (P : A → Prop) `{∀ x, Decision (P x)} (l : list A) :
  (∀ x, x ∈ l → ¬ P x) → filter P l = [].
Proof.
  induction l as [|x l IH]; intros Hn; [reflexivity|].
  rewrite filter_cons_False by (apply Hn; left).
  apply IH. intros y Hy. apply Hn. right. assumption.
Qed.

Lemma filter_only (P : nat → Prop) `{∀ x, Decision (P x)} (i : nat) (l : list nat) :
  NoDup l → i ∈ l → (∀ j, j ∈ l → (P j ↔ j = i)) → filter P l = [i].
Proof.
  induction l as [|x l IH]; intros Hnd Hin HP; [inversion Hin|].
  apply NoDup_cons in Hnd. destruct Hnd as [Hx Hnd].
  destruct (decide (x = i)) as [->|Hne].
  - rewrite filter_cons_True by (apply HP; [left | reflexivity]).
    f_equal. apply filter_none. intros y Hy HPy.
    apply HP in HPy; [|right; assumption]. subst. contradiction.
  - rewrite filter_cons_False by (intros HPx; apply HP in HPx; [contradiction | left]).
    apply IH; [assumption| |].
    + apply elem_of_cons in Hin. destruct Hin; [congruence | assumption].
    + intros j Hj. apply HP. right. assumption.
Qed.

Lemma Struct_live_widgets L w : Struct L w → live_widgets w = option_list L.
Proof.
  intros HS. unfold live_widgets. destruct L as [i|].
  - apply filter_only.
    + apply NoDup_seq.
    + apply elem_of_seq. destruct HS as (_ & _ & _ & Hl).
      destruct (Hl i eq_refl) as [_ [t Ht]]. apply lookup_lt_Some in Ht. lia.
    + intros j _. split.
      * intros Hj. symmetry. injection (Struct_live_inv _ _ _ HS Hj). trivial.
      * intros ->. apply (Struct_live _ _ HS).
  - apply filter_none. intros j _ Hj.
    rewrite (Struct_dead None j w) in Hj by (discriminate || assumption). discriminate.
Qed.

(** ** The controller's invariant *)

(** C6: after every sequence of commands and callbacks, from a freshly
    constructed controller: at most one widget is live (constructed and not
    hidden since) and at most one is attached to the editor; if the visible
    key is true, the controller's field refers to a widget, and that widget
    is live and is the one attached; if the focused key is true, so is the
    visible key. *)
Theorem C6_controller_invariant
    (hasModel0 : bool) (viewPosition0 : option Position) (selection0 : option Selection)
    (hoverAbove0 : bool) (ordered0 : list DocumentColorProvider) (evs : list Event) :
  let w := run evs (init hasModel0 viewPosition0 selection0 hoverAbove0 ordered0) in
  length (live_widgets w) ≤ 1
  ∧ length (contentWidgets (editor w)) ≤ 1
  ∧ (_standaloneColorPickerVisible w = true →
       ∃ i, _standaloneColorPickerWidget w = Some i
            ∧ is_live w i = true
            ∧ live_widgets w = [i]
            ∧ contentWidgets (editor w) = [i])
  ∧ (_standaloneColorPickerFocused w = true → _standaloneColorPickerVisible w = true).
Proof.
  intros w.
  destruct (Inv_run evs _ (Inv_init hasModel0 viewPosition0 selection0 hoverAbove0 ordered0))
    as (L & HS & HF).
  fold w in HS, HF. pose proof (Struct_live_widgets L w HS) as Hlw.
  pose proof HS as (Hc & Hp & Hg & Hl).
  split; [rewrite Hlw; destruct L; cbn; lia|].
  split; [rewrite Hc; destruct L; cbn; lia|].
  split.
  - intros Hv. destruct (Flags_Some_visible L w HF Hv) as [i ->].
    exists i. destruct (Hl i eq_refl) as [Hw _].
    split; [assumption|]. split; [apply (Struct_live i w HS)|]. split; assumption.
  - intros Hf. destruct L; cbn in HF; [assumption|]. destruct HF. congruence.
Qed.

Lemma C6_controller_invariant_witness :
  let w := run [ev_showOrFocus; ev_showOrFocus; ev_hide; ev_showOrFocus]
               (init true None None false []) in
  _standaloneColorPickerVisible w = true
  ∧ ∃ i, _standaloneColorPickerWidget w = Some i ∧ is_live w i = true
         ∧ live_widgets w = [i] ∧ contentWidgets (editor w) = [i].
Proof.
  split; [reflexivity|].
  apply (proj1 (proj2 (proj2
    (C6_controller_invariant true None None false []
       [ev_showOrFocus; ev_showOrFocus; ev_hide; ev_showOrFocus])))).
  reflexivity.
Defined.

(** ** The result event *)

Lemma start_bounds this editor createColorHover :
  let o := StandaloneColorPickerComputer.start this editor createColorHover in
  length (StandaloneColorPickerComputer.lookups o) ≤ 1
  ∧ length (StandaloneColorPickerComputer.fired o) ≤ 1
  ∧ length (StandaloneColorPickerComputer.fired o)
    ≤ length (StandaloneColorPickerComputer.lookups o).
Proof.
  unfold StandaloneColorPickerComputer.start.
  destruct (StandaloneColorPickerComputer.start_ask this editor) as [[colorInfo provider]|];
    [|cbn; lia].
  destruct (StandaloneColorPickerComputer.start_answer _); cbn; lia.
Qed.

Lemma start_success this editor createColorHover range d found :
  _range this = Some range →
  hasModel editor = true →
  createColorHover (colorInfo_of range) (last (ordered editor)) = Some (d, found) →
  StandaloneColorPickerComputer.start this editor createColorHover
  = {| StandaloneColorPickerComputer.lookups := [(colorInfo_of range, last (ordered editor))];
       StandaloneColorPickerComputer.fired := [{| value := d; foundInMap := found |}];
       StandaloneColorPickerComputer.delivered :=
         Emitter_fire (_onResult this) {| value := d; foundInMap := found |} |}.
Proof.
  intros Hr Hm Ha.
  unfold StandaloneColorPickerComputer.start, StandaloneColorPickerComputer.start_ask.
  rewrite Hr, computeAsync_ask_model by assumption.
  unfold StandaloneColorPickerComputer.start_answer. rewrite Ha. reflexivity.
Qed.

(** A disposed emitter stays disposed and without listeners, whatever the
    client does, and nothing is delivered. *)
Lemma run_disposed ops this :
  emitter_disposed (_onResult this) = true →
  listeners (_onResult this) = [] →
  (StandaloneColorPickerComputer.run ops this).2 = [].
Proof.
  revert this. induction ops as [|op ops IH]; intros this Hd Hl; [reflexivity|].
  destruct op as [editor createColorHover|l|]; cbn [StandaloneColorPickerComputer.run].
  - cbn. rewrite (IH this Hd Hl), app_nil_r.
    unfold StandaloneColorPickerComputer.start.
    destruct (StandaloneColorPickerComputer.start_ask this editor) as [[colorInfo provider]|];
      [|reflexivity].
    destruct (StandaloneColorPickerComputer.start_answer _); [|reflexivity].
    cbn. unfold Emitter_fire. rewrite Hl. reflexivity.
  - apply IH; cbn; unfold Emitter_subscribe; rewrite Hd; assumption.
  - apply IH; reflexivity.
Qed.

(** C2, in the form the code satisfies: each call of [start] sends at most
    one lookup and fires the result event at most once, exactly one of each
    when it succeeds; in every run of the controller the computer of each
    widget fires at most once, its [start] being called once, by the widget's
    constructor; and once a computer is disposed, nothing is delivered to any
    listener, whatever is called on it afterwards. *)
Theorem C2_result_fires_once_per_start :
  (∀ this editor createColorHover,
     let o := StandaloneColorPickerComputer.start this editor createColorHover in
     length (StandaloneColorPickerComputer.lookups o) ≤ 1
     ∧ length (StandaloneColorPickerComputer.fired o) ≤ 1
     ∧ length (StandaloneColorPickerComputer.fired o)
       ≤ length (StandaloneColorPickerComputer.lookups o))
  ∧ (∀ this editor createColorHover range d found,
       _range this = Some range →
       hasModel editor = true →
       createColorHover (colorInfo_of range) (last (ordered editor)) = Some (d, found) →
       StandaloneColorPickerComputer.start this editor createColorHover
       = {| StandaloneColorPickerComputer.lookups :=
              [(colorInfo_of range, last (ordered editor))];
            StandaloneColorPickerComputer.fired := [{| value := d; foundInMap := found |}];
            StandaloneColorPickerComputer.delivered :=
              Emitter_fire (_onResult this) {| value := d; foundInMap := found |} |})
  ∧ (∀ hasModel0 viewPosition0 selection0 hoverAbove0 ordered0 evs i,
       fire_count i (run evs (init hasModel0 viewPosition0 selection0 hoverAbove0 ordered0))
       ≤ 1)
  ∧ (∀ ops this,
       (StandaloneColorPickerComputer.run ops
          (StandaloneColorPickerComputer.dispose this)).2 = []).
Proof.
  split; [exact start_bounds|]. split; [exact start_success|]. split.
  - intros m p s a o evs i.
    destruct (Acct_run evs _ (Acct_init m p s a o)) as (_ & _ & A3).
    specialize (A3 i). lia.
  - intros ops this. apply run_disposed; reflexivity.
Qed.

Lemma C2_result_fires_once_per_start_witness :
  StandaloneColorPickerComputer.start
    (StandaloneColorPickerComputer.onResult 0
       (StandaloneColorPickerComputer.new (Some range_1_1_1_8)))
    editor_ABC participant_found
  = {| StandaloneColorPickerComputer.lookups :=
         [(colorInfo_of range_1_1_1_8, Some "C"%string)];
       StandaloneColorPickerComputer.fired := [result_1];
       StandaloneColorPickerComputer.delivered := [(0, result_1)] |}.
Proof.
  exact (proj1 (proj2 C2_result_fires_once_per_start)
           (StandaloneColorPickerComputer.onResult 0
              (StandaloneColorPickerComputer.new (Some range_1_1_1_8)))
           editor_ABC participant_found range_1_1_1_8 hover_1 true
           eq_refl eq_refl eq_refl).
Defined.

(** C2 does not hold of the class alone: [start] has no guard of its own,
    and a second call on the same computer looks up and fires again; the
    listener subscribed to [onResult] receives two results. *)
Lemma C2_second_start_fires_again :
  let this := StandaloneColorPickerComputer.onResult 0
                (StandaloneColorPickerComputer.new (Some range_1_1_1_8)) in
  let client := [StandaloneColorPickerComputer.op_start editor_ABC participant_found;
                 StandaloneColorPickerComputer.op_start editor_ABC participant_found] in
  StandaloneColorPickerComputer.run client this
  = ([result_1; result_1], [(0, result_1); (0, result_1)])
  ∧ ¬ length (StandaloneColorPickerComputer.run client this).1 ≤ 1.
Proof.
  split; [reflexivity|]. cbn. lia.
Qed.

(** ** Silent failure *)

(** The outcome of a [start] that sent nothing and fired nothing. *)
Lemma start_range_null this editor createColorHover :
  _range this = None →
  StandaloneColorPickerComputer.start this editor createColorHover
  = {| StandaloneColorPickerComputer.lookups := [];
       StandaloneColorPickerComputer.fired := [];
       StandaloneColorPickerComputer.delivered := [] |}.
Proof.
  intros Hr. unfold StandaloneColorPickerComputer.start,
    StandaloneColorPickerComputer.start_ask. rewrite Hr. reflexivity.
Qed.

Lemma start_no_model this editor createColorHover :
  hasModel editor = false →
  StandaloneColorPickerComputer.start this editor createColorHover
  = {| StandaloneColorPickerComputer.lookups := [];
       StandaloneColorPickerComputer.fired := [];
       StandaloneColorPickerComputer.delivered := [] |}.
Proof.
  intros Hm. unfold StandaloneColorPickerComputer.start,
    StandaloneColorPickerComputer.start_ask.
  destruct (_range this); [|reflexivity].
  rewrite computeAsync_ask_no_model by assumption. reflexivity.
Qed.

Lemma start_no_answer this editor createColorHover :
  (∀ colorInfo provider, createColorHover colorInfo provider = None) →
  StandaloneColorPickerComputer.fired
    (StandaloneColorPickerComputer.start this editor createColorHover) = []
  ∧ StandaloneColorPickerComputer.delivered
      (StandaloneColorPickerComputer.start this editor createColorHover) = [].
Proof.
  intros Hn. unfold StandaloneColorPickerComputer.start.
  destruct (StandaloneColorPickerComputer.start_ask this editor) as [[colorInfo provider]|];
    [|split; reflexivity].
  rewrite Hn. split; reflexivity.
Qed.

(** C3: every failure path returns silently.  [start] on a null range, or
    with no loaded document, sends no lookup, fires no result and delivers
    nothing; when the participant answers with no color hover, no result is
    fired or delivered, neither by [start] run to its end nor by the resumed
    [start] of a widget's computer, which leaves the world as it is; and
    [showOrFocus] with no loaded document leaves the world as it is: no
    state is changed, no widget constructed, no call made. *)
Theorem C3_failure_paths_are_silent :
  (∀ this editor createColorHover,
     _range this = None →
     StandaloneColorPickerComputer.start this editor createColorHover
     = {| StandaloneColorPickerComputer.lookups := [];
          StandaloneColorPickerComputer.fired := [];
          StandaloneColorPickerComputer.delivered := [] |})
  ∧ (∀ this editor createColorHover,
       hasModel editor = false →
       StandaloneColorPickerComputer.start this editor createColorHover
       = {| StandaloneColorPickerComputer.lookups := [];
            StandaloneColorPickerComputer.fired := [];
            StandaloneColorPickerComputer.delivered := [] |})
  ∧ (∀ this editor createColorHover,
       (∀ colorInfo provider, createColorHover colorInfo provider = None) →
       StandaloneColorPickerComputer.fired
         (StandaloneColorPickerComputer.start this editor createColorHover) = []
       ∧ StandaloneColorPickerComputer.delivered
           (StandaloneColorPickerComputer.start this editor createColorHover) = [])
  ∧ (∀ i picker cursorMoves w, computer_resume i None picker cursorMoves w = w)
  ∧ (∀ w, hasModel (editor w) = false →
          StandaloneColorPickerController.showOrFocus w = w).
Proof.
  split; [exact start_range_null|]. split; [exact start_no_model|].
  split; [exact start_no_answer|]. split.
  - intros i picker moves w. unfold computer_resume, with_widget.
    destruct (heap w !! i); reflexivity.
  - intros w Hm. unfold StandaloneColorPickerController.showOrFocus.
    rewrite Hm. reflexivity.
Qed.

Lemma C3_failure_paths_are_silent_witness :
  StandaloneColorPickerController.showOrFocus (init false None None false ["A"%string])
  = init false None None false ["A"%string]
  ∧ StandaloneColorPickerComputer.start
      (StandaloneColorPickerComputer.onResult 0 (StandaloneColorPickerComputer.new None))
      editor_ABC participant_found
    = {| StandaloneColorPickerComputer.lookups := [];
         StandaloneColorPickerComputer.fired := [];
         StandaloneColorPickerComputer.delivered := [] |}.
Proof.
  split.
  - exact (proj2 (proj2 (proj2 (proj2 C3_failure_paths_are_silent)))
             (init false None None false ["A"%string]) eq_refl).
  - exact (proj1 C3_failure_paths_are_silent
             (StandaloneColorPickerComputer.onResult 0 (StandaloneColorPickerComputer.new None))
             editor_ABC participant_found eq_refl).
Defined.

(** ** [showOrFocus] twice *)

Lemma showOrFocus_new_eq w :
  hasModel (editor w) = true →
  _standaloneColorPickerVisible w = false →
  StandaloneColorPickerController.showOrFocus w
  = editor_addContentWidget (length (heap w))
      (set_widget (Some (length (heap w))) (new (set_visible true w))).
Proof.
  intros Hm Hv. unfold StandaloneColorPickerController.showOrFocus.
  rewrite Hm, Hv. reflexivity.
Qed.

Lemma showOrFocus_focus_eq w i :
  hasModel (editor w) = true →
  _standaloneColorPickerVisible w = true →
  _standaloneColorPickerFocused w = false →
  _standaloneColorPickerWidget w = Some i →
  StandaloneColorPickerController.showOrFocus w = call (body_focus i) (set_focused true w).
Proof.
  intros Hm Hv Hf Hw. unfold StandaloneColorPickerController.showOrFocus.
  rewrite Hm, Hv, Hf, Hw. reflexivity.
Qed.

Lemma showOrFocus_visible_keeps w :
  _standaloneColorPickerVisible w = true →
  heap (StandaloneColorPickerController.showOrFocus w) = heap w
  ∧ _standaloneColorPickerWidget (StandaloneColorPickerController.showOrFocus w)
    = _standaloneColorPickerWidget w
  ∧ contentWidgets (editor (StandaloneColorPickerController.showOrFocus w))
    = contentWidgets (editor w)
  ∧ _standaloneColorPickerVisible (StandaloneColorPickerController.showOrFocus w) = true.
Proof.
  intros Hv. unfold StandaloneColorPickerController.showOrFocus. rewrite Hv.
  destruct (hasModel (editor w)); cbn; [|auto].
  destruct (_standaloneColorPickerFocused w); cbn; [auto|].
  unfold then_. destruct (_standaloneColorPickerWidget w) eqn:Hw; cbn; auto.
Qed.

(** C4: on an editor with a loaded document and neither key set, the first
    [showOrFocus] sets the visible key, constructs exactly one widget (the
    store grows by that one object), makes it the controller's widget and
    attaches it to the editor, leaving the focused key false; the second
    [showOrFocus] sets the focused key and calls [focus] on that same
    widget, constructs nothing and attaches nothing.  Whenever the visible
    key is set, [showOrFocus] leaves the store, the controller's widget and
    the attached widgets as they are. *)
Theorem C4_showOrFocus_twice (w : World) :
  hasModel (editor w) = true →
  _standaloneColorPickerVisible w = false →
  _standaloneColorPickerFocused w = false →
  let n := length (heap w) in
  let w1 := StandaloneColorPickerController.showOrFocus w in
  let w2 := StandaloneColorPickerController.showOrFocus w1 in
  (_standaloneColorPickerVisible w1 = true
   ∧ _standaloneColorPickerFocused w1 = false
   ∧ heap w1 = heap w ++ [constructed n (editor w)]
   ∧ _standaloneColorPickerWidget w1 = Some n
   ∧ contentWidgets (editor w1) = contentWidgets (editor w) ++ [n]
   ∧ last (calls w1) = Some (addContentWidget n))
  ∧ (_standaloneColorPickerVisible w2 = true
     ∧ _standaloneColorPickerFocused w2 = true
     ∧ heap w2 = heap w1
     ∧ _standaloneColorPickerWidget w2 = Some n
     ∧ contentWidgets (editor w2) = contentWidgets (editor w1)
     ∧ calls w2 = calls w1 ++ [body_focus n])
  ∧ (∀ w', _standaloneColorPickerVisible w' = true →
       heap (StandaloneColorPickerController.showOrFocus w') = heap w'
       ∧ _standaloneColorPickerWidget (StandaloneColorPickerController.showOrFocus w')
         = _standaloneColorPickerWidget w'
       ∧ contentWidgets (editor (StandaloneColorPickerController.showOrFocus w'))
         = contentWidgets (editor w')
       ∧ _standaloneColorPickerVisible (StandaloneColorPickerController.showOrFocus w') = true).
Proof.
  intros Hm Hv Hf n w1 w2.
  assert (w1 = editor_addContentWidget n (set_widget (Some n) (new (set_visible true w))))
    as E1 by (apply showOrFocus_new_eq; assumption).
  assert (_standaloneColorPickerVisible w1 = true
          ∧ _standaloneColorPickerFocused w1 = false
          ∧ heap w1 = heap w ++ [constructed n (editor w)]
          ∧ _standaloneColorPickerWidget w1 = Some n
          ∧ contentWidgets (editor w1) = contentWidgets (editor w) ++ [n]
          ∧ last (calls w1) = Some (addContentWidget n)
          ∧ hasModel (editor w1) = true) as H1.
  { rewrite E1, new_eq. cbn. rewrite last_snoc. repeat split; assumption. }
  destruct H1 as (V1 & F1 & Hh1 & W1 & C1 & L1 & M1).
  split; [repeat split; assumption|]. split; [|exact showOrFocus_visible_keeps].
  assert (w2 = call (body_focus n) (set_focused true w1)) as E2
    by (apply showOrFocus_focus_eq; assumption).
  rewrite E2. cbn. repeat split; assumption.
Qed.

Lemma C4_showOrFocus_twice_witness :
  let w := init true None None false [] in
  let w2 := StandaloneColorPickerController.showOrFocus
              (StandaloneColorPickerController.showOrFocus w) in
  length (heap w2) = 1
  ∧ _standaloneColorPickerWidget w2 = Some 0
  ∧ _standaloneColorPickerVisible w2 = true
  ∧ _standaloneColorPickerFocused w2 = true
  ∧ last (calls w2) = Some (body_focus 0).
Proof.
  destruct (C4_showOrFocus_twice (init true None None false []) eq_refl eq_refl eq_refl)
    as ((_ & _ & Hh1 & _) & (V2 & F2 & Hh2 & W2 & _ & Hc2) & _).
  cbv zeta. rewrite Hh2, Hh1, Hc2, last_snoc. repeat split; assumption.
Defined.

(** ** The controller's [hide] *)

Lemma controller_hide_eq w :
  StandaloneColorPickerController.hide w
  = call editor_focus
      (match _standaloneColorPickerWidget w with
       | Some i => hide i
       | None => skip
       end (set_visible false (set_focused false w))).
Proof. reflexivity. Qed.

Lemma is_live_hide i w : is_live (hide i w) i = false.
Proof.
  rewrite hide_eq. unfold is_live at 1. cbn.
  destruct (is_live w i) eqn:Hl.
  - rewrite list_lookup_alter_eq. destruct (heap w !! i); reflexivity.
  - exact Hl.
Qed.

Lemma not_elem_of_filter_ne (i : nat) (l : list nat) : i ∉ filter (λ x, x ≠ i) l.
Proof. intros H. apply list_elem_of_filter in H. destruct H as [H _]. apply H. reflexivity. Qed.

(** C8: in every state, the controller's [hide] leaves both context keys
    false and ends by returning focus to the editor.  If the controller has a
    widget, that widget is asked to hide: it is removed from the editor's
    content widgets, is no longer live, and the calls made are
    [removeContentWidget], the widget's own [editor.focus()] and the
    controller's.  If the controller has no widget, the keys are cleared and
    the editor focused, nothing else. *)
Theorem C8_controller_hide (w : World) :
  let w' := StandaloneColorPickerController.hide w in
  _standaloneColorPickerVisible w' = false
  ∧ _standaloneColorPickerFocused w' = false
  ∧ last (calls w') = Some editor_focus
  ∧ (∀ i, _standaloneColorPickerWidget w = Some i →
       w' = call editor_focus (hide i (set_visible false (set_focused false w)))
       ∧ is_live w' i = false
       ∧ (i ∉ contentWidgets (editor w'))
       ∧ calls w' = calls w ++ [removeContentWidget i; editor_focus; editor_focus])
  ∧ (_standaloneColorPickerWidget w = None →
       w' = call editor_focus (set_visible false (set_focused false w))
       ∧ heap w' = heap w
       ∧ calls w' = calls w ++ [editor_focus]).
Proof.
  intros w'. subst w'. rewrite controller_hide_eq.
  split; [|split; [|split; [|split]]].
  - destruct (_standaloneColorPickerWidget w); [rewrite hide_eq|]; reflexivity.
  - destruct (_standaloneColorPickerWidget w); [rewrite hide_eq|]; reflexivity.
  - cbn. apply last_snoc.
  - intros i ->. split; [reflexivity|]. split; [|split].
    + change (is_live (hide i (set_visible false (set_focused false w))) i = false).
      apply is_live_hide.
    + rewrite hide_eq. cbn. apply not_elem_of_filter_ne.
    + rewrite hide_eq. cbn. rewrite <- !app_assoc. reflexivity.
  - intros ->. repeat split.
Qed.

Lemma C8_controller_hide_witness :
  let w := StandaloneColorPickerController.showOrFocus (init true None None false []) in
  let w' := StandaloneColorPickerController.hide w in
  _standaloneColorPickerWidget w = Some 0
  ∧ is_live w 0 = true
  ∧ is_live w' 0 = false
  ∧ 0 ∉ contentWidgets (editor w').
Proof.
  split; [reflexivity|]. split; [reflexivity|].
  destruct (C8_controller_hide
              (StandaloneColorPickerController.showOrFocus (init true None None false [])))
    as (_ & _ & _ & H & _).
  destruct (H 0 eq_refl) as (_ & Hl & Hn & _). split; assumption.
Defined.

(** ** The position of the widget *)

(** C9: [getPosition] returns [null] exactly when the widget holds no
    position, and a widget holds the position the editor's view reported
    when the widget was constructed.  With a position [p] it returns [p] as
    position and as secondary position, the preference above then below
    if the editor's hover option says above and below then above otherwise,
    and the affinity [None]. *)
Theorem C9_getPosition (i : nat) (editor0 editor : Editor) (this : Widget) :
  (getPosition this editor = None ↔ _position this = None)
  ∧ (∀ p, _position this = Some p →
       getPosition this editor
       = Some {| position := p;
                 secondaryPosition := p;
                 preference := if hoverAbove editor then [ABOVE; BELOW] else [BELOW; ABOVE];
                 positionAffinity := None_ |})
  ∧ _position (constructed i editor0) = viewPosition editor0
  ∧ (getPosition (constructed i editor0) editor = None ↔ viewPosition editor0 = None).
Proof.
  unfold getPosition. split; [|split; [|split]].
  - destruct (_position this); split; intros H; (discriminate || reflexivity).
  - intros p ->. reflexivity.
  - reflexivity.
  - cbn. destruct (viewPosition editor0); split; intros H; (discriminate || reflexivity).
Qed.

Lemma C9_getPosition_witness :
  let p := {| lineNumber := 3; column := 5 |} in
  let editor0 :=
    {| hasModel := true; viewPosition := Some p; selection := None;
       hoverAbove := true; ordered := [];
       contentWidgets := []; cursorPositionListeners := [] |} in
  getPosition (constructed 0 editor0) editor0
  = Some {| position := p; secondaryPosition := p;
            preference := [ABOVE; BELOW]; positionAffinity := None_ |}.
Proof.
  cbv zeta.
  apply (proj1 (proj2 (C9_getPosition 0
           {| hasModel := true; viewPosition := Some {| lineNumber := 3; column := 5 |};
              selection := None; hoverAbove := true; ordered := [];
              contentWidgets := []; cursorPositionListeners := [] |}
           {| hasModel := true; viewPosition := Some {| lineNumber := 3; column := 5 |};
              selection := None; hoverAbove := true; ordered := [];
              contentWidgets := []; cursorPositionListeners := [] |}
           (constructed 0
              {| hasModel := true; viewPosition := Some {| lineNumber := 3; column := 5 |};
                 selection := None; hoverAbove := true; ordered := [];
                 contentWidgets := []; cursorPositionListeners := [] |})))).
  reflexivity.
Defined.

(** ** The range handed to the computer *)

Lemma Inv_good_widget w j this :
  Inv w → heap w !! j = Some this →
  _range (_standaloneColorPickerComputer this) = Some (selection_snapshot (_selection this)).
Proof.
  intros (L & (_ & _ & Hg & _) & _) Hj. destruct (Hg _ _ Hj) as (H & _). exact H.
Qed.

(** C10: the range the widget's constructor hands to its computer is never
    null: it is the record of the four coordinates of the selection, or the
    record of four zeros when there is no selection.  This holds of the
    computer of every widget in every run of the controller, so [start]
    passes its null guard there and goes on to [computeAsync] with that
    range. *)
Theorem C10_range_is_never_null :
  (∀ s, selection_snapshot (Some s)
        = {| startLineNumber := startLineNumber s; startColumn := startColumn s;
             endLineNumber := endLineNumber s; endColumn := endColumn s |})
  ∧ selection_snapshot None
    = {| startLineNumber := 0; startColumn := 0; endLineNumber := 0; endColumn := 0 |}
  ∧ (∀ i editor,
       _selection (constructed i editor) = selection editor
       ∧ _range (_standaloneColorPickerComputer (constructed i editor))
         = Some (selection_snapshot (selection editor)))
  ∧ (∀ hasModel0 viewPosition0 selection0 hoverAbove0 ordered0 evs j this,
       heap (run evs (init hasModel0 viewPosition0 selection0 hoverAbove0 ordered0)) !! j
       = Some this →
       _range (_standaloneColorPickerComputer this)
       = Some (selection_snapshot (_selection this))
       ∧ _range (_standaloneColorPickerComputer this) ≠ None
       ∧ ∀ editor,
           StandaloneColorPickerComputer.start_ask (_standaloneColorPickerComputer this) editor
           = StandaloneColorPickerComputer.computeAsync_ask editor
               (selection_snapshot (_selection this))).
Proof.
  split; [reflexivity|]. split; [reflexivity|]. split; [intros; split; reflexivity|].
  intros m p s a o evs j this Hj.
  pose proof (Inv_good_widget _ j this (Inv_run evs _ (Inv_init m p s a o)) Hj) as Hr.
  split; [exact Hr|]. split; [rewrite Hr; discriminate|].
  intros editor. unfold StandaloneColorPickerComputer.start_ask. rewrite Hr. reflexivity.
Qed.

Lemma C10_range_is_never_null_witness :
  let w := run [ev_showOrFocus] (init true None None false []) in
  ∃ this, heap w !! 0 = Some this
          ∧ _range (_standaloneColorPickerComputer this)
            = Some {| startLineNumber := 0; startColumn := 0;
                      endLineNumber := 0; endColumn := 0 |}.
Proof.
  eexists. split; [reflexivity|].
  exact (proj1 (proj2 (proj2 (proj2 C10_range_is_never_null))
                  true None None false [] [ev_showOrFocus] 0 _ eq_refl)).
Defined.

(** ** Rendering a color found in the editor *)

(** C5: in any run of the controller, when the participant answers the
    suspended computer of the live widget [i] with a color hover found in the
    editor, and hands over a picker with an insert button, handling the answer
    fires the result and renders it: the insert button reads "Replace", the
    editor's selection is the range of the color hover, and the widget is not
    hidden; it stays live and attached and the visible key stays set, the
    calls made are those of [_render] and contain no [removeContentWidget].
    If the editor reports a cursor change for that selection, the cursor
    listener finds the flag set and clears it; otherwise the flag stays
    set. *)
Theorem C5_render_found_in_editor
    (hasModel0 : bool) (viewPosition0 : option Position) (selection0 : option Selection)
    (hoverAbove0 : bool) (ordered0 : list DocumentColorProvider) (evs : list Event)
    (i : nat) (d : ColorHover) (cp : ColorPickerWidget) (label : string)
    (cursorMoves : bool) :
  let w := run evs (init hasModel0 viewPosition0 selection0 hoverAbove0 ordered0) in
  i ∈ suspended w →
  is_live w i = true →
  enterButton cp = Some label →
  let w' := step (ev_createColorHover_resolved i (Some (d, true)) (Some cp) cursorMoves) w in
  ∃ this',
    heap w' !! i = Some this'
    ∧ colorPickerWidget this'
      = Some {| enterButton := Some "Replace"%string; closeButton := closeButton cp |}
    ∧ selection (editor w') = Some (range d)
    ∧ _selectionSetInEditor this' = negb cursorMoves
    ∧ _colorHoverData this' = Some d
    ∧ _disposables this' = false
    ∧ contentWidgets (editor w') = [i]
    ∧ cursorPositionListeners (editor w') = [i]
    ∧ _standaloneColorPickerVisible w' = true
    ∧ _standaloneColorPickerFocused w' = _standaloneColorPickerFocused w
    ∧ calls w' = calls w ++ [onResult_fire i {| value := d; foundInMap := true |};
                             renderHoverParts i [d];
                             body_appendChild i;
                             colorPickerWidget_layout i;
                             setSelection (range d);
                             layoutContentWidget i].
Proof.
  intros w Hsusp Hlive He w'.
  pose proof (Inv_run evs _ (Inv_init hasModel0 viewPosition0 selection0 hoverAbove0 ordered0))
    as HI.
  fold w in HI. destruct HI as (L & HS & HF).
  pose proof (Struct_live_inv L i w HS Hlive) as ->.
  pose proof HS as (Hc & Hp & Hg & Hl). destruct (Hl i eq_refl) as [_ [this Hi]].
  destruct (Hg _ _ Hi) as (_ & _ & _ & Hd). pose proof (proj2 Hd eq_refl) as Hdis.
  assert (i < length (heap w)) as Hlt by (eapply lookup_lt_Some; eassumption).
  subst w'. cbn [step]. rewrite bool_decide_eq_true_2 by assumption. unfold then_.
  rewrite (resume_eq i _ _ _ _ this)
    by (first [ apply Inv_set_suspended; exists (Some i); auto | exact Hi ]).
  cbn zeta. change (is_live (set_suspended (remove_first i (suspended w)) w) i)
    with (is_live w i). rewrite Hlive.
  rewrite (render_eq i d true (Some cp) cursorMoves _ this) by (first [exact Hp | exact Hi]).
  exists (rendered d true (Some cp) cursorMoves this).
  split; [cbn; apply list_lookup_insert_eq; assumption|].
  unfold rendered. rewrite He. cbn.
  repeat split; try assumption; try reflexivity; try exact HF.
  rewrite <- app_assoc. reflexivity.
Qed.

Lemma C5_render_found_in_editor_witness :
  let w := run [ev_showOrFocus] (init true None None false ["A"%string]) in
  let w' := step (ev_createColorHover_resolved 0 (Some (hover_1, true))
                    (Some {| enterButton := Some "Insert"%string; closeButton := true |})
                    true) w in
  ∃ this',
    heap w' !! 0 = Some this'
    ∧ colorPickerWidget this'
      = Some {| enterButton := Some "Replace"%string; closeButton := true |}
    ∧ selection (editor w') = Some range_1_1_1_8
    ∧ _selectionSetInEditor this' = false
    ∧ _disposables this' = false
    ∧ contentWidgets (editor w') = [0].
Proof.
  destruct (C5_render_found_in_editor true None None false ["A"%string] [ev_showOrFocus]
              0 hover_1 {| enterButton := Some "Insert"%string; closeButton := true |}
              "Insert"%string true)
    as (this' & H1 & H2 & H3 & H4 & _ & H6 & H7 & _).
  - cbn. apply list_elem_of_singleton. reflexivity.
  - reflexivity.
  - reflexivity.
  - exists this'. repeat split; assumption.
Defined.

(** ** Writing the color back *)

Lemma keeps_data_at a w i : keeps_data a → data_at (a w) i = data_at w i.
Proof.
  intros Hk. specialize (Hk w i). unfold data_at.
  destruct (heap (a w) !! i), (heap w !! i); cbn in Hk; congruence.
Qed.

Lemma keeps_controller_hide : keeps_data StandaloneColorPickerController.hide.
Proof.
  unfold StandaloneColorPickerController.hide.
  apply (keeps_fun (λ w0, _ >> _ >> _ >> _)). intros w0. keeps_tac.
Qed.

#[local] Hint Resolve keeps_controller_hide : keeps.

Lemma keeps_controller_insertColor : keeps_data StandaloneColorPickerController.insertColor.
Proof.
  unfold StandaloneColorPickerController.insertColor.
  apply (keeps_fun (λ w0, _ >> _)). intros w0. keeps_tac.
Qed.

Lemma data_at_showOrFocus w i :
  data_at (StandaloneColorPickerController.showOrFocus w) i = data_at w i.
Proof.
  destruct (_standaloneColorPickerVisible w) eqn:Hv.
  - unfold data_at. destruct (showOrFocus_visible_keeps w Hv) as (-> & _). reflexivity.
  - destruct (hasModel (editor w)) eqn:Hm.
    + rewrite showOrFocus_new_eq by assumption. unfold data_at. rewrite new_eq. cbn.
      destruct (decide (i < length (heap w))) as [Hlt|Hge].
      * rewrite lookup_app_l by assumption. reflexivity.
      * rewrite (lookup_ge_None_2 (heap w) i) by lia.
        destruct (decide (i = length (heap w))) as [->|Hne].
        -- rewrite list_lookup_middle by reflexivity. reflexivity.
        -- rewrite lookup_ge_None_2; [reflexivity|]. rewrite length_app. cbn. lia.
    + unfold StandaloneColorPickerController.showOrFocus. rewrite Hm. reflexivity.
Qed.

Lemma data_at_render i d found picker moves w j :
  data_at (_render i d found picker moves w) j
  = if decide (j = i)
    then match heap w !! i with Some _ => Some d | None => None end
    else data_at w j.
Proof.
  pose proof (render_data i d found picker moves w j) as H. unfold data_at.
  destruct (decide (j = i)) as [->|Hne].
  - destruct (heap (_render i d found picker moves w) !! i), (heap w !! i);
      cbn in H; congruence.
  - destruct (heap (_render i d found picker moves w) !! j), (heap w !! j);
      cbn in H; congruence.
Qed.

(** One event changes the stored result of a widget exactly when it
    delivers a result to it. *)
Lemma step_data ev w i :
  Inv w →
  data_at (step ev w) i
  = match delivers ev w i with
    | Some d => Some d
    | None => data_at w i
    end.
Proof.
  intros HI. destruct ev as [ | | |j answer picker moves| |j|j|j|j|j|m p s a o];
    cbn [step delivers].
  - apply data_at_showOrFocus.
  - apply keeps_data_at, keeps_controller_hide.
  - apply keeps_data_at, keeps_controller_insertColor.
  - destruct (bool_decide (j ∈ suspended w)) eqn:Hin.
    + unfold then_.
      assert (Inv (set_suspended (remove_first j (suspended w)) w)) as HI1
        by (apply Inv_set_suspended; assumption).
      destruct (heap w !! j) as [this|] eqn:Hj.
      * rewrite (resume_eq j answer picker moves _ this HI1 Hj).
        destruct answer as [[d found]|]; [|reflexivity]. cbn zeta.
        change (is_live (set_suspended (remove_first j (suspended w)) w) j)
          with (is_live w j).
        destruct (is_live w j) eqn:Hl.
        -- rewrite data_at_render. cbn [heap call set_suspended]. rewrite Hj.
           destruct (decide (i = j)) as [->|Hne].
           ++ rewrite bool_decide_eq_true_2 by reflexivity. rewrite Hin, Hl. reflexivity.
           ++ rewrite bool_decide_eq_false_2 by congruence. reflexivity.
        -- destruct (decide (j = i)) as [->|Hne].
           ++ rewrite Hl, andb_false_r. reflexivity.
           ++ rewrite bool_decide_eq_false_2 by assumption. reflexivity.
      * unfold computer_resume, with_widget. cbn [heap set_suspended]. rewrite Hj.
        destruct answer as [[d found]|]; [|reflexivity].
        destruct (decide (j = i)) as [->|Hne].
        -- unfold is_live. rewrite Hj, andb_false_r. reflexivity.
        -- rewrite bool_decide_eq_false_2 by assumption. reflexivity.
    + destruct answer as [[d found]|]; [|reflexivity].
      destruct (decide (j = i)) as [->|Hne].
      * rewrite Hin, andb_false_r. reflexivity.
      * rewrite bool_decide_eq_false_2 by assumption. reflexivity.
  - apply keeps_data_at, keeps_cursorPositionChanged.
  - apply keeps_data_at. keeps_tac.
  - apply keeps_data_at. keeps_tac.
  - apply (keeps_data_at (with_widget j _)). apply keeps_with_widget. intros this w0 k.
    destruct (colorPickerWidget this) as [q|]; [|reflexivity].
    destruct (_ && _); [|reflexivity].
    apply (keeps_then (updateEditor j) (hide j)); auto with keeps.
  - apply (keeps_data_at (with_widget j _)). apply keeps_with_widget. intros this w0 k.
    destruct (colorPickerWidget this) as [q|]; [|reflexivity].
    destruct (_ && _); [|reflexivity].
    apply keeps_hide.
  - apply keeps_data_at. keeps_tac.
  - reflexivity.
Qed.

(** The stored result of a widget is the result it has received. *)
Lemma run_data evs w i :
  Inv w →
  data_at (run evs w) i
  = match received i evs w with
    | Some d => Some d
    | None => data_at w i
    end.
Proof.
  revert w. induction evs as [|ev evs IH]; intros w HI; [reflexivity|].
  rewrite run_cons, (IH (step ev w)) by (apply Inv_step; assumption).
  cbn [received]. destruct (received i evs (step ev w)); [reflexivity|].
  apply step_data. assumption.
Qed.

Lemma updateEditor_eq i w this :
  heap w !! i = Some this →
  updateEditor i w
  = match _colorHoverData this with
    | Some d => call (updateEditorModel i [d]) w
    | None => w
    end.
Proof.
  intros Hi. unfold updateEditor, with_widget. rewrite Hi.
  destruct (_colorHoverData this); reflexivity.
Qed.

(** C7: in any run of the controller, the result a widget stores is the
    result it has received, none if none was delivered to it, and
    [updateEditor] calls the participant's [updateEditorModel] exactly then:
    with no result received it leaves the world as it is, with a result [d]
    received its one effect is the call [updateEditorModel([d])]. *)
Theorem C7_updateEditor_iff_result_received
    (hasModel0 : bool) (viewPosition0 : option Position) (selection0 : option Selection)
    (hoverAbove0 : bool) (ordered0 : list DocumentColorProvider) (evs : list Event)
    (i : nat) (this : Widget) :
  let w0 := init hasModel0 viewPosition0 selection0 hoverAbove0 ordered0 in
  let w := run evs w0 in
  heap w !! i = Some this →
  _colorHoverData this = received i evs w0
  ∧ updateEditor i w
    = match received i evs w0 with
      | Some d => call (updateEditorModel i [d]) w
      | None => w
      end
  ∧ (received i evs w0 = None → calls (updateEditor i w) = calls w)
  ∧ (∀ d, received i evs w0 = Some d →
       calls (updateEditor i w) = calls w ++ [updateEditorModel i [d]]).
Proof.
  intros w0 w Hi.
  assert (_colorHoverData this = received i evs w0) as Hd.
  { pose proof (run_data evs w0 i
                  (Inv_init hasModel0 viewPosition0 selection0 hoverAbove0 ordered0)) as H.
    fold w in H. unfold data_at in H. rewrite Hi in H. rewrite H.
    destruct (received i evs w0); reflexivity. }
  split; [exact Hd|].
  rewrite (updateEditor_eq i w this Hi), Hd.
  split; [reflexivity|]. split.
  - intros ->. reflexivity.
  - intros d ->. reflexivity.
Qed.

Lemma C7_updateEditor_iff_result_received_witness :
  let w0 := init true None None false ["A"%string] in
  let before := run [ev_showOrFocus] w0 in
  let after := run [ev_showOrFocus;
                    ev_createColorHover_resolved 0 (Some (hover_1, false)) None false] w0 in
  calls (updateEditor 0 before) = calls before
  ∧ calls (updateEditor 0 after) = calls after ++ [updateEditorModel 0 [hover_1]].
Proof.
  split.
  - destruct (C7_updateEditor_iff_result_received true None None false ["A"%string]
                [ev_showOrFocus] 0 _ eq_refl) as (_ & _ & H & _).
    apply H. reflexivity.
  - destruct (C7_updateEditor_iff_result_received true None None false ["A"%string]
                [ev_showOrFocus;
                 ev_createColorHover_resolved 0 (Some (hover_1, false)) None false]
                0 _ eq_refl) as (_ & _ & _ & H).
    apply H. reflexivity.
Defined.

(** * Further properties of the three classes *)

(** ** Relations kept by the methods *)

Section Respects.

Context (R : World → World → Prop) `{!PreOrder R}.

Lemma respects_skip : respects R skip.
Proof. intros w. reflexivity. Qed.

Lemma respects_then a b : respects R a → respects R b → respects R (a >> b).
Proof. intros Ha Hb w. unfold then_. etransitivity; [apply Ha | apply Hb]. Qed.

Lemma respects_with_widget i k :
  (∀ this, respects R (k this)) → respects R (with_widget i k).
Proof.
  intros Hk w. unfold with_widget. destruct (heap w !! i); [apply Hk | reflexivity].
Qed.

Lemma respects_for_each {A : Type} (f : A → Action) (l : list A) :
  (∀ x, respects R (f x)) → respects R (for_each f l).
Proof.
  intros Hf. unfold for_each. induction l as [|x l IH] using rev_ind; intros w.
  - reflexivity.
  - rewrite foldl_snoc. etransitivity; [apply IH | apply Hf].
Qed.

Lemma respects_fun (a : World → Action) :
  (∀ w0, respects R (a w0)) → respects R (λ w, a w w).
Proof. intros H w. apply H. Qed.

Lemma respects_run_of (f : Event → Action) evs :
  (∀ ev, ev ∈ evs → respects R (f ev)) → respects R (for_each f evs).
Proof.
  unfold for_each. induction evs as [|ev evs IH] using rev_ind; intros Hf w.
  - reflexivity.
  - rewrite foldl_snoc. etransitivity.
    + apply IH. intros e He. apply Hf. apply elem_of_app. left. assumption.
    + apply Hf. apply elem_of_app. right. left.
Qed.

Context `{!Primitives R}.

(** Split [respects] along the structure of an action. *)
Ltac respects_tac :=
  repeat lazymatch goal with
    | |- respects _ (_ >> _) => simple apply respects_then
    | |- respects _ (with_widget _ _) => simple apply respects_with_widget; intros ?
    | |- respects _ (match ?x with _ => _ end) => destruct x
    | |- respects _ skip => simple apply respects_skip
    | |- respects _ (call _) => simple apply prim_call; reflexivity
    | |- respects _ (set_visible _) => simple apply prim_set_visible
    | |- respects _ (set_focused _) => simple apply prim_set_focused
    | |- respects _ (set_editor _) => simple apply prim_set_editor
    | |- respects _ (set_suspended _) => simple apply prim_set_suspended
    | |- respects _ (update_widget _ (set_selectionSetInEditor _)) => simple apply prim_flag
    | |- respects _ _ => solve [eauto]
    end.

Lemma respects_editor_removeContentWidget i : respects R (editor_removeContentWidget i).
Proof. apply (respects_fun (λ w0, _ >> _)). intros w0. respects_tac. Qed.

Lemma respects_editor_addContentWidget i : respects R (editor_addContentWidget i).
Proof. apply (respects_fun (λ w0, _ >> _)). intros w0. respects_tac. Qed.

Lemma respects_editor_subscribe i : respects R (editor_onDidChangeCursorPosition i).
Proof. intros w. apply prim_set_editor. Qed.

Lemma respects_editor_release i : respects R (editor_onDidChangeCursorPosition_release i).
Proof. intros w. apply prim_set_editor. Qed.

Lemma respects_editor_select r : respects R (editor_select r).
Proof. apply (respects_fun (λ w0, _ >> _)). intros w0. respects_tac. Qed.

Lemma respects_hide i : respects R (hide i).
Proof.
  unfold hide, disposables_dispose.
  pose proof respects_editor_removeContentWidget. pose proof respects_editor_release.
  pose proof prim_dispose.
  respects_tac.
Qed.

Lemma respects_focus i : respects R (focus i).
Proof. unfold focus. respects_tac. Qed.

Lemma respects_updateEditor i : respects R (updateEditor i).
Proof. unfold updateEditor. respects_tac. Qed.

Lemma respects_cursorPositionChanged : respects R cursorPositionChanged.
Proof.
  apply (respects_fun (λ w0, for_each _ _)). intros w0.
  apply respects_for_each. intros i. unfold onDidChangeCursorPosition_listener.
  pose proof respects_hide. respects_tac.
Qed.

Lemma respects_controller_hide : respects R StandaloneColorPickerController.hide.
Proof.
  unfold StandaloneColorPickerController.hide.
  apply (respects_fun (λ w0, _ >> _ >> _ >> _)). intros w0.
  pose proof respects_hide. respects_tac.
Qed.

Lemma respects_controller_insertColor : respects R StandaloneColorPickerController.insertColor.
Proof.
  unfold StandaloneColorPickerController.insertColor.
  apply (respects_fun (λ w0, _ >> _)). intros w0.
  pose proof respects_updateEditor. pose proof respects_controller_hide. respects_tac.
Qed.

(** Every event but the two that construct a widget or resume a computer. *)
Lemma respects_step_other ev :
  constructs_or_resumes ev = false → respects R (step ev).
Proof.
  pose proof respects_hide. pose proof respects_focus.
  destruct ev as [ | | |i answer picker moves| |i|i|i|i|i|m p s a o]; cbn; intros Hev;
    try discriminate.
  - apply respects_controller_hide.
  - apply respects_controller_insertColor.
  - apply respects_cursorPositionChanged.
  - respects_tac.
  - respects_tac.
  - apply respects_with_widget. intros this w.
    destruct (colorPickerWidget this) as [q|]; [|reflexivity].
    destruct (_ && _); [|reflexivity].
    apply (respects_then (updateEditor i) (hide i)); auto using respects_updateEditor.
  - apply respects_with_widget. intros this w.
    destruct (colorPickerWidget this) as [q|]; [|reflexivity].
    destruct (_ && _); [|reflexivity]. apply respects_hide.
  - respects_tac.
  - intros w. apply prim_set_editor.
Qed.

Context `{!RenderPrimitives R}.

Lemma respects_render i d found picker moves : respects R (_render i d found picker moves).
Proof.
  unfold _render, editor_setSelection.
  pose proof respects_editor_select. pose proof respects_cursorPositionChanged.
  pose proof prim_data. pose proof prim_picker.
  respects_tac.
Qed.

Lemma respects_computer_resume i answer picker moves :
  respects R (computer_resume i answer picker moves).
Proof.
  unfold computer_resume. apply respects_with_widget. intros this.
  destruct (StandaloneColorPickerComputer.start_answer answer) as [r|];
    [|apply respects_skip].
  apply respects_then; [apply prim_call; reflexivity|].
  apply respects_for_each. intros x. apply respects_render.
Qed.

Lemma respects_resolved i answer picker moves :
  respects R (step (ev_createColorHover_resolved i answer picker moves)).
Proof.
  intros w. cbn. destruct (bool_decide (i ∈ suspended w)); [|reflexivity].
  apply (respects_then (set_suspended _) (computer_resume i answer picker moves)).
  - apply prim_set_suspended.
  - apply respects_computer_resume.
Qed.

End Respects.

(** ** What a widget can become *)

Lemma evolves_refl t : evolves t t.
Proof. repeat split; auto. Qed.

Lemma evolves_trans t1 t2 t3 : evolves t1 t2 → evolves t2 t3 → evolves t1 t3.
Proof.
  intros (A1 & A2 & A3 & A4 & A5) (B1 & B2 & B3 & B4 & B5).
  repeat split; try congruence; auto.
Qed.

#[local] Instance evolution_preorder : PreOrder evolution.
Proof.
  split.
  - intros w i t Hi. exists t. split; [assumption | apply evolves_refl].
  - intros w1 w2 w3 H12 H23 i t Hi.
    destruct (H12 i t Hi) as (t2 & H2 & E2). destruct (H23 i t2 H2) as (t3 & H3 & E3).
    exists t3. split; [assumption | eapply evolves_trans; eassumption].
Qed.

Lemma evolution_same_heap w w' : heap w' = heap w → evolution w w'.
Proof.
  intros Hh i t Hi. exists t. rewrite Hh. split; [assumption | apply evolves_refl].
Qed.

Lemma evolution_update_widget i f :
  (∀ t, evolves t (f t)) → respects evolution (update_widget i f).
Proof.
  intros Hf w j t Hj. unfold update_widget. cbn.
  destruct (decide (i = j)) as [->|Hne].
  - exists (f t). rewrite list_lookup_alter_eq, Hj. split; [reflexivity | apply Hf].
  - exists t. rewrite list_lookup_alter_ne by assumption.
    split; [assumption | apply evolves_refl].
Qed.

#[local] Instance evolution_primitives : Primitives evolution.
Proof.
  split; try (intros; intros w; apply evolution_same_heap; reflexivity).
  - intros i b. apply evolution_update_widget. intros t. repeat split; auto.
  - intros i. apply evolution_update_widget. intros t. repeat split; auto.
Qed.

#[local] Instance evolution_render_primitives : RenderPrimitives evolution.
Proof.
  split.
  - intros i d. apply evolution_update_widget. intros t. repeat split; cbn; eauto.
  - intros i p. apply evolution_update_widget. intros t. repeat split; auto.
Qed.

Lemma evolution_new : respects evolution new.
Proof.
  intros w i t Hi. rewrite new_eq. cbn. exists t.
  split; [|apply evolves_refl].
  rewrite lookup_app_l by (eapply lookup_lt_Some; eassumption). assumption.
Qed.

Lemma evolution_showOrFocus : respects evolution StandaloneColorPickerController.showOrFocus.
Proof.
  intros w. unfold StandaloneColorPickerController.showOrFocus.
  destruct (hasModel (editor w)); cbn; [|reflexivity].
  destruct (_standaloneColorPickerVisible w); cbn.
  - destruct (_standaloneColorPickerFocused w); cbn; [reflexivity|].
    apply evolution_same_heap. unfold then_.
    destruct (_standaloneColorPickerWidget w); reflexivity.
  - unfold then_. etransitivity; [|etransitivity; [apply evolution_new|]].
    + apply (prim_set_visible true w).
    + apply evolution_same_heap. reflexivity.
Qed.

Lemma evolution_step ev : respects evolution (step ev).
Proof.
  destruct (constructs_or_resumes ev) eqn:Hev.
  - destruct ev; try discriminate.
    + apply evolution_showOrFocus.
    + apply respects_resolved; typeclasses eauto.
  - apply respects_step_other; [typeclasses eauto.. | assumption].
Qed.

Lemma evolution_run evs : respects evolution (run evs).
Proof.
  unfold run. apply (respects_run_of evolution). intros ev _. apply evolution_step.
Qed.

(** X1: a widget is never removed from the store, a widget once hidden is
    never live again, and a stored result is never cleared, whatever happens
    afterwards and from whatever world. *)
Theorem X1_hidden_is_terminal (w : World) (evs : list Event) (i : nat) (t : Widget) :
  heap w !! i = Some t →
  ∃ t', heap (run evs w) !! i = Some t'
        ∧ (_disposables t = true → _disposables t' = true ∧ is_live (run evs w) i = false)
        ∧ (is_Some (_colorHoverData t) → is_Some (_colorHoverData t')).
Proof.
  intros Hi. destruct (evolution_run evs w i t Hi) as (t' & Ht' & _ & _ & _ & Hd & Hc).
  exists t'. split; [assumption|]. split; [|assumption].
  intros Hdis. split; [auto|]. unfold is_live. rewrite Ht', (Hd Hdis). reflexivity.
Qed.

Lemma X1_hidden_is_terminal_witness :
  let w := run [ev_showOrFocus; ev_hide] (init true None None false []) in
  is_live (run [ev_showOrFocus; ev_focus 0; ev_createColorHover_resolved 0 None None true] w) 0
  = false.
Proof.
  destruct (X1_hidden_is_terminal
              (run [ev_showOrFocus; ev_hide] (init true None None false []))
              [ev_showOrFocus; ev_focus 0; ev_createColorHover_resolved 0 None None true]
              0 _ eq_refl) as (t' & _ & H & _).
  exact (proj2 (H eq_refl)).
Defined.

(** X2: the position and the selection a widget read in its constructor,
    and the range of its computer, never change; so [getPosition] of a widget
    answers the same in every later state, for the same editor option. *)
Theorem X2_snapshots_are_immutable (w : World) (evs : list Event) (i : nat) (t : Widget) :
  heap w !! i = Some t →
  ∃ t', heap (run evs w) !! i = Some t'
        ∧ _position t' = _position t
        ∧ _selection t' = _selection t
        ∧ _range (_standaloneColorPickerComputer t')
          = _range (_standaloneColorPickerComputer t)
        ∧ ∀ editor, getPosition t' editor = getPosition t editor.
Proof.
  intros Hi. destruct (evolution_run evs w i t Hi) as (t' & Ht' & Hp & Hs & Hr & _).
  exists t'. repeat split; try assumption.
  intros editor. unfold getPosition. rewrite Hp. reflexivity.
Qed.

Lemma X2_snapshots_are_immutable_witness :
  let p := {| lineNumber := 4; column := 2 |} in
  let w := run [ev_showOrFocus] (init true (Some p) None false []) in
  ∃ t', heap (run [ev_editor_changed true None None true []; ev_showOrFocus] w) !! 0 = Some t'
        ∧ _position t' = Some p.
Proof.
  destruct (X2_snapshots_are_immutable
              (run [ev_showOrFocus]
                 (init true (Some {| lineNumber := 4; column := 2 |}) None false []))
              [ev_editor_changed true None None true []; ev_showOrFocus] 0 _ eq_refl)
    as (t' & Ht' & Hp & _).
  exists t'. split; assumption.
Defined.

(** ** The controller's reference and the lookups *)

#[local] Instance same_reference_preorder : PreOrder same_reference.
Proof.
  split.
  - intros w. repeat split.
  - intros w1 w2 w3 (A1 & A2 & A3) (B1 & B2 & B3). repeat split; congruence.
Qed.

Lemma lookups_of_call c w :
  lookups_of (call c w)
  = lookups_of w ++ match c with createColorHover i _ _ => [i] | _ => [] end.
Proof.
  unfold lookups_of. cbn. rewrite omap_app. f_equal. destruct c; reflexivity.
Qed.

#[local] Instance same_reference_primitives : Primitives same_reference.
Proof.
  split; try (intros; intros w; repeat split; fail).
  - intros c Hc w. repeat split. rewrite lookups_of_call.
    destruct c; try discriminate; apply app_nil_r.
  - intros i b w. repeat split. unfold update_widget. cbn. apply length_alter.
  - intros i w. repeat split. unfold update_widget. cbn. apply length_alter.
Qed.

#[local] Instance same_reference_render_primitives : RenderPrimitives same_reference.
Proof.
  split; intros; intros w; repeat split; unfold update_widget; cbn; apply length_alter.
Qed.

Lemma showOrFocus_reference w :
  let w' := StandaloneColorPickerController.showOrFocus w in
  same_reference w w'
  ∨ (hasModel (editor w) = true
     ∧ _standaloneColorPickerVisible w = false
     ∧ _standaloneColorPickerWidget w' = Some (length (heap w))
     ∧ length (heap w') = S (length (heap w))
     ∧ lookups_of w' = lookups_of w ++ [length (heap w)]).
Proof.
  cbv zeta. destruct (hasModel (editor w)) eqn:Hm.
  - destruct (_standaloneColorPickerVisible w) eqn:Hv.
    + left. unfold StandaloneColorPickerController.showOrFocus. rewrite Hm, Hv. cbn.
      destruct (_standaloneColorPickerFocused w); [reflexivity|].
      unfold then_. destruct (_standaloneColorPickerWidget w) eqn:Hw.
      * split; [cbn; congruence|]. split; [reflexivity|].
        unfold lookups_of. cbn. rewrite omap_app. apply app_nil_r.
      * split; [cbn; congruence|]. split; reflexivity.
    + right. rewrite showOrFocus_new_eq by assumption. rewrite new_eq. cbn. rewrite Hm.
      repeat split.
      * rewrite length_app. cbn. lia.
      * unfold lookups_of. cbn. rewrite !omap_app. cbn. rewrite app_nil_r. reflexivity.
  - left. unfold StandaloneColorPickerController.showOrFocus. rewrite Hm. reflexivity.
Qed.

Lemma step_reference ev w :
  same_reference w (step ev w)
  ∨ (ev = ev_showOrFocus
     ∧ hasModel (editor w) = true
     ∧ _standaloneColorPickerVisible w = false
     ∧ _standaloneColorPickerWidget (step ev w) = Some (length (heap w))
     ∧ length (heap (step ev w)) = S (length (heap w))
     ∧ lookups_of (step ev w) = lookups_of w ++ [length (heap w)]).
Proof.
  destruct (constructs_or_resumes ev) eqn:Hev.
  - destruct ev; try discriminate.
    + destruct (showOrFocus_reference w) as [H|H]; [left; exact H|right].
      split; [reflexivity | exact H].
    + left. apply respects_resolved; typeclasses eauto.
  - left. apply respects_step_other; [typeclasses eauto.. | assumption].
Qed.

(** X3: in every run, the controller's field is [null] exactly as long as
    no widget has been constructed, and from then on it refers to the widget
    constructed last; hiding never resets it. *)
Theorem X3_controller_refers_to_last_widget
    (hasModel0 : bool) (viewPosition0 : option Position) (selection0 : option Selection)
    (hoverAbove0 : bool) (ordered0 : list DocumentColorProvider) (evs : list Event) :
  let w := run evs (init hasModel0 viewPosition0 selection0 hoverAbove0 ordered0) in
  _standaloneColorPickerWidget w
  = match length (heap w) with
    | 0 => None
    | S n => Some n
    end.
Proof.
  cbv zeta. induction evs as [|ev evs IH] using rev_ind; [reflexivity|].
  rewrite run_snoc.
  destruct (step_reference ev
              (run evs (init hasModel0 viewPosition0 selection0 hoverAbove0 ordered0)))
    as [(H1 & H2 & _)|(_ & _ & _ & H1 & H2 & _)].
  - rewrite H1, H2. exact IH.
  - rewrite H1, H2. reflexivity.
Qed.

(** X4: in every run, the participant has been asked for a color hover
    exactly once per constructed widget, in the order of construction:
    [showOrFocus] constructs a widget only with a document loaded, so the
    computer's own check for the document never fails there, and nothing else
    sends a lookup. *)
Theorem X4_one_lookup_per_widget
    (hasModel0 : bool) (viewPosition0 : option Position) (selection0 : option Selection)
    (hoverAbove0 : bool) (ordered0 : list DocumentColorProvider) (evs : list Event) :
  let w := run evs (init hasModel0 viewPosition0 selection0 hoverAbove0 ordered0) in
  lookups_of w = seq 0 (length (heap w)).
Proof.
  cbv zeta. induction evs as [|ev evs IH] using rev_ind; [reflexivity|].
  rewrite run_snoc.
  destruct (step_reference ev
              (run evs (init hasModel0 viewPosition0 selection0 hoverAbove0 ordered0)))
    as [(_ & H2 & H3)|(_ & _ & _ & _ & H2 & H3)].
  - rewrite H2, H3. exact IH.
  - rewrite H2, H3, IH, seq_S. reflexivity.
Qed.

(** ** [insertColor], and hiding twice *)

Lemma calls_updateEditor i w :
  calls (updateEditor i w)
  = calls w ++ match data_at w i with
               | Some d => [updateEditorModel i [d]]
               | None => []
               end.
Proof.
  unfold updateEditor, with_widget, data_at.
  destruct (heap w !! i) as [t|]; [|symmetry; apply app_nil_r].
  destruct (_colorHoverData t); [reflexivity | symmetry; apply app_nil_r].
Qed.

Lemma filter_idem {A : Type} (P : A → Prop) `{∀ x, Decision (P x)} (l : list A) :
  filter P (filter P l) = filter P l.
Proof.
  induction l as [|x l IH]; [reflexivity|].
  destruct (decide (P x)) as [Hx|Hx].
  - rewrite (filter_cons_True P x l Hx), (filter_cons_True P x _ Hx), IH. reflexivity.
  - rewrite (filter_cons_False P x l Hx). exact IH.
Qed.

(** X5: from any state, [insertColor] first has the controller's widget
    write its stored result, if it has one, and then hides: the log gains the
    call of [updateEditorModel] (only with a stored result), then
    [removeContentWidget] and the two [editor.focus()]; both context keys end
    false and the widget is neither live nor attached.  With no widget it
    only clears the keys and focuses the editor. *)
Theorem X5_insertColor_writes_then_hides (w : World) :
  let w' := StandaloneColorPickerController.insertColor w in
  _standaloneColorPickerVisible w' = false
  ∧ _standaloneColorPickerFocused w' = false
  ∧ calls w'
    = calls w
      ++ match _standaloneColorPickerWidget w with
         | Some i =>
             match data_at w i with
             | Some d => [updateEditorModel i [d]]
             | None => []
             end ++ [removeContentWidget i; editor_focus]
         | None => []
         end
      ++ [editor_focus]
  ∧ (∀ i, _standaloneColorPickerWidget w = Some i →
       is_live w' i = false ∧ i ∉ contentWidgets (editor w')).
Proof.
  cbv zeta. unfold StandaloneColorPickerController.insertColor, then_.
  destruct (_standaloneColorPickerWidget w) as [i|] eqn:Hw.
  - destruct (updateEditor_calls_only i w) as (E1 & E2 & E3 & E4 & E5 & E6).
    rewrite controller_hide_eq, E5, Hw.
    split; [rewrite hide_eq; reflexivity|]. split; [rewrite hide_eq; reflexivity|]. split.
    + rewrite hide_eq. cbn. rewrite calls_updateEditor, <- !app_assoc. reflexivity.
    + intros k [= <-]. split.
      * change (is_live (hide i (set_visible false (set_focused false (updateEditor i w)))) i
                = false).
        apply is_live_hide.
      * rewrite hide_eq. cbn. apply not_elem_of_filter_ne.
  - rewrite controller_hide_eq. unfold skip. rewrite Hw. cbn.
    split; [reflexivity|]. split; [reflexivity|]. split; [reflexivity|]. intros k [=].
Qed.

(** X11: hiding a widget a second time changes nothing but the log, which
    gains one more [removeContentWidget] and one more [editor.focus()]. *)
Theorem X11_hide_twice (i : nat) (w : World) :
  hide i (hide i w) = call editor_focus (call (removeContentWidget i) (hide i w)).
Proof.
  rewrite (hide_eq i (hide i w)), is_live_hide. rewrite (hide_eq i w). cbn.
  rewrite filter_idem. reflexivity.
Qed.

(** ** When [start] asks the participant *)

(** X10: one call of [start] sends a lookup exactly when the range is not
    null and a document is loaded; the providers play no part in that.  The
    lookup then carries the range with the placeholder color and the last
    provider of the ordered list, and with no provider registered it carries
    no provider ([providers[0]] is [undefined]). *)
Theorem X10_start_lookup_iff (this : Computer) (editor : Editor)
    (createColorHover : IColorInformation → option DocumentColorProvider → CreateColorHoverResult) :
  let o := StandaloneColorPickerComputer.start this editor createColorHover in
  (StandaloneColorPickerComputer.lookups o ≠ []
   ↔ is_Some (_range this) ∧ hasModel editor = true)
  ∧ (∀ r, _range this = Some r → hasModel editor = true →
       StandaloneColorPickerComputer.lookups o = [(colorInfo_of r, last (ordered editor))])
  ∧ (ordered editor = [] →
       ∀ q, q ∈ StandaloneColorPickerComputer.lookups o → q.2 = None).
Proof.
  cbv zeta.
  assert (StandaloneColorPickerComputer.lookups
            (StandaloneColorPickerComputer.start this editor createColorHover)
          = match _range this with
            | Some r => if hasModel editor
                        then [(colorInfo_of r, last (ordered editor))] else []
            | None => []
            end) as E.
  { unfold StandaloneColorPickerComputer.start, StandaloneColorPickerComputer.start_ask.
    destruct (_range this) as [r|]; [|reflexivity].
    destruct (hasModel editor) eqn:Hm.
    - rewrite computeAsync_ask_model by assumption.
      destruct (StandaloneColorPickerComputer.start_answer _); reflexivity.
    - rewrite computeAsync_ask_no_model by assumption. reflexivity. }
  rewrite E. split; [|split].
  - destruct (_range this) as [r|]; [destruct (hasModel editor)|].
    + split; [intros _; split; eauto | intros _; discriminate].
    + split; [intros H; destruct H; reflexivity | intros [_ [=]]].
    + split; [intros H; destruct H; reflexivity | intros [[x [=]] _]].
  - intros r -> ->. reflexivity.
  - intros Ho q Hq. destruct (_range this) as [r|]; [|inversion Hq].
    destruct (hasModel editor); [|inversion Hq].
    apply list_elem_of_singleton in Hq. subst q. cbn. rewrite Ho. reflexivity.
Qed.

Lemma X10_start_lookup_iff_witness :
  StandaloneColorPickerComputer.lookups
    (StandaloneColorPickerComputer.start
       (StandaloneColorPickerComputer.new (Some range_1_1_1_8))
       {| hasModel := true; viewPosition := None; selection := None;
          hoverAbove := false; ordered := [];
          contentWidgets := []; cursorPositionListeners := [] |}
       participant_found)
  = [(colorInfo_of range_1_1_1_8, None)].
Proof.
  exact (proj1 (proj2 (X10_start_lookup_iff
           (StandaloneColorPickerComputer.new (Some range_1_1_1_8))
           {| hasModel := true; viewPosition := None; selection := None;
              hoverAbove := false; ordered := [];
              contentWidgets := []; cursorPositionListeners := [] |}
           participant_found)) range_1_1_1_8 eq_refl eq_refl).
Defined.

(** ** What the visible key says about the store *)

Lemma Inv_hidden w :
  Inv w → _standaloneColorPickerVisible w = false →
  _standaloneColorPickerFocused w = false
  ∧ contentWidgets (editor w) = []
  ∧ cursorPositionListeners (editor w) = []
  ∧ live_widgets w = []
  ∧ ∀ i t, heap w !! i = Some t →
      _disposables t = true
      ∧ listeners (_onResult (_standaloneColorPickerComputer t)) = [].
Proof.
  intros (L & HS & HF) Hv. pose proof (Flags_None_visible L w HF Hv) as ->.
  pose proof (Struct_live_widgets None w HS) as Hlw.
  destruct HS as (Hc & Hp & Hg & _). destruct HF as [_ Hf].
  repeat split; try assumption.
  - destruct (Hg _ _ H) as (_ & _ & _ & Hd). destruct (_disposables t); [reflexivity|].
    specialize (proj1 Hd eq_refl). discriminate.
  - destruct (Hg _ _ H) as (_ & _ & Hli & Hd). rewrite Hli.
    destruct (_disposables t); [reflexivity|]. specialize (proj1 Hd eq_refl). discriminate.
Qed.

Lemma Inv_visible w :
  Inv w → _standaloneColorPickerVisible w = true →
  ∃ i t, _standaloneColorPickerWidget w = Some i
         ∧ heap w !! i = Some t
         ∧ _disposables t = false
         ∧ is_live w i = true
         ∧ contentWidgets (editor w) = [i]
         ∧ cursorPositionListeners (editor w) = [i]
         ∧ live_widgets w = [i].
Proof.
  intros (L & HS & HF) Hv. destruct (Flags_Some_visible L w HF Hv) as [i ->].
  pose proof (Struct_live_widgets _ w HS) as Hlw. pose proof (Struct_live i w HS) as Hl.
  destruct HS as (Hc & Hp & Hg & Hr). destruct (Hr i eq_refl) as [Hw [t Ht]].
  exists i, t. repeat split; try assumption.
  destruct (Hg _ _ Ht) as (_ & _ & _ & Hd). apply Hd. reflexivity.
Qed.

Lemma Inv_live_visible w i :
  Inv w → is_live w i = true → _standaloneColorPickerVisible w = true.
Proof.
  intros (L & HS & HF) Hl. rewrite (Struct_live_inv L i w HS Hl) in HF. exact HF.
Qed.

Lemma Inv_reachable m p s a o evs : Inv (run evs (init m p s a o)).
Proof. apply Inv_run, Inv_init. Qed.

(** X13: in every run, whenever the visible key is false (after the
    controller's [hide], [insertColor], a blur, a cursor change, a button or
    [context.hide]), nothing is left subscribed: no widget is attached to the
    editor, nobody listens to the cursor position, every widget's disposal
    store is disposed and no computer has a listener; the focused key is
    false as well. *)
Theorem X13_hidden_releases_everything
    (hasModel0 : bool) (viewPosition0 : option Position) (selection0 : option Selection)
    (hoverAbove0 : bool) (ordered0 : list DocumentColorProvider) (evs : list Event) :
  let w := run evs (init hasModel0 viewPosition0 selection0 hoverAbove0 ordered0) in
  _standaloneColorPickerVisible w = false →
  _standaloneColorPickerFocused w = false
  ∧ contentWidgets (editor w) = []
  ∧ cursorPositionListeners (editor w) = []
  ∧ live_widgets w = []
  ∧ ∀ i t, heap w !! i = Some t →
      _disposables t = true
      ∧ listeners (_onResult (_standaloneColorPickerComputer t)) = [].
Proof. intros w. apply Inv_hidden, Inv_reachable. Qed.

Lemma X13_hidden_releases_everything_witness :
  let w := run [ev_showOrFocus; ev_showOrFocus; ev_blur 0] (init true None None false []) in
  cursorPositionListeners (editor w) = []
  ∧ ∀ i t, heap w !! i = Some t →
      _disposables t = true
      ∧ listeners (_onResult (_standaloneColorPickerComputer t)) = [].
Proof.
  destruct (X13_hidden_releases_everything true None None false []
              [ev_showOrFocus; ev_showOrFocus; ev_blur 0] eq_refl)
    as (_ & _ & H1 & _ & H2).
  split; assumption.
Defined.

(** ** [showOrFocus] in a run *)

Lemma showOrFocus_editor_view w :
  hasModel (editor (StandaloneColorPickerController.showOrFocus w)) = hasModel (editor w).
Proof.
  unfold StandaloneColorPickerController.showOrFocus.
  destruct (hasModel (editor w)) eqn:Hm; cbn; [|assumption].
  destruct (_standaloneColorPickerVisible w); cbn.
  - destruct (_standaloneColorPickerFocused w); cbn; [assumption|].
    unfold then_. destruct (_standaloneColorPickerWidget w); cbn; assumption.
  - unfold then_. rewrite new_eq. cbn. assumption.
Qed.

Lemma showOrFocus_sets_visible w :
  hasModel (editor w) = true →
  _standaloneColorPickerVisible (StandaloneColorPickerController.showOrFocus w) = true.
Proof.
  intros Hm. destruct (_standaloneColorPickerVisible w) eqn:Hv.
  - apply (showOrFocus_visible_keeps w Hv).
  - rewrite showOrFocus_new_eq by assumption. rewrite new_eq. reflexivity.
Qed.

Lemma showOrFocus_visible_sets_focused w :
  hasModel (editor w) = true →
  _standaloneColorPickerVisible w = true →
  _standaloneColorPickerFocused (StandaloneColorPickerController.showOrFocus w) = true.
Proof.
  intros Hm Hv. unfold StandaloneColorPickerController.showOrFocus. rewrite Hm, Hv. cbn.
  destruct (_standaloneColorPickerFocused w) eqn:Hf; cbn; [assumption|].
  unfold then_. destruct (_standaloneColorPickerWidget w); reflexivity.
Qed.

Lemma live_widgets_same_heap w w' : heap w' = heap w → live_widgets w' = live_widgets w.
Proof. intros Hh. unfold live_widgets, is_live. rewrite Hh. reflexivity. Qed.

(** X12: in every run, with a document loaded, [showOrFocus] ends with the
    visible key set and exactly one live widget, the one the controller refers
    to; a second [showOrFocus] right after it ends with the focused key set as
    well, and with the same store and the same live widget. *)
Theorem X12_showOrFocus_in_a_run
    (hasModel0 : bool) (viewPosition0 : option Position) (selection0 : option Selection)
    (hoverAbove0 : bool) (ordered0 : list DocumentColorProvider) (evs : list Event) :
  let w := run evs (init hasModel0 viewPosition0 selection0 hoverAbove0 ordered0) in
  hasModel (editor w) = true →
  let w1 := StandaloneColorPickerController.showOrFocus w in
  let w2 := StandaloneColorPickerController.showOrFocus w1 in
  _standaloneColorPickerVisible w1 = true
  ∧ (∃ i, live_widgets w1 = [i] ∧ _standaloneColorPickerWidget w1 = Some i
          ∧ contentWidgets (editor w1) = [i])
  ∧ _standaloneColorPickerVisible w2 = true
  ∧ _standaloneColorPickerFocused w2 = true
  ∧ heap w2 = heap w1
  ∧ live_widgets w2 = live_widgets w1.
Proof.
  intros w Hm w1 w2.
  assert (Inv w1) as HI1 by (apply Inv_showOrFocus, Inv_reachable).
  assert (_standaloneColorPickerVisible w1 = true) as Hv1
    by (apply showOrFocus_sets_visible; assumption).
  assert (hasModel (editor w1) = true) as Hm1
    by (unfold w1; rewrite showOrFocus_editor_view; assumption).
  destruct (Inv_visible w1 HI1 Hv1) as (i & t & Hw & _ & _ & _ & Hc & _ & Hlw).
  destruct (showOrFocus_visible_keeps w1 Hv1) as (Hh & _ & _ & Hv2).
  split; [assumption|]. split; [exists i; auto|]. split; [assumption|].
  split; [apply showOrFocus_visible_sets_focused; assumption|].
  split; [assumption|]. apply live_widgets_same_heap. assumption.
Qed.

Lemma X12_showOrFocus_in_a_run_witness :
  let w := run [ev_showOrFocus; ev_cursorPositionChanged] (init true None None false []) in
  let w2 := StandaloneColorPickerController.showOrFocus
              (StandaloneColorPickerController.showOrFocus w) in
  _standaloneColorPickerVisible w2 = true ∧ _standaloneColorPickerFocused w2 = true.
Proof.
  destruct (X12_showOrFocus_in_a_run true None None false []
              [ev_showOrFocus; ev_cursorPositionChanged] eq_refl)
    as (_ & _ & H1 & H2 & _).
  split; assumption.
Defined.

(** ** A change of the cursor position *)

Lemma cursorPositionChanged_live w i t :
  Inv w → is_live w i = true → heap w !! i = Some t →
  cursorPositionChanged w
  = if _selectionSetInEditor t
    then update_widget i (set_selectionSetInEditor false) w
    else hide i w.
Proof.
  intros HI Hl Hi.
  destruct (Inv_visible w HI (Inv_live_visible w i HI Hl)) as (k & _ & _ & _ & _ & _ & _ & Hp & Hlw).
  assert (k = i) as ->.
  { destruct HI as (L & HS & _). pose proof (Struct_live_inv L i w HS Hl) as ->.
    rewrite (Struct_live_widgets _ w HS) in Hlw. injection Hlw. auto. }
  unfold cursorPositionChanged, for_each. rewrite Hp. cbn [foldl].
  unfold onDidChangeCursorPosition_listener, with_widget. rewrite Hi.
  destruct (_selectionSetInEditor t); reflexivity.
Qed.

(** X6: in every run, a change of the cursor position does nothing when no
    widget is shown.  With a live widget whose self-selection flag is not set,
    it hides the widget: both keys become false, no widget stays live, and the
    log gains [removeContentWidget] and [editor.focus()].  With the flag set,
    it only clears the flag: the widget stays live, the keys and the log stay
    as they are. *)
Theorem X6_cursor_change
    (hasModel0 : bool) (viewPosition0 : option Position) (selection0 : option Selection)
    (hoverAbove0 : bool) (ordered0 : list DocumentColorProvider) (evs : list Event) :
  let w := run evs (init hasModel0 viewPosition0 selection0 hoverAbove0 ordered0) in
  let w' := step ev_cursorPositionChanged w in
  (_standaloneColorPickerVisible w = false → w' = w)
  ∧ (∀ i t, is_live w i = true → heap w !! i = Some t →
       _selectionSetInEditor t = false →
       _standaloneColorPickerVisible w' = false
       ∧ _standaloneColorPickerFocused w' = false
       ∧ live_widgets w' = []
       ∧ calls w' = calls w ++ [removeContentWidget i; editor_focus])
  ∧ (∀ i t, is_live w i = true → heap w !! i = Some t →
       _selectionSetInEditor t = true →
       w' = update_widget i (set_selectionSetInEditor false) w
       ∧ is_live w' i = true
       ∧ heap w' !! i = Some (set_selectionSetInEditor false t)
       ∧ _standaloneColorPickerVisible w' = _standaloneColorPickerVisible w
       ∧ _standaloneColorPickerFocused w' = _standaloneColorPickerFocused w
       ∧ calls w' = calls w).
Proof.
  intros w w'. pose proof (Inv_reachable hasModel0 viewPosition0 selection0 hoverAbove0
                             ordered0 evs) as HI. fold w in HI.
  subst w'. cbn [step]. split; [|split].
  - intros Hv. destruct (Inv_hidden w HI Hv) as (_ & _ & Hp & _).
    unfold cursorPositionChanged. rewrite Hp. reflexivity.
  - intros i t Hl Hi Hf. rewrite (cursorPositionChanged_live w i t HI Hl Hi), Hf.
    assert (Inv (hide i w)) as HI' by (apply Inv_hide_live; assumption).
    assert (_standaloneColorPickerVisible (hide i w) = false) as Hv'
      by (rewrite hide_eq; reflexivity).
    destruct (Inv_hidden _ HI' Hv') as (Hf' & _ & _ & Hlw & _).
    repeat split; try assumption.
    rewrite hide_eq. cbn. rewrite <- app_assoc. reflexivity.
  - intros i t Hl Hi Hf. rewrite (cursorPositionChanged_live w i t HI Hl Hi), Hf.
    assert (heap (update_widget i (set_selectionSetInEditor false) w) !! i
            = Some (set_selectionSetInEditor false t)) as Hi'.
    { unfold update_widget. cbn. rewrite list_lookup_alter_eq, Hi. reflexivity. }
    repeat split; try assumption.
    unfold is_live. rewrite Hi'. cbn. unfold is_live in Hl. rewrite Hi in Hl. exact Hl.
Qed.

Lemma X6_cursor_change_witness :
  let w := run [ev_showOrFocus; ev_showOrFocus] (init true None None false []) in
  let w' := step ev_cursorPositionChanged w in
  _standaloneColorPickerVisible w' = false
  ∧ _standaloneColorPickerFocused w' = false
  ∧ live_widgets w' = [].
Proof.
  destruct (X6_cursor_change true None None false [] [ev_showOrFocus; ev_showOrFocus])
    as (_ & H & _).
  destruct (H 0 _ eq_refl eq_refl eq_refl) as (H1 & H2 & H3 & _).
  repeat split; assumption.
Defined.

(** ** Every branch of [_render] *)

(** Handling the participant's answer for the live widget, as one
    equation. *)
Lemma step_resolved_live i d found picker moves w this :
  Inv w → i ∈ suspended w → is_live w i = true → heap w !! i = Some this →
  step (ev_createColorHover_resolved i (Some (d, found)) picker moves) w
  = with_state (set_suspended (remove_first i (suspended w)) w) i
      (rendered d found picker moves this)
      match picker with
      | Some _ => if found then selected (range d) (editor w) else editor w
      | None => editor w
      end
      ((calls w ++ [onResult_fire i {| value := d; foundInMap := found |}])
       ++ render_calls i d found picker).
Proof.
  intros HI Hs Hl Hi.
  destruct (Inv_visible w HI (Inv_live_visible w i HI Hl)) as (k & _ & _ & _ & _ & _ & _ & Hp & Hlw).
  assert (k = i) as ->.
  { destruct HI as (L & HS & _). pose proof (Struct_live_inv L i w HS Hl) as ->.
    rewrite (Struct_live_widgets _ w HS) in Hlw. injection Hlw. auto. }
  cbn [step]. rewrite bool_decide_eq_true_2 by assumption. unfold then_.
  rewrite (resume_eq i _ _ _ _ this) by (first [apply Inv_set_suspended; exact HI | exact Hi]).
  cbn zeta. change (is_live (set_suspended (remove_first i (suspended w)) w) i)
    with (is_live w i). rewrite Hl.
  rewrite (render_eq i d found picker moves _ this) by (first [exact Hp | exact Hi]).
  reflexivity.
Qed.

(** X8: in every run, when the participant answers the suspended computer
    of the live widget with a color hover, the result is fired once and
    rendered, the widget stays live and the keys stay as they are, and in
    every branch the result is stored.  The editor's selection is set, to the
    range of the hover, only if the color was found in the editor and the
    participant handed over a picker; only then the self-selection flag is
    touched.  Without a picker nothing but [renderHoverParts] is called (no
    layout of the content widget); a picker is stored as handed over, its
    insert button relabelled only if the color was found in the editor. *)
Theorem X8_render_branches
    (hasModel0 : bool) (viewPosition0 : option Position) (selection0 : option Selection)
    (hoverAbove0 : bool) (ordered0 : list DocumentColorProvider) (evs : list Event)
    (i : nat) (this : Widget) (d : ColorHover) (found : bool)
    (picker : option ColorPickerWidget) (cursorMoves : bool) :
  let w := run evs (init hasModel0 viewPosition0 selection0 hoverAbove0 ordered0) in
  i ∈ suspended w →
  is_live w i = true →
  heap w !! i = Some this →
  let w' := step (ev_createColorHover_resolved i (Some (d, found)) picker cursorMoves) w in
  ∃ this',
    heap w' !! i = Some this'
    ∧ _colorHoverData this' = Some d
    ∧ _disposables this' = false
    ∧ selection (editor w')
      = (if found && bool_decide (is_Some picker) then Some (range d)
         else selection (editor w))
    ∧ _selectionSetInEditor this'
      = (if found && bool_decide (is_Some picker) then negb cursorMoves
         else _selectionSetInEditor this)
    ∧ colorPickerWidget this'
      = match picker with
        | None => colorPickerWidget this
        | Some cp =>
            Some (if found && bool_decide (is_Some (enterButton cp))
                  then {| enterButton := Some "Replace"%string;
                          closeButton := closeButton cp |}
                  else cp)
        end
    ∧ calls w'
      = calls w
        ++ [onResult_fire i {| value := d; foundInMap := found |}; renderHoverParts i [d]]
        ++ match picker with
           | None => []
           | Some _ =>
               [body_appendChild i; colorPickerWidget_layout i]
               ++ (if found then [setSelection (range d)] else [])
               ++ [layoutContentWidget i]
           end
    ∧ _standaloneColorPickerVisible w' = _standaloneColorPickerVisible w
    ∧ _standaloneColorPickerFocused w' = _standaloneColorPickerFocused w
    ∧ contentWidgets (editor w') = contentWidgets (editor w).
Proof.
  intros w Hs Hl Hi w'.
  pose proof (Inv_reachable hasModel0 viewPosition0 selection0 hoverAbove0 ordered0 evs) as HI.
  fold w in HI. subst w'.
  rewrite (step_resolved_live i d found picker cursorMoves w this HI Hs Hl Hi).
  assert (i < length (heap w)) as Hlt by (eapply lookup_lt_Some; eassumption).
  assert (_disposables this = false) as Hd.
  { unfold is_live in Hl. rewrite Hi in Hl. destruct (_disposables this); [discriminate|].
    reflexivity. }
  exists (rendered d found picker cursorMoves this).
  split; [cbn; apply list_lookup_insert_eq; assumption|].
  unfold rendered, render_calls.
  destruct picker as [cp|]; [destruct found; [destruct (enterButton cp) eqn:He|]|]; cbn;
    rewrite ?He; cbn;
    repeat split; try assumption; try reflexivity;
    rewrite <- ?app_assoc; try reflexivity.
  all: destruct found; cbn; try reflexivity.
  all: destruct cp as [[l|] c]; cbn in *; try discriminate; reflexivity.
Qed.

Lemma X8_render_branches_witness :
  let w := run [ev_showOrFocus] (init true None None false ["A"%string]) in
  let w' := step (ev_createColorHover_resolved 0 (Some (hover_1, true)) None true) w in
  selection (editor w') = None
  ∧ calls w' = calls w ++ [onResult_fire 0 result_1; renderHoverParts 0 [hover_1]].
Proof.
  destruct (X8_render_branches true None None false ["A"%string] [ev_showOrFocus]
              0 (constructed 0 (editor (init true None None false ["A"%string])))
              hover_1 true None true)
    as (this' & _ & _ & _ & H1 & _ & _ & H2 & _).
  - cbn. apply list_elem_of_singleton. reflexivity.
  - reflexivity.
  - reflexivity.
  - split; [exact H1 | exact H2].
Defined.

Lemma heap_update_widget i f w : heap (update_widget i f w) = alter f i (heap w).
Proof. reflexivity. Qed.

(** X7: in every run, if a color found in the editor is rendered with a
    picker and the editor reports no cursor change for the selection it is
    given (the cursor is where it was), the self-selection flag stays set:
    the next change of the cursor position does not hide the widget, it
    clears the flag and leaves keys and log as they are; the one after it
    hides the widget. *)
Theorem X7_first_cursor_change_is_absorbed
    (hasModel0 : bool) (viewPosition0 : option Position) (selection0 : option Selection)
    (hoverAbove0 : bool) (ordered0 : list DocumentColorProvider) (evs : list Event)
    (i : nat) (d : ColorHover) (cp : ColorPickerWidget) :
  let w := run evs (init hasModel0 viewPosition0 selection0 hoverAbove0 ordered0) in
  i ∈ suspended w →
  is_live w i = true →
  let w1 := step (ev_createColorHover_resolved i (Some (d, true)) (Some cp) false) w in
  let w2 := step ev_cursorPositionChanged w1 in
  let w3 := step ev_cursorPositionChanged w2 in
  (is_live w2 i = true
   ∧ _standaloneColorPickerVisible w2 = true
   ∧ calls w2 = calls w1)
  ∧ (is_live w3 i = false
     ∧ _standaloneColorPickerVisible w3 = false
     ∧ live_widgets w3 = []
     ∧ calls w3 = calls w2 ++ [removeContentWidget i; editor_focus]).
Proof.
  intros w Hs Hl w1 w2 w3.
  pose proof (Inv_reachable hasModel0 viewPosition0 selection0 hoverAbove0 ordered0 evs) as HI.
  fold w in HI.
  assert (∃ this, heap w !! i = Some this ∧ _disposables this = false) as (this & Hi & Hd).
  { unfold is_live in Hl. destruct (heap w !! i) as [t|]; [|discriminate].
    exists t. split; [reflexivity|]. destruct (_disposables t); [discriminate | reflexivity]. }
  assert (i < length (heap w)) as Hlt by (eapply lookup_lt_Some; eassumption).
  pose proof (Inv_live_visible w i HI Hl) as Hv.
  set (t1 := rendered d true (Some cp) false this).
  assert (_selectionSetInEditor t1 = true ∧ _disposables t1 = false) as [Hf1 Hd1].
  { unfold t1, rendered. destruct (enterButton cp); cbn; auto. }
  assert (heap w1 !! i = Some t1 ∧ _standaloneColorPickerVisible w1 = true) as [Hi1 Hv1].
  { unfold w1. rewrite (step_resolved_live i d true (Some cp) false w this HI Hs Hl Hi).
    split; [cbn; apply list_lookup_insert_eq; assumption | exact Hv]. }
  assert (Inv w1) as HI1 by (apply Inv_step; assumption).
  assert (is_live w1 i = true) as Hl1 by exact (is_live_not_disposed w1 i t1 Hi1 Hd1).
  assert (w2 = update_widget i (set_selectionSetInEditor false) w1) as E2.
  { unfold w2. cbn [step]. rewrite (cursorPositionChanged_live w1 i t1 HI1 Hl1 Hi1), Hf1.
    reflexivity. }
  assert (heap w2 !! i = Some (set_selectionSetInEditor false t1)) as Hi2.
  { rewrite E2. rewrite heap_update_widget, list_lookup_alter_eq, Hi1. reflexivity. }
  assert (is_live w2 i = true) as Hl2
    by exact (is_live_not_disposed w2 i (set_selectionSetInEditor false t1) Hi2 Hd1).
  assert (Inv w2) as HI2 by (apply Inv_step; assumption).
  split.
  - split; [assumption|]. rewrite E2. split; [exact Hv1 | reflexivity].
  - assert (w3 = hide i w2) as E3.
    { unfold w3. cbn [step].
      rewrite (cursorPositionChanged_live w2 i _ HI2 Hl2 Hi2). reflexivity. }
    assert (Inv w3) as HI3 by (apply Inv_step; assumption).
    assert (_standaloneColorPickerVisible w3 = false) as Hv3
      by (rewrite E3, hide_eq; reflexivity).
    destruct (Inv_hidden w3 HI3 Hv3) as (_ & _ & _ & Hlw & _).
    split; [rewrite E3; apply is_live_hide|]. split; [assumption|]. split; [assumption|].
    rewrite E3, hide_eq. cbn. rewrite <- app_assoc. reflexivity.
Qed.

Lemma X7_first_cursor_change_is_absorbed_witness :
  let w := run [ev_showOrFocus] (init true None None false ["A"%string]) in
  let w1 := step (ev_createColorHover_resolved 0 (Some (hover_1, true))
                    (Some {| enterButton := None; closeButton := true |}) false) w in
  is_live (step ev_cursorPositionChanged w1) 0 = true
  ∧ is_live (step ev_cursorPositionChanged (step ev_cursorPositionChanged w1)) 0 = false.
Proof.
  destruct (X7_first_cursor_change_is_absorbed true None None false ["A"%string]
              [ev_showOrFocus] 0 hover_1 {| enterButton := None; closeButton := true |})
    as ((H1 & _) & (H2 & _)).
  - cbn. apply list_elem_of_singleton. reflexivity.
  - reflexivity.
  - split; assumption.
Defined.

(** ** The two buttons *)

#[local] Instance same_rendering_preorder : PreOrder same_rendering.
Proof.
  split.
  - intros w j. reflexivity.
  - intros w1 w2 w3 H12 H23 j. rewrite H23. apply H12.
Qed.

Lemma same_rendering_update_widget i f :
  (∀ t, _colorHoverData (f t) = _colorHoverData t
        ∧ colorPickerWidget (f t) = colorPickerWidget t) →
  respects same_rendering (update_widget i f).
Proof.
  intros Hf w j. rewrite heap_update_widget. destruct (decide (i = j)) as [->|Hne].
  - rewrite list_lookup_alter_eq. destruct (heap w !! j) as [t|]; [|reflexivity].
    cbn. destruct (Hf t) as [-> ->]. reflexivity.
  - rewrite list_lookup_alter_ne by assumption. reflexivity.
Qed.

#[local] Instance same_rendering_primitives : Primitives same_rendering.
Proof.
  split; try (intros; intros w j; reflexivity).
  - intros i b. apply same_rendering_update_widget. intros t. split; reflexivity.
  - intros i. apply same_rendering_update_widget. intros t. split; reflexivity.
Qed.

Lemma RenderInv_same_rendering w w' : same_rendering w w' → RenderInv w → RenderInv w'.
Proof.
  intros Hs HR i t' Hi Hp. specialize (Hs i). rewrite Hi in Hs.
  destruct (heap w !! i) as [t|] eqn:Ht; [|discriminate].
  cbn in Hs. injection Hs as Hd Hpk. rewrite Hd. apply (HR i t Ht). rewrite <- Hpk. exact Hp.
Qed.

Lemma RenderInv_same_heap w w' : heap w' = heap w → RenderInv w → RenderInv w'.
Proof. intros Hh HR i t. rewrite Hh. apply HR. Qed.

Lemma RenderInv_showOrFocus w :
  RenderInv w → RenderInv (StandaloneColorPickerController.showOrFocus w).
Proof.
  intros HR. destruct (_standaloneColorPickerVisible w) eqn:Hv.
  - apply (RenderInv_same_heap w); [|assumption]. apply (showOrFocus_visible_keeps w Hv).
  - destruct (hasModel (editor w)) eqn:Hm.
    + rewrite showOrFocus_new_eq by assumption. rewrite new_eq. intros i t Hi Hp.
      cbn in Hi. apply lookup_app_Some in Hi. destruct Hi as [Hi|[_ Hi]].
      * apply (HR i t Hi Hp).
      * destruct (i - length (heap w)) as [|k]; [|cbn in Hi; discriminate].
        injection Hi as <-. cbn in Hp. destruct Hp as [x [=]].
    + unfold StandaloneColorPickerController.showOrFocus. rewrite Hm. assumption.
Qed.

Lemma RenderInv_step ev w : Inv w → RenderInv w → RenderInv (step ev w).
Proof.
  intros HI HR. destruct (constructs_or_resumes ev) eqn:Hev.
  - destruct ev as [ | | |i answer picker moves| | | | | | | ]; try discriminate.
    + apply RenderInv_showOrFocus. assumption.
    + cbn [step]. destruct (bool_decide (i ∈ suspended w)); [|assumption]. unfold then_.
      assert (Inv (set_suspended (remove_first i (suspended w)) w)) as HI1
        by (apply Inv_set_suspended; assumption).
      destruct (heap w !! i) as [this|] eqn:Hi.
      * rewrite (resume_eq i answer picker moves _ this HI1 Hi).
        destruct answer as [[d found]|]; [|exact HR]. cbn zeta.
        change (is_live (set_suspended (remove_first i (suspended w)) w) i)
          with (is_live w i).
        destruct (is_live w i) eqn:Hl; [|exact HR].
        destruct (Inv_visible w HI (Inv_live_visible w i HI Hl))
          as (k & _ & _ & _ & _ & _ & _ & Hp & Hlw).
        assert (k = i) as ->.
        { destruct HI as (L & HS & _). pose proof (Struct_live_inv L i w HS Hl) as ->.
          rewrite (Struct_live_widgets _ w HS) in Hlw. injection Hlw. auto. }
        rewrite (render_eq i d found picker moves _ this) by (first [exact Hp | exact Hi]).
        intros j t Hj Hpk. cbn in Hj. destruct (decide (i = j)) as [<-|Hne].
        -- rewrite list_lookup_insert_eq in Hj by (eapply lookup_lt_Some; eassumption).
           injection Hj as <-. unfold rendered.
           destruct picker as [cp|]; [destruct found; [destruct (enterButton cp)|]|];
             cbn; eauto.
        -- rewrite list_lookup_insert_ne in Hj by assumption. apply (HR j t Hj Hpk).
      * unfold computer_resume, with_widget. cbn [heap set_suspended]. rewrite Hi.
        exact HR.
  - apply (RenderInv_same_rendering w); [|assumption].
    apply respects_step_other; [typeclasses eauto.. | assumption].
Qed.

Lemma RenderInv_reachable m p s a o evs : RenderInv (run evs (init m p s a o)).
Proof.
  induction evs as [|ev evs IH] using rev_ind.
  - intros i t Hi. cbn in Hi. rewrite lookup_nil in Hi. discriminate.
  - rewrite run_snoc. apply RenderInv_step; [apply Inv_reachable | exact IH].
Qed.

(** X9: in every run, a click on a button of the attached widget does
    this.  The insert button always finds a stored result (a widget that has
    a picker has received one): the participant is asked to write it, then the
    widget hides.  The close button hides without writing.  Either way both
    keys end false and no widget is live.  A button the picker does not have
    does nothing. *)
Theorem X9_buttons
    (hasModel0 : bool) (viewPosition0 : option Position) (selection0 : option Selection)
    (hoverAbove0 : bool) (ordered0 : list DocumentColorProvider) (evs : list Event)
    (i : nat) (t : Widget) (p : ColorPickerWidget) :
  let w := run evs (init hasModel0 viewPosition0 selection0 hoverAbove0 ordered0) in
  i ∈ contentWidgets (editor w) →
  heap w !! i = Some t →
  colorPickerWidget t = Some p →
  (∃ d, _colorHoverData t = Some d
        ∧ (is_Some (enterButton p) →
             let w' := step (ev_enterButton_clicked i) w in
             calls w' = calls w ++ [updateEditorModel i [d]; removeContentWidget i; editor_focus]
             ∧ _standaloneColorPickerVisible w' = false
             ∧ _standaloneColorPickerFocused w' = false
             ∧ live_widgets w' = []))
  ∧ (closeButton p = true →
       let w' := step (ev_closeButton_clicked i) w in
       calls w' = calls w ++ [removeContentWidget i; editor_focus]
       ∧ _standaloneColorPickerVisible w' = false
       ∧ _standaloneColorPickerFocused w' = false
       ∧ live_widgets w' = [])
  ∧ (enterButton p = None → step (ev_enterButton_clicked i) w = w)
  ∧ (closeButton p = false → step (ev_closeButton_clicked i) w = w).
Proof.
  intros w Hin Hi Hp.
  pose proof (Inv_reachable hasModel0 viewPosition0 selection0 hoverAbove0 ordered0 evs) as HI.
  pose proof (RenderInv_reachable hasModel0 viewPosition0 selection0 hoverAbove0 ordered0 evs)
    as HR.
  fold w in HI, HR.
  assert (is_Some (_colorHoverData t)) as [d Hd] by (apply (HR i t Hi); rewrite Hp; eauto).
  pose proof (Inv_attached_live w i HI Hin) as Hl.
  assert (∀ w0, Inv w0 → is_live w0 i = true →
            _standaloneColorPickerVisible (hide i w0) = false
            ∧ _standaloneColorPickerFocused (hide i w0) = false
            ∧ live_widgets (hide i w0) = []) as Hhide.
  { intros w0 HI0 Hl0.
    assert (_standaloneColorPickerVisible (hide i w0) = false) as Hv
      by (rewrite hide_eq; reflexivity).
    destruct (Inv_hidden _ (Inv_hide_live i w0 HI0 Hl0) Hv) as (Hf & _ & _ & Hlw & _).
    auto. }
  split; [exists d; split; [assumption|]|split; [|split]].
  - intros He w'. subst w'. cbn [step]. unfold with_widget. rewrite Hi, Hp.
    rewrite bool_decide_eq_true_2 by assumption.
    rewrite bool_decide_eq_true_2 by assumption. cbn [andb]. unfold then_.
    split.
    + rewrite hide_eq. cbn [calls]. rewrite calls_updateEditor. unfold data_at.
      rewrite Hi, Hd, <- !app_assoc. reflexivity.
    + apply Hhide; [apply Inv_updateEditor; assumption|].
      rewrite is_live_updateEditor. assumption.
  - intros Hc w'. subst w'. cbn [step]. unfold with_widget. rewrite Hi, Hp, Hc.
    rewrite bool_decide_eq_true_2 by assumption. cbn [andb].
    split; [rewrite hide_eq; cbn [calls]; rewrite <- app_assoc; reflexivity|].
    apply Hhide; assumption.
  - intros He. cbn [step]. unfold with_widget. rewrite Hi, Hp, He.
    rewrite (bool_decide_eq_false_2 (is_Some None)) by (intros [x [=]]).
    rewrite andb_false_r. reflexivity.
  - intros Hc. cbn [step]. unfold with_widget. rewrite Hi, Hp, Hc.
    rewrite andb_false_r. reflexivity.
Qed.

Lemma X9_buttons_witness :
  let w := run [ev_showOrFocus;
                ev_createColorHover_resolved 0 (Some (hover_1, false))
                  (Some {| enterButton := Some "Insert"%string; closeButton := true |}) false]
               (init true None None false ["A"%string]) in
  calls (step (ev_enterButton_clicked 0) w)
  = calls w ++ [updateEditorModel 0 [hover_1]; removeContentWidget 0; editor_focus]
  ∧ calls (step (ev_closeButton_clicked 0) w)
    = calls w ++ [removeContentWidget 0; editor_focus].
Proof.
  destruct (X9_buttons true None None false ["A"%string]
              [ev_showOrFocus;
               ev_createColorHover_resolved 0 (Some (hover_1, false))
                 (Some {| enterButton := Some "Insert"%string; closeButton := true |}) false]
              0
              (rendered hover_1 false
                 (Some {| enterButton := Some "Insert"%string; closeButton := true |}) false
                 (constructed 0 (editor (init true None None false ["A"%string]))))
              {| enterButton := Some "Insert"%string; closeButton := true |})
    as ((d & Hd & He) & Hc & _).
  - cbn. apply list_elem_of_singleton. reflexivity.
  - reflexivity.
  - reflexivity.
  - cbn in Hd. injection Hd as <-. split.
    + apply He. eauto.
    + apply Hc. reflexivity.
Defined.

(** ** The stored result is written once *)

Lemma quiet_step_other ev : constructs_or_resumes ev = false → quiet (step ev).
Proof.
  destruct ev as [ | | |i answer picker moves| |i|i|i|i|i|m p s a o]; cbn; intros Hev;
    try discriminate.
  - apply quiet_controller_hide.
  - apply quiet_controller_insertColor.
  - apply quiet_cursorPositionChanged.
  - quiet_tac.
  - quiet_tac.
  - apply quiet_with_widget. intros this w0.
    destruct (colorPickerWidget this) as [q|]; [|apply (quiet_skip w0)].
    destruct (_ && _); [|apply (quiet_skip w0)].
    apply (quiet_then (updateEditor i) (hide i)); auto with quiet.
  - apply quiet_with_widget. intros this w0.
    destruct (colorPickerWidget this) as [q|]; [|apply (quiet_skip w0)].
    destruct (_ && _); [|apply (quiet_skip w0)].
    apply quiet_hide.
  - quiet_tac.
  - intros w. repeat split.
Qed.

(** What one event does to the suspended computers. *)
Lemma step_suspended ev w :
  suspended (step ev w) = suspended w
  ∨ suspended (step ev w) = suspended w ++ [length (heap w)]
  ∨ ∃ i answer picker moves,
      ev = ev_createColorHover_resolved i answer picker moves
      ∧ i ∈ suspended w
      ∧ suspended (step ev w) = remove_first i (suspended w).
Proof.
  destruct (constructs_or_resumes ev) eqn:Hev.
  - destruct ev as [ | | |i answer picker moves| | | | | | | ]; try discriminate.
    + cbn [step]. unfold StandaloneColorPickerController.showOrFocus.
      destruct (hasModel (editor w)) eqn:Hm; cbn; [|left; reflexivity].
      destruct (_standaloneColorPickerVisible w); cbn.
      * left. destruct (_standaloneColorPickerFocused w); cbn; [reflexivity|].
        unfold then_. destruct (_standaloneColorPickerWidget w); reflexivity.
      * right. left. unfold then_. destruct (new_acct (set_visible true w)) as (N1 & _).
        cbn [suspended editor_addContentWidget set_widget then_ call set_editor].
        cbn in N1. rewrite Hm in N1. exact N1.
    + cbn [step]. destruct (bool_decide (i ∈ suspended w)) eqn:Hin; [|left; reflexivity].
      right. right. exists i, answer, picker, moves.
      apply bool_decide_eq_true_1 in Hin. split; [reflexivity|]. split; [assumption|].
      unfold then_.
      destruct (resume_acct i answer picker moves
                  (set_suspended (remove_first i (suspended w)) w)) as (R1 & _).
      exact R1.
  - left. apply (quiet_step_other ev Hev w).
Qed.

Lemma occurrences_pos i l : i ∈ l → 1 ≤ occurrences i l.
Proof.
  induction l as [|x l IH]; intros Hin; [inversion Hin|].
  rewrite occurrences_cons. destruct (decide (x = i)) as [->|Hne]; [lia|].
  apply elem_of_cons in Hin. destruct Hin as [Hin|Hin]; [congruence|].
  specialize (IH Hin). lia.
Qed.

Lemma data_at_allocated w i : is_Some (data_at w i) → i < length (heap w).
Proof.
  unfold data_at. destruct (heap w !! i) as [t|] eqn:Hi; intros [x Hx]; [|discriminate].
  eapply lookup_lt_Some. eassumption.
Qed.

Lemma NoStale_step ev w : Inv w → Acct w → NoStale w → NoStale (step ev w).
Proof.
  intros HI (A1 & A2 & A3) HN i Hd Hin.
  rewrite (step_data ev w i HI) in Hd.
  destruct (step_suspended ev w) as [E|[E|(j & answer & picker & moves & -> & Hj & E)]];
    rewrite E in Hin.
  - destruct (delivers ev w i) as [d|] eqn:Hdel; [|apply (HN i Hd Hin)].
    destruct ev as [ | | |j [[d' f]|] pk mv| | | | | | | ]; try discriminate.
    cbn in Hdel. destruct (bool_decide (j = i)) eqn:Hji; [|discriminate].
    apply bool_decide_eq_true_1 in Hji. subst j.
    (* the answer was delivered, so the event took [i] off the list *)
    cbn [step] in E. rewrite (bool_decide_eq_true_2 _ Hin) in E. unfold then_ in E.
    destruct (resume_acct i (Some (d', f)) pk mv
                (set_suspended (remove_first i (suspended w)) w)) as (R1 & _).
    rewrite R1 in E. cbn in E.
    pose proof (occurrences_remove_first_eq i _ Hin) as Ho.
    rewrite E in Ho. lia.
  - destruct (delivers ev w i) as [d|] eqn:Hdel.
    + destruct ev as [ | | |j [[d' f]|] pk mv| | | | | | | ]; try discriminate.
      cbn in Hdel. destruct (bool_decide (j = i)) eqn:Hji; [|discriminate].
      destruct (bool_decide (i ∈ suspended w)) eqn:Hs; [|discriminate].
      apply bool_decide_eq_true_1 in Hji, Hs. subst j.
      cbn [step] in E. rewrite (bool_decide_eq_true_2 _ Hs) in E. unfold then_ in E.
      destruct (resume_acct i (Some (d', f)) pk mv
                  (set_suspended (remove_first i (suspended w)) w)) as (R1 & _).
      rewrite R1 in E. cbn in E.
      assert (length (remove_first i (suspended w)) = length (suspended w ++ [length (heap w)]))
        as Hlen by (rewrite E; reflexivity).
      rewrite length_app in Hlen. cbn in Hlen.
      assert (∀ l, length (remove_first i l) ≤ length l) as Hle.
      { induction l as [|x l IHl]; [reflexivity|]. cbn. destruct (decide (x = i)); cbn; lia. }
      specialize (Hle (suspended w)). lia.
    + apply elem_of_app in Hin. destruct Hin as [Hin|Hin]; [apply (HN i Hd Hin)|].
      apply list_elem_of_singleton in Hin. apply data_at_allocated in Hd. lia.
  - destruct (delivers (ev_createColorHover_resolved j answer picker moves) w i)
      as [d|] eqn:Hdel.
    + destruct answer as [[d' f]|]; [|discriminate]. cbn in Hdel.
      destruct (bool_decide (j = i)) eqn:Hji; [|discriminate].
      apply bool_decide_eq_true_1 in Hji. subst j.
      pose proof (occurrences_remove_first_eq i _ Hj) as Ho.
      pose proof (occurrences_pos i _ Hin). specialize (A3 i). lia.
    + apply (HN i Hd). eapply elem_of_remove_first. eassumption.
Qed.

Lemma Acct_reachable m p s a o evs : Acct (run evs (init m p s a o)).
Proof. apply Acct_run, Acct_init. Qed.

Lemma NoStale_reachable m p s a o evs : NoStale (run evs (init m p s a o)).
Proof.
  induction evs as [|ev evs IH] using rev_ind.
  - intros i [x Hx]. discriminate.
  - rewrite run_snoc.
    apply NoStale_step; [apply Inv_reachable | apply Acct_reachable | exact IH].
Qed.

Lemma run_app evs1 evs2 w : run (evs1 ++ evs2) w = run evs2 (run evs1 w).
Proof. unfold run, for_each. apply foldl_app. Qed.

(** X14: in every run, the result a widget stores is written once: from
    the moment a widget holds a result, and from the moment a widget is
    hidden, its stored result never changes, whatever happens afterwards.  A
    widget hidden before its answer arrived never stores one; a widget that
    has rendered keeps its result and never renders a second one. *)
Theorem X14_stored_result_is_final
    (hasModel0 : bool) (viewPosition0 : option Position) (selection0 : option Selection)
    (hoverAbove0 : bool) (ordered0 : list DocumentColorProvider)
    (evs1 evs2 : list Event) (i : nat) :
  let w1 := run evs1 (init hasModel0 viewPosition0 selection0 hoverAbove0 ordered0) in
  is_Some (data_at w1 i) ∨ (i < length (heap w1) ∧ is_live w1 i = false) →
  data_at (run evs2 w1) i = data_at w1 i.
Proof.
  intros w1 Hc.
  assert (data_at (run evs2 w1) i = data_at w1 i
          ∧ (is_Some (data_at (run evs2 w1) i)
             ∨ (i < length (heap (run evs2 w1)) ∧ is_live (run evs2 w1) i = false))) as [H _];
    [|exact H].
  induction evs2 as [|ev evs2 IH] using rev_ind; [split; [reflexivity | exact Hc]|].
  destruct IH as [IHd IHc]. rewrite run_snoc.
  set (w := run evs2 w1) in *.
  assert (w = run (evs1 ++ evs2)
                (init hasModel0 viewPosition0 selection0 hoverAbove0 ordered0)) as Ew
    by (unfold w, w1; rewrite run_app; reflexivity).
  assert (Inv w) as HI by (rewrite Ew; apply Inv_reachable).
  assert (NoStale w) as HN by (rewrite Ew; apply NoStale_reachable).
  assert (delivers ev w i = None) as Hdel.
  { destruct ev as [ | | |j [[d f]|] pk mv| | | | | | | ]; try reflexivity. cbn.
    destruct (bool_decide (j = i)); [|reflexivity]. cbn.
    destruct IHc as [Hs|[_ Hl]].
    - rewrite (bool_decide_eq_false_2 _ (HN i Hs)). reflexivity.
    - rewrite Hl, andb_false_r. reflexivity. }
  assert (data_at (step ev w) i = data_at w i) as Hd
    by (rewrite (step_data ev w i HI), Hdel; reflexivity).
  split; [congruence|].
  destruct IHc as [Hs|[Hlt Hl]]; [left; rewrite Hd; exact Hs|right].
  destruct (lookup_lt_is_Some_2 (heap w) i Hlt) as [t Ht].
  destruct (evolution_step ev w i t Ht) as (t' & Ht' & _ & _ & _ & Hdis & _).
  split; [eapply lookup_lt_Some; eassumption|].
  unfold is_live in Hl |- *. rewrite Ht in Hl. rewrite Ht'.
  destruct (_disposables t); [|discriminate]. rewrite (Hdis eq_refl). reflexivity.
Qed.

Lemma X14_stored_result_is_final_witness :
  let w1 := run [ev_showOrFocus; ev_hide] (init true None None false ["A"%string]) in
  data_at (run [ev_createColorHover_resolved 0 (Some (hover_1, true)) None false;
                ev_showOrFocus] w1) 0
  = None.
Proof.
  exact (X14_stored_result_is_final true None None false ["A"%string]
           [ev_showOrFocus; ev_hide]
           [ev_createColorHover_resolved 0 (Some (hover_1, true)) None false; ev_showOrFocus]
           0 (or_intror (conj (le_n 1) eq_refl))).
Defined.

(** ** What the lookups carry *)

#[local] Instance no_new_lookup_preorder : PreOrder no_new_lookup.
Proof.
  split.
  - intros w. exists []. split; [symmetry; apply app_nil_r | constructor].
  - intros w1 w2 w3 (c1 & E1 & F1) (c2 & E2 & F2). exists (c1 ++ c2). split.
    + rewrite E2, E1, app_assoc. reflexivity.
    + apply Forall_app. split; assumption.
Qed.

Lemma no_new_lookup_same_calls w w' : calls w' = calls w → no_new_lookup w w'.
Proof. intros E. exists []. split; [rewrite E; symmetry; apply app_nil_r | constructor]. Qed.

#[local] Instance no_new_lookup_primitives : Primitives no_new_lookup.
Proof.
  split; try (intros; intros w; apply no_new_lookup_same_calls; reflexivity).
  intros c Hc w. exists [c]. split; [reflexivity|]. repeat constructor. assumption.
Qed.

#[local] Instance no_new_lookup_render_primitives : RenderPrimitives no_new_lookup.
Proof. split; intros; intros w; apply no_new_lookup_same_calls; reflexivity. Qed.

Lemma LookupInv_no_new_lookup w w' :
  no_new_lookup w w' → evolution w w' → LookupInv w → LookupInv w'.
Proof.
  intros (cs & E & F) Hev HL i colorInfo provider Hin. rewrite E in Hin.
  apply elem_of_app in Hin. destruct Hin as [Hin|Hin].
  - destruct (HL i colorInfo provider Hin) as (t & Ht & Hc).
    destruct (Hev i t Ht) as (t' & Ht' & _ & Hs & _).
    exists t'. split; [assumption|]. rewrite Hs. assumption.
  - rewrite Forall_forall in F. specialize (F _ Hin). discriminate.
Qed.

Lemma LookupInv_showOrFocus w :
  LookupInv w → LookupInv (StandaloneColorPickerController.showOrFocus w).
Proof.
  intros HL. destruct (_standaloneColorPickerVisible w) eqn:Hv;
    [|destruct (hasModel (editor w)) eqn:Hm].
  - apply (LookupInv_no_new_lookup w); [|apply evolution_showOrFocus|assumption].
    unfold StandaloneColorPickerController.showOrFocus. rewrite Hv.
    destruct (hasModel (editor w)); cbn; [|reflexivity].
    destruct (_standaloneColorPickerFocused w); cbn; [reflexivity|].
    unfold then_. destruct (_standaloneColorPickerWidget w);
      [|apply no_new_lookup_same_calls; reflexivity].
    exists [body_focus n]. split; [reflexivity|]. repeat constructor.
  - rewrite showOrFocus_new_eq by assumption. rewrite new_eq.
    intros i colorInfo provider Hin. cbn in Hin |- *. rewrite Hm in Hin.
    apply elem_of_app in Hin. destruct Hin as [Hin|Hin];
      [apply elem_of_app in Hin; destruct Hin as [Hin|Hin]|].
    + destruct (HL i colorInfo provider Hin) as (t & Ht & Hc). exists t.
      split; [|assumption].
      rewrite lookup_app_l by (eapply lookup_lt_Some; eassumption). assumption.
    + apply list_elem_of_singleton in Hin. injection Hin as -> -> _.
      exists (constructed (length (heap w)) (editor w)).
      split; [apply list_lookup_middle; reflexivity | reflexivity].
    + apply list_elem_of_singleton in Hin. discriminate.
  - unfold StandaloneColorPickerController.showOrFocus. rewrite Hm. assumption.
Qed.

Lemma LookupInv_step ev w : LookupInv w → LookupInv (step ev w).
Proof.
  intros HL. destruct (constructs_or_resumes ev) eqn:Hev.
  - destruct ev; try discriminate.
    + apply LookupInv_showOrFocus. assumption.
    + apply (LookupInv_no_new_lookup w); [|apply evolution_step|assumption].
      apply respects_resolved; typeclasses eauto.
  - apply (LookupInv_no_new_lookup w); [|apply evolution_step|assumption].
    apply respects_step_other; [typeclasses eauto.. | assumption].
Qed.

(** X15: in every run, every lookup in the log was sent for a widget of
    the store and carries that widget's range, the snapshot of the selection
    the widget read in its constructor (four zeros without a selection),
    together with the placeholder color (0, 0, 0, 1). *)
Theorem X15_lookup_carries_the_snapshot
    (hasModel0 : bool) (viewPosition0 : option Position) (selection0 : option Selection)
    (hoverAbove0 : bool) (ordered0 : list DocumentColorProvider) (evs : list Event)
    (i : nat) (colorInfo : IColorInformation) (provider : option DocumentColorProvider) :
  let w := run evs (init hasModel0 viewPosition0 selection0 hoverAbove0 ordered0) in
  createColorHover i colorInfo provider ∈ calls w →
  ∃ t, heap w !! i = Some t
       ∧ info_range colorInfo = selection_snapshot (_selection t)
       ∧ info_color colorInfo = {| red := 0; green := 0; blue := 0; alpha := 1 |}
       ∧ _range (_standaloneColorPickerComputer t) = Some (info_range colorInfo).
Proof.
  intros w Hin.
  assert (LookupInv w) as HL.
  { unfold w. clear Hin. induction evs as [|ev evs IH] using rev_ind.
    - intros k c q H. inversion H.
    - rewrite run_snoc. apply LookupInv_step. exact IH. }
  destruct (HL i colorInfo provider Hin) as (t & Ht & ->).
  exists t. split; [assumption|]. split; [reflexivity|]. split; [reflexivity|].
  cbn. apply (Inv_good_widget w i t); [apply Inv_reachable | assumption].
Qed.

Lemma X15_lookup_carries_the_snapshot_witness :
  let s := {| startLineNumber := 2; startColumn := 3; endLineNumber := 2; endColumn := 9 |} in
  let w := run [ev_showOrFocus] (init true None (Some s) false ["A"%string]) in
  ∃ t, heap w !! 0 = Some t ∧ _selection t = Some s.
Proof.
  destruct (X15_lookup_carries_the_snapshot true None
              (Some {| startLineNumber := 2; startColumn := 3;
                       endLineNumber := 2; endColumn := 9 |})
              false ["A"%string] [ev_showOrFocus] 0
              (colorInfo_of {| startLineNumber := 2; startColumn := 3;
                               endLineNumber := 2; endColumn := 9 |})
              (Some "A"%string))
    as (t & Ht & _).
  - cbn. left.
  - exists t. split; [exact Ht|]. cbn in Ht. injection Ht as <-. reflexivity.
Defined.

Lemma X5_insertColor_writes_then_hides_witness :
  let w := StandaloneColorPickerController.showOrFocus (init true None None false []) in
  let w' := StandaloneColorPickerController.insertColor w in
  _standaloneColorPickerWidget w = Some 0
  ∧ is_live w' 0 = false ∧ 0 ∉ contentWidgets (editor w').
Proof.
  split; [reflexivity|].
  exact (proj2 (proj2 (proj2 (X5_insertColor_writes_then_hides
                                (StandaloneColorPickerController.showOrFocus
                                   (init true None None false []))))) 0 eq_refl).
Defined.
